(** * Verification of the Redis metrics exporter (exporter/exporter.go)

    A shallow embedding of [NewRedisExporter], [Collect],
    [extractConfigMetrics] and [scrapeRedisHost], followed by the
    properties of the exporter's specification that concern them.

    Conventions.
    - Go strings are byte strings: [string] (a list of [ascii]).
    - A Go [map[string]string] is a [gmap string string].
    - [int] is taken to be 64 bits wide.
    - A Go function is a computation in the monad [Go R A]: it
      produces the trace of its effects (the metrics sent on the channel
      [ch chan<- prometheus.Metric], the calls made, the updates of the
      exporter's own counters), and it ends by going on to the next
      statement, by a [return] of a value of type [R], or by a panic
      (an index out of range). *)

From Stdlib Require Import ZArith String Ascii List Lia.
From Stdlib Require QArith.
From stdpp Require Import gmap strings list.

Set Warnings "-register-all".

Local Open Scope string_scope.
Local Open Scope Z_scope.

(** ** The Go library functions the exporter calls *)

Module strings.

(** [strings.HasPrefix(s, prefix)]. *)
Definition HasPrefix (s pre : string) : bool := String.prefix pre s.

(** [strings.Index(s, substr)]: position of the first occurrence. *)
Definition Index (s substr : string) : option nat := String.index 0 substr s.

(** [strings.Contains(s, substr)]. *)
Definition Contains (s substr : string) : bool :=
  match Index s substr with Some _ => true | None => false end.

(** [strings.Replace(s, old, new, 1)]: the first occurrence of [old],
    if there is one, is replaced by [new]. *)
Definition Replace1 (s old new : string) : string :=
  match Index s old with
  | None => s
  | Some i =>
      let j := (i + String.length old)%nat in
      substring 0 i s +:+ new +:+ substring j (String.length s - j) s
  end.

(** [strings.ReplaceAll(s, old, new)] for one-byte [old] and [new]. *)
Fixpoint ReplaceAll (s : string) (old new : ascii) : string :=
  match s with
  | EmptyString => EmptyString
  | String a r =>
      String (if Ascii.eqb a old then new else a) (ReplaceAll r old new)
  end.

(** [strings.Split(s, sep)] for a one-byte separator: one more piece
    than there are separators, empty pieces included. *)
Fixpoint Split (s : string) (sep : ascii) : list string :=
  match s with
  | EmptyString => [EmptyString]
  | String a r =>
      if Ascii.eqb a sep then EmptyString :: Split r sep
      else match Split r sep with
           | [] => [String a EmptyString]
           | w :: ws => String a w :: ws
           end
  end.

End strings.

Module strconv.

Definition isDigit (a : ascii) : bool :=
  ((48 <=? nat_of_ascii a) && (nat_of_ascii a <=? 57))%nat.

Fixpoint digits (s : string) (acc : Z) : option Z :=
  match s with
  | EmptyString => Some acc
  | String a r =>
      if isDigit a then digits r (acc * 10 + (Z.of_nat (nat_of_ascii a) - 48))
      else None
  end.

(** [strconv.Atoi(s)]: an optional sign followed by one or more decimal
    digits, the value within the range of [int]; [None] stands for a
    non-nil error. *)
Definition Atoi (s : string) : option Z :=
  let (neg, body) :=
    match s with
    | String "-" r => (true, r)
    | String "+" r => (false, r)
    | _ => (false, s)
    end in
  match body with
  | EmptyString => None
  | _ =>
      match digits body 0 with
      | None => None
      | Some n =>
          let v := if neg then - n else n in
          if (- 2 ^ 63 <=? v) && (v <=? 2 ^ 63 - 1) then Some v else None
      end
  end.

End strconv.

(** Go's [error], represented by its message. *)
Definition error := string.

(** ** Replies of the command executor (redigo) *)

Inductive Reply :=
| RBulk (s : string)
| RSimple (s : string)
| RInt (n : Z)
| RArray (l : list Reply)
| RNil
| RError (msg : string).

Module redis.

Definition ErrNil : error := "redigo: nil returned".

(** The [%T] rendering of a reply's dynamic type. *)
Definition typeName (r : Reply) : string :=
  match r with
  | RBulk _ => "[]uint8"
  | RSimple _ => "string"
  | RInt _ => "int64"
  | RArray _ => "[]interface {}"
  | RNil => "<nil>"
  | RError _ => "redis.Error"
  end.

(** [redis.String(reply, err)]. *)
Definition String (r : error + Reply) : error + string :=
  match r with
  | inl err => inl err
  | inr (RBulk s) => inr s
  | inr (RSimple s) => inr s
  | inr RNil => inl ErrNil
  | inr (RError msg) => inl msg
  | inr r => inl ("redigo: unexpected type for String, got type " +:+ typeName r)
  end.

(** [redis.Values(reply, err)]. *)
Definition Values (r : error + Reply) : error + list Reply :=
  match r with
  | inl err => inl err
  | inr (RArray l) => inr l
  | inr RNil => inl ErrNil
  | inr (RError msg) => inl msg
  | inr r => inl ("redigo: unexpected type for Values, got type " +:+ typeName r)
  end.

End redis.

(** The type of floating-point values is kept abstract. *)
Class Float64 := float64 : Type.

(** What the Go runtime provides and this development keeps abstract:
    [f64 n], the conversion of the integer constant [n]; [ParseFloat s],
    which is [strconv.ParseFloat(s, 64)] with [None] standing for a
    non-nil error; and the [%#v] renderings by [fmt] of a reply list
    and of a string. *)
Class GoLib `{Float64} := {
  f64 : Z -> float64;
  ParseFloat : string -> option float64;
  GoSyntaxValues : list Reply -> string;
  GoSyntaxString : string -> string;
}.

(** ** The exporter's data *)

Record Options := {
  Namespace : string;
  ConfigCommandName : string;
  CheckKeys : string;
  CheckSingleKeys : string;
  CheckStreams : string;
  CheckSingleStreams : string;
  CountKeys : string;
  (** [map[string][]byte]; the list is the map in the order in which
      [range] visits it. *)
  LuaScript : list (string * string);
  InclConfigMetrics : bool;
  InclModulesMetrics : bool;
  ExcludeLatencyHistogramMetrics : bool;
  RedactConfigMetrics : bool;
  InclSystemMetrics : bool;
  SetClientName : bool;
  IsTile38 : bool;
  ExportClientList : bool;
  MetricsPath : string;
  PingOnConnect : bool;
  SkipCheckKeysForRoleMaster : bool;
}.

Record Exporter := {
  redisAddr : string;
  options : Options;
  metricMapCounters : gmap string string;
  metricMapGauges : gmap string string;
}.

Definition withConfigCommandName (o : Options) (v : string) : Options :=
  {| Namespace := Namespace o; ConfigCommandName := v;
     CheckKeys := CheckKeys o; CheckSingleKeys := CheckSingleKeys o;
     CheckStreams := CheckStreams o; CheckSingleStreams := CheckSingleStreams o;
     CountKeys := CountKeys o; LuaScript := LuaScript o;
     InclConfigMetrics := InclConfigMetrics o;
     InclModulesMetrics := InclModulesMetrics o;
     ExcludeLatencyHistogramMetrics := ExcludeLatencyHistogramMetrics o;
     RedactConfigMetrics := RedactConfigMetrics o;
     InclSystemMetrics := InclSystemMetrics o;
     SetClientName := SetClientName o; IsTile38 := IsTile38 o;
     ExportClientList := ExportClientList o; MetricsPath := MetricsPath o;
     PingOnConnect := PingOnConnect o;
     SkipCheckKeysForRoleMaster := SkipCheckKeysForRoleMaster o |}.

Definition withMetricsPath (o : Options) (v : string) : Options :=
  {| Namespace := Namespace o; ConfigCommandName := ConfigCommandName o;
     CheckKeys := CheckKeys o; CheckSingleKeys := CheckSingleKeys o;
     CheckStreams := CheckStreams o; CheckSingleStreams := CheckSingleStreams o;
     CountKeys := CountKeys o; LuaScript := LuaScript o;
     InclConfigMetrics := InclConfigMetrics o;
     InclModulesMetrics := InclModulesMetrics o;
     ExcludeLatencyHistogramMetrics := ExcludeLatencyHistogramMetrics o;
     RedactConfigMetrics := RedactConfigMetrics o;
     InclSystemMetrics := InclSystemMetrics o;
     SetClientName := SetClientName o; IsTile38 := IsTile38 o;
     ExportClientList := ExportClientList o; MetricsPath := v;
     PingOnConnect := PingOnConnect o;
     SkipCheckKeysForRoleMaster := SkipCheckKeysForRoleMaster o |}.

(** The literal of [metricMapGauges] in [NewRedisExporter]. *)
Definition gaugeEntries : list (string * string) :=
  [
    ("uptime_in_seconds", "uptime_in_seconds");
    ("process_id", "process_id");
    ("io_threads_active", "io_threads_active");
    ("connected_clients", "connected_clients");
    ("blocked_clients", "blocked_clients");
    ("maxclients", "max_clients");
    ("tracking_clients", "tracking_clients");
    ("clients_in_timeout_table", "clients_in_timeout_table");
    ("pubsub_clients", "pubsub_clients");
    ("watching_clients", "watching_clients");
    ("total_watched_keys", "total_watched_keys");
    ("total_blocking_keys", "total_blocking_keys");
    ("total_blocking_keys_on_nokey", "total_blocking_keys_on_nokey");
    ("client_longest_output_list", "client_longest_output_list");
    ("client_biggest_input_buf", "client_biggest_input_buf");
    ("client_recent_max_output_buffer", "client_recent_max_output_buffer_bytes");
    ("client_recent_max_input_buffer", "client_recent_max_input_buffer_bytes");
    ("allocator_active", "allocator_active_bytes");
    ("allocator_allocated", "allocator_allocated_bytes");
    ("allocator_resident", "allocator_resident_bytes");
    ("allocator_frag_ratio", "allocator_frag_ratio");
    ("allocator_frag_bytes", "allocator_frag_bytes");
    ("allocator_muzzy", "allocator_muzzy_bytes");
    ("allocator_rss_ratio", "allocator_rss_ratio");
    ("allocator_rss_bytes", "allocator_rss_bytes");
    ("used_memory", "memory_used_bytes");
    ("used_memory_rss", "memory_used_rss_bytes");
    ("used_memory_peak", "memory_used_peak_bytes");
    ("used_memory_lua", "memory_used_lua_bytes");
    ("used_memory_vm_eval", "memory_used_vm_eval_bytes");
    ("used_memory_scripts_eval", "memory_used_scripts_eval_bytes");
    ("used_memory_overhead", "memory_used_overhead_bytes");
    ("used_memory_startup", "memory_used_startup_bytes");
    ("used_memory_dataset", "memory_used_dataset_bytes");
    ("number_of_cached_scripts", "number_of_cached_scripts");
    ("number_of_functions", "number_of_functions");
    ("number_of_libraries", "number_of_libraries");
    ("used_memory_vm_functions", "memory_used_vm_functions_bytes");
    ("used_memory_scripts", "memory_used_scripts_bytes");
    ("used_memory_functions", "memory_used_functions_bytes");
    ("used_memory_vm_total", "memory_used_vm_total");
    ("maxmemory", "memory_max_bytes");
    ("maxmemory_reservation", "memory_max_reservation_bytes");
    ("maxmemory_desired_reservation", "memory_max_reservation_desired_bytes");
    ("maxfragmentationmemory_reservation", "memory_max_fragmentation_reservation_bytes");
    ("maxfragmentationmemory_desired_reservation", "memory_max_fragmentation_reservation_desired_bytes");
    ("mem_fragmentation_ratio", "mem_fragmentation_ratio");
    ("mem_fragmentation_bytes", "mem_fragmentation_bytes");
    ("mem_clients_slaves", "mem_clients_slaves");
    ("mem_clients_normal", "mem_clients_normal");
    ("mem_cluster_links", "mem_cluster_links_bytes");
    ("mem_aof_buffer", "mem_aof_buffer_bytes");
    ("mem_replication_backlog", "mem_replication_backlog_bytes");
    ("expired_stale_perc", "expired_stale_percentage");
    ("mem_not_counted_for_evict", "mem_not_counted_for_eviction_bytes");
    ("mem_total_replication_buffers", "mem_total_replication_buffers_bytes");
    ("mem_overhead_db_hashtable_rehashing", "mem_overhead_db_hashtable_rehashing_bytes");
    ("lazyfree_pending_objects", "lazyfree_pending_objects");
    ("lazyfreed_objects", "lazyfreed_objects");
    ("active_defrag_running", "active_defrag_running");
    ("migrate_cached_sockets", "migrate_cached_sockets_total");
    ("active_defrag_hits", "defrag_hits");
    ("active_defrag_misses", "defrag_misses");
    ("active_defrag_key_hits", "defrag_key_hits");
    ("active_defrag_key_misses", "defrag_key_misses");
    ("expired_time_cap_reached_count", "expired_time_cap_reached_total");
    ("loading", "loading_dump_file");
    ("async_loading", "async_loading");
    ("rdb_changes_since_last_save", "rdb_changes_since_last_save");
    ("rdb_bgsave_in_progress", "rdb_bgsave_in_progress");
    ("rdb_last_save_time", "rdb_last_save_timestamp_seconds");
    ("rdb_last_bgsave_status", "rdb_last_bgsave_status");
    ("rdb_last_bgsave_time_sec", "rdb_last_bgsave_duration_sec");
    ("rdb_current_bgsave_time_sec", "rdb_current_bgsave_duration_sec");
    ("rdb_saves", "rdb_saves_total");
    ("rdb_last_cow_size", "rdb_last_cow_size_bytes");
    ("rdb_last_load_keys_expired", "rdb_last_load_expired_keys");
    ("rdb_last_load_keys_loaded", "rdb_last_load_loaded_keys");
    ("aof_enabled", "aof_enabled");
    ("aof_rewrite_in_progress", "aof_rewrite_in_progress");
    ("aof_rewrite_scheduled", "aof_rewrite_scheduled");
    ("aof_last_rewrite_time_sec", "aof_last_rewrite_duration_sec");
    ("aof_current_rewrite_time_sec", "aof_current_rewrite_duration_sec");
    ("aof_last_cow_size", "aof_last_cow_size_bytes");
    ("aof_current_size", "aof_current_size_bytes");
    ("aof_base_size", "aof_base_size_bytes");
    ("aof_pending_rewrite", "aof_pending_rewrite");
    ("aof_buffer_length", "aof_buffer_length");
    ("aof_rewrite_buffer_length", "aof_rewrite_buffer_length");
    ("aof_pending_bio_fsync", "aof_pending_bio_fsync");
    ("aof_delayed_fsync", "aof_delayed_fsync");
    ("aof_last_bgrewrite_status", "aof_last_bgrewrite_status");
    ("aof_last_write_status", "aof_last_write_status");
    ("module_fork_in_progress", "module_fork_in_progress");
    ("module_fork_last_cow_size", "module_fork_last_cow_size");
    ("current_eviction_exceeded_time", "current_eviction_exceeded_time_ms");
    ("pubsub_channels", "pubsub_channels");
    ("pubsub_patterns", "pubsub_patterns");
    ("pubsubshard_channels", "pubsubshard_channels");
    ("latest_fork_usec", "latest_fork_usec");
    ("tracking_total_keys", "tracking_total_keys");
    ("tracking_total_items", "tracking_total_items");
    ("tracking_total_prefixes", "tracking_total_prefixes");
    ("connected_slaves", "connected_slaves");
    ("repl_backlog_size", "replication_backlog_bytes");
    ("repl_backlog_active", "repl_backlog_is_active");
    ("repl_backlog_first_byte_offset", "repl_backlog_first_byte_offset");
    ("repl_backlog_histlen", "repl_backlog_history_bytes");
    ("master_repl_offset", "master_repl_offset");
    ("second_repl_offset", "second_repl_offset");
    ("slave_expires_tracked_keys", "slave_expires_tracked_keys");
    ("slave_priority", "slave_priority");
    ("sync_full", "replica_resyncs_full");
    ("sync_partial_ok", "replica_partial_resync_accepted");
    ("sync_partial_err", "replica_partial_resync_denied");
    ("cluster_stats_messages_sent", "cluster_messages_sent_total");
    ("cluster_stats_messages_received", "cluster_messages_received_total");
    ("tile38_aof_size", "tile38_aof_size_bytes");
    ("tile38_avg_point_size", "tile38_avg_item_size_bytes");
    ("tile38_sys_cpus", "tile38_cpus_total");
    ("tile38_heap_released_bytes", "tile38_heap_released_bytes");
    ("tile38_heap_alloc_bytes", "tile38_heap_size_bytes");
    ("tile38_http_transport", "tile38_http_transport");
    ("tile38_in_memory_size", "tile38_in_memory_size_bytes");
    ("tile38_max_heap_size", "tile38_max_heap_size_bytes");
    ("tile38_alloc_bytes", "tile38_mem_alloc_bytes");
    ("tile38_num_collections", "tile38_num_collections_total");
    ("tile38_num_hooks", "tile38_num_hooks_total");
    ("tile38_num_objects", "tile38_num_objects_total");
    ("tile38_num_points", "tile38_num_points_total");
    ("tile38_pointer_size", "tile38_pointer_size_bytes");
    ("tile38_read_only", "tile38_read_only");
    ("tile38_go_threads", "tile38_threads_total");
    ("tile38_go_goroutines", "tile38_go_goroutines_total");
    ("tile38_last_gc_time_seconds", "tile38_last_gc_time_seconds");
    ("tile38_next_gc_bytes", "tile38_next_gc_bytes");
    ("server_threads", "server_threads_total");
    ("long_lock_waits", "long_lock_waits_total");
    ("current_client_thread", "current_client_thread");
    ("search_number_of_indexes", "search_number_of_indexes");
    ("search_used_memory_indexes", "search_used_memory_indexes_bytes");
    ("search_global_idle", "search_global_idle");
    ("search_global_total", "search_global_total");
    ("search_bytes_collected", "search_collected_bytes");
    ("search_dialect_1", "search_dialect_1");
    ("search_dialect_2", "search_dialect_2");
    ("search_dialect_3", "search_dialect_3");
    ("search_dialect_4", "search_dialect_4");
    ("search_number_of_active_indexes", "search_number_of_active_indexes");
    ("search_number_of_active_indexes_running_queries", "search_number_of_active_indexes_running_queries");
    ("search_number_of_active_indexes_indexing", "search_number_of_active_indexes_indexing");
    ("search_total_active_write_threads", "search_total_active_write_threads");
    ("search_smallest_memory_index", "search_smallest_memory_index_bytes");
    ("search_largest_memory_index", "search_largest_memory_index_bytes");
    ("search_used_memory_vector_index", "search_used_memory_vector_index_bytes");
    ("search_global_idle_user", "search_global_idle_user");
    ("search_global_idle_internal", "search_global_idle_internal");
    ("search_global_total_user", "search_global_total_user");
    ("search_global_total_internal", "search_global_total_internal");
    ("search_gc_bytes_collected", "search_gc_collected_bytes");
    ("search_gc_total_docs_not_collected", "search_gc_total_docs_not_collected");
    ("search_gc_marked_deleted_vectors", "search_gc_marked_deleted_vectors");
    ("search_errors_indexing_failures", "search_errors_indexing_failures")
  ].

(** The literal of [metricMapCounters] in [NewRedisExporter]. *)
Definition counterEntries : list (string * string) :=
  [
    ("total_connections_received", "connections_received_total");
    ("total_commands_processed", "commands_processed_total");
    ("rejected_connections", "rejected_connections_total");
    ("total_net_input_bytes", "net_input_bytes_total");
    ("total_net_output_bytes", "net_output_bytes_total");
    ("total_net_repl_input_bytes", "net_repl_input_bytes_total");
    ("total_net_repl_output_bytes", "net_repl_output_bytes_total");
    ("expired_subkeys", "expired_subkeys_total");
    ("expired_keys", "expired_keys_total");
    ("expired_time_cap_reached_count", "expired_time_cap_reached_total");
    ("expire_cycle_cpu_milliseconds", "expire_cycle_cpu_time_ms_total");
    ("evicted_keys", "evicted_keys_total");
    ("evicted_clients", "evicted_clients_total");
    ("evicted_scripts", "evicted_scripts_total");
    ("total_eviction_exceeded_time", "eviction_exceeded_time_ms_total");
    ("keyspace_hits", "keyspace_hits_total");
    ("keyspace_misses", "keyspace_misses_total");
    ("used_cpu_sys", "cpu_sys_seconds_total");
    ("used_cpu_user", "cpu_user_seconds_total");
    ("used_cpu_sys_children", "cpu_sys_children_seconds_total");
    ("used_cpu_user_children", "cpu_user_children_seconds_total");
    ("used_cpu_sys_main_thread", "cpu_sys_main_thread_seconds_total");
    ("used_cpu_user_main_thread", "cpu_user_main_thread_seconds_total");
    ("unexpected_error_replies", "unexpected_error_replies");
    ("total_error_replies", "total_error_replies");
    ("dump_payload_sanitizations", "dump_payload_sanitizations");
    ("total_reads_processed", "total_reads_processed");
    ("total_writes_processed", "total_writes_processed");
    ("io_threaded_reads_processed", "io_threaded_reads_processed");
    ("io_threaded_writes_processed", "io_threaded_writes_processed");
    ("client_query_buffer_limit_disconnections", "client_query_buffer_limit_disconnections_total");
    ("client_output_buffer_limit_disconnections", "client_output_buffer_limit_disconnections_total");
    ("reply_buffer_shrinks", "reply_buffer_shrinks_total");
    ("reply_buffer_expands", "reply_buffer_expands_total");
    ("acl_access_denied_auth", "acl_access_denied_auth_total");
    ("acl_access_denied_cmd", "acl_access_denied_cmd_total");
    ("acl_access_denied_key", "acl_access_denied_key_total");
    ("acl_access_denied_channel", "acl_access_denied_channel_total");
    ("cached_keys", "cached_keys_total");
    ("storage_provider_read_hits", "storage_provider_read_hits");
    ("storage_provider_read_misses", "storage_provider_read_misses");
    ("search_total_indexing_time", "search_indexing_time_ms_total");
    ("search_total_cycles", "search_cycles_total");
    ("search_total_ms_run", "search_run_ms_total");
    ("search_gc_total_cycles", "search_gc_cycles_total");
    ("search_gc_total_ms_run", "search_gc_run_ms_total");
    ("search_total_queries_processed", "search_queries_processed_total");
    ("search_total_query_commands", "search_query_commands_total");
    ("search_total_query_execution_time_ms", "search_query_execution_time_ms_total");
    ("search_total_active_queries", "search_active_queries_total")
  ].

Section NewRedisExporter.

(** [parseKeyArg] belongs to another file of the exporter; only whether
    it fails matters to [NewRedisExporter], which logs its result. *)
Variable parseKeyArg : string -> option error.

(** [NewRedisExporter(uri, opts)]; [inl err] is [(nil, err)].  The
    fields of the exporter that hold Prometheus objects and the HTTP
    mux are left out. *)
Definition NewRedisExporter (uri : string) (opts : Options) : error + Exporter :=
  let uri :=
    if strings.HasPrefix uri "valkey://" then
      strings.Replace1 uri "valkey://" "redis://"
    else if strings.HasPrefix uri "valkeys://" then
      strings.Replace1 uri "valkeys://" "rediss://"
    else uri in
  let gauges : gmap string string := list_to_map gaugeEntries in
  let counters : gmap string string := list_to_map counterEntries in
  let o := opts in
  let o :=
    if String.eqb (ConfigCommandName o) ""
    then withConfigCommandName o "CONFIG" else o in
  match parseKeyArg (CheckKeys opts) with
  | Some err => inl ("couldn't parse check-keys: " +:+ err)
  | None =>
  match parseKeyArg (CheckSingleKeys opts) with
  | Some err => inl ("couldn't parse check-single-keys: " +:+ err)
  | None =>
  match parseKeyArg (CheckStreams opts) with
  | Some err => inl ("couldn't parse check-streams: " +:+ err)
  | None =>
  match parseKeyArg (CheckSingleStreams opts) with
  | Some err => inl ("couldn't parse check-single-streams: " +:+ err)
  | None =>
  match parseKeyArg (CountKeys opts) with
  | Some err => inl ("couldn't parse count-keys: " +:+ err)
  | None =>
      let gauges :=
        if InclSystemMetrics opts
        then <["total_system_memory" := "total_system_memory_bytes"]> gauges
        else gauges in
      let o :=
        if String.eqb (MetricsPath o) ""
        then withMetricsPath o "/metrics" else o in
      inr {| redisAddr := uri; options := o;
             metricMapCounters := counters; metricMapGauges := gauges |}
  end end end end end.

End NewRedisExporter.

(** ** Effects, and the monad of Go functions *)

Section Model.

Context {F : Float64} {lib : GoLib}.

(** What is sent on the channel: a constant gauge made by
    [registerConstMetricGauge], or one of the exporter's own collectors
    ([totalScrapes], [scrapeDuration], [targetScrapeRequestErrors]),
    sent by reference. *)
Inductive Metric :=
| ConstGauge (name : string) (val : float64) (labelValues : list string)
| OwnCollector (name : string).

(** The calls [scrapeRedisHost] makes to the connection and to the
    extraction functions defined in other files of the exporter. *)
Inductive Call :=
| call_connectToRedis
| call_doRedisCmd (args : list string)
| call_extractClusterInfoMetrics (clusterInfo : string)
| call_extractInfoMetrics (info : string) (dbCount : Z)
| call_extractLatencyMetrics (info : string)
| call_extractCheckKeyMetrics
| call_extractCountKeysMetrics
| call_extractStreamMetrics
| call_extractSlowLogMetrics
| call_extractKeyGroupMetrics (dbCount : Z)
| call_extractSentinelMetrics
| call_extractConnectedClientMetrics
| call_extractTile38Metrics
| call_extractModulesMetrics
| call_extractLuaScriptMetrics (filename script : string).

Inductive Event :=
| Send (m : Metric)
| Invoke (c : Call)
| TotalScrapesInc
| ScrapeDurationObserve (v : float64).

(** The metrics sent on the channel, oldest first. *)
Definition sent (tr : list Event) : list Metric :=
  omap (fun ev => match ev with Send m => Some m | _ => None end) tr.

(** The calls made, oldest first. *)
Definition calls (tr : list Event) : list Call :=
  omap (fun ev => match ev with Invoke c => Some c | _ => None end) tr.

(** How a computation ends: it goes on to the next statement with a
    value, it has executed a [return], or it has panicked. *)
Inductive Result (R A : Type) :=
| Next (a : A)
| Returned (r : R)
| Panicked (msg : string).

Arguments Next {R A} a.
Arguments Returned {R A} r.
Arguments Panicked {R A} msg.

Definition Go (R A : Type) : Type := list Event * Result R A.

Definition trace {R A} (m : Go R A) : list Event := fst m.
Definition result {R A} (m : Go R A) : Result R A := snd m.

Definition ret {R A} (a : A) : Go R A := ([], Next a).

Definition bind {R A B} (m : Go R A) (f : A -> Go R B) : Go R B :=
  match m with
  | (tr, Next a) => let (tr', r) := f a in ((tr ++ tr')%list, r)
  | (tr, Returned r) => (tr, Returned r)
  | (tr, Panicked msg) => (tr, Panicked msg)
  end.

(** The [return] statement. *)
Definition return_ {R A} (r : R) : Go R A := ([], Returned r).

Definition panic {R A} (msg : string) : Go R A := ([], Panicked msg).

(** A call of a function whose body is [body]: the callee's [return]
    gives the caller its value, the callee's panic goes on in the
    caller. *)
Definition call {R R'} (body : Go R R) : Go R' R :=
  match body with
  | (tr, Next r) | (tr, Returned r) => (tr, Next r)
  | (tr, Panicked msg) => (tr, Panicked msg)
  end.

Definition emit {R} (ev : Event) : Go R unit := ([ev], Next tt).

Declare Scope go_scope.
Delimit Scope go_scope with go.

Notation "x <- c1 ;; c2" := (bind c1 (fun x => c2))
  (at level 100, c1 at next level, right associativity) : go_scope.
Notation "c1 ;; c2" := (bind c1 (fun _ => c2))
  (at level 100, right associativity) : go_scope.

Local Open Scope go_scope.

(** [l[i]], which panics when [i] is out of range. *)
Definition index {R A} (l : list A) (i : nat) : Go R A :=
  match l !! i with
  | Some x => ret x
  | None => panic "runtime error: index out of range"
  end.

(** A [for] loop whose variable takes the values of [l] in turn and
    whose body updates the local [a]. *)
Fixpoint foldM {R A B} (body : A -> B -> Go R A) (l : list B) (a : A) : Go R A :=
  match l with
  | [] => ret a
  | x :: l' => a' <- body a x ;; foldM body l' a'
  end.

Definition forM {R B} (l : list B) (body : B -> Go R unit) : Go R unit :=
  foldM (fun _ x => body x) l tt.

(** The values of [i] in [for i := 0; i < n; i += 4]. *)
Definition stride4 (n : nat) : list nat :=
  (fun k => 4 * k)%nat <$> seq 0 ((n + 3) / 4).

(** Modelled from the spec: [registerConstMetricGauge] is defined in
    another file of the exporter.  The data model has an observation
    carry a name, the kind, a value and the positional label values;
    the observation sink is append-only.  Hence one gauge observation
    is sent on the channel. *)
Definition registerConstMetricGauge {R}
    (metric : string) (val : float64) (labels : list string) : Go R unit :=
  emit (Send (ConstGauge metric val labels)).

(** ** [extractConfigMetrics] *)

(** [m[k]] on a [map[string]bool]: [false] when [k] is not a key. *)
Definition lookupBool (m : gmap string bool) (k : string) : bool :=
  default false (m !! k).

(** The two map literals of [extractConfigMetrics]. *)
Definition redactKeys : gmap string bool :=
  list_to_map [("masterauth", true); ("requirepass", true);
               ("tls-key-file-pass", true); ("tls-client-key-file-pass", true)].

Definition configGaugeKeys : gmap string bool :=
  list_to_map [("io-threads", true); ("maxclients", true); ("maxmemory", true)].

(** The body of the loop over the classes of
    [client-output-buffer-limit] (lines 651-660). *)
Definition bufferLimitClass {R} (splitVal : list string) (i : nat) : Go R unit :=
  class <- index splitVal i ;;
  hard <- index splitVal (i + 1) ;;
  match ParseFloat hard with
  | Some val =>
      registerConstMetricGauge "config_client_output_buffer_limit_bytes" val [class; "hard"]
  | None => ret tt
  end ;;
  soft <- index splitVal (i + 2) ;;
  match ParseFloat soft with
  | Some val =>
      registerConstMetricGauge "config_client_output_buffer_limit_bytes" val [class; "soft"]
  | None => ret tt
  end ;;
  secs <- index splitVal (i + 3) ;;
  match ParseFloat secs with
  | Some val =>
      registerConstMetricGauge "config_client_output_buffer_limit_overcome_seconds" val [class; "soft"]
  | None => ret tt
  end.

(** The database count (lines 616-620); the result is the new
    [dbCount]. *)
Definition configDatabases (dbCount : Z) (strKey strVal : string)
  : Go (Z * option error) Z :=
  if String.eqb strKey "databases" then
    match strconv.Atoi strVal with
    | Some n => ret n
    | None =>
        return_ (0, Some ("invalid config value for key databases: "
                          +:+ GoSyntaxString strVal))
    end
  else ret dbCount.

(** The key and value as metrics, unless redacted (lines 622-634). *)
Definition configKeyValue {R} (e : Exporter) (strKey strVal : string) : Go R unit :=
  if InclConfigMetrics (options e) then
    let redact := lookupBool redactKeys strKey in
    if negb redact || negb (RedactConfigMetrics (options e)) then
      registerConstMetricGauge "config_key_value" (f64 1) [strKey; strVal] ;;
      match ParseFloat strVal with
      | Some val => registerConstMetricGauge "config_value" val [strKey]
      | None => ret tt
      end
    else ret tt
  else ret tt.

(** The gauge of one of three numeric keys (lines 636-645); the result
    is [strKey], which this block assigns. *)
Definition configGauge {R} (strKey strVal : string) : Go R string :=
  if lookupBool configGaugeKeys strKey then
    match ParseFloat strVal with
    | Some val =>
        let strKey := strings.ReplaceAll strKey "-" "_" in
        registerConstMetricGauge ("config_" +:+ strKey) val [] ;;
        ret strKey
    | None => ret strKey
    end
  else ret strKey.

(** The buffer limits per class (lines 647-662). *)
Definition configBufferLimits {R} (strKey strVal : string) : Go R unit :=
  if String.eqb strKey "client-output-buffer-limit" then
    let splitVal := strings.Split strVal " " in
    forM (stride4 (length splitVal)) (bufferLimitClass splitVal)
  else ret tt.

(** What [extractConfigMetrics] does with one key and its value, once
    both have been read as strings (lines 616-662); the result is the
    new [dbCount]. *)
Definition configEntry (e : Exporter) (dbCount : Z) (strKey strVal : string)
  : Go (Z * option error) Z :=
  dbCount <- configDatabases dbCount strKey strVal ;;
  configKeyValue e strKey strVal ;;
  strKey <- configGauge strKey strVal ;;
  configBufferLimits strKey strVal ;;
  ret dbCount.

(** The body of the loop over the pairs of the reply (lines 604-662). *)
Definition configPair (e : Exporter) (config : list Reply) (dbCount : Z) (pos : nat)
  : Go (Z * option error) Z :=
  k <- index config (pos * 2) ;;
  match redis.String (inr k) with
  | inl _ => ret dbCount
  | inr strKey =>
      v <- index config (pos * 2 + 1) ;;
      match redis.String (inr v) with
      | inl _ => ret dbCount
      | inr strVal => configEntry e dbCount strKey strVal
      end
  end.

(** [extractConfigMetrics(ch, config)]; the result is [(dbCount, err)]. *)
Definition extractConfigMetrics (e : Exporter) (config : list Reply)
  : Go (Z * option error) (Z * option error) :=
  (if negb (length config mod 2 =? 0)%nat then
     return_ (0, Some ("invalid config: " +:+ GoSyntaxValues config))
   else ret tt) ;;
  dbCount <- foldM (configPair e config) (seq 0 (length config / 2)) 0 ;;
  ret (dbCount, None).

(** ** [scrapeRedisHost] *)

(** Modelled from the spec: the role a slave reports; the constant
    [InstanceRoleSlave] is declared in another file of the exporter.
    The roles of the scrape context are master, slave and unknown. *)
Definition InstanceRoleSlave : string := "slave".

(** What one scrape meets: the outcome of connecting, the clock, the
    server's replies to the commands [scrapeRedisHost] sends itself,
    and what each extraction function of the other files of the exporter
    sends on the channel and returns. *)
Record Target := {
  connectToRedis : option error;
  connectTookSeconds : float64;
  pingTookSeconds : float64;
  took : float64;
  doRedisCmd : list string -> error + Reply;
  extractClusterInfoMetrics : string -> list Metric;
  extractInfoMetrics : string -> Z -> list Metric * string;
  extractLatencyMetrics : string -> list Metric;
  extractCheckKeyMetrics : list Metric * option error;
  extractCountKeysMetrics : list Metric;
  extractStreamMetrics : list Metric;
  extractSlowLogMetrics : list Metric;
  extractKeyGroupMetrics : Z -> list Metric;
  extractSentinelMetrics : list Metric;
  extractConnectedClientMetrics : list Metric;
  extractTile38Metrics : list Metric;
  extractModulesMetrics : list Metric;
  extractLuaScriptMetrics : string -> string -> list Metric * option error;
}.

(** A command sent on the connection. *)
Definition cmd {R} (t : Target) (args : list string) : Go R (error + Reply) :=
  emit (Invoke (call_doRedisCmd args)) ;;
  ret (doRedisCmd t args).

(** A call of an extraction function that sends [ms]. *)
Definition extraction {R} (c : Call) (ms : list Metric) : Go R unit :=
  (Invoke c :: (Send <$> ms), Next tt).

(** Connecting (lines 670-686). *)
Definition connecting (t : Target) : Go (option error) unit :=
  emit (Invoke call_connectToRedis) ;;
  registerConstMetricGauge "exporter_last_scrape_connect_time_seconds"
    (connectTookSeconds t) [] ;;
  match connectToRedis t with
  | Some err => return_ (Some err)
  | None => ret tt
  end.

(** The optional PING and CLIENT SETNAME (lines 692-708). *)
Definition handshake (e : Exporter) (t : Target) : Go (option error) unit :=
  (if PingOnConnect (options e) then
     r <- cmd t ["PING"] ;;
     match r with
     | inl _ => ret tt
     | inr _ =>
         registerConstMetricGauge "exporter_last_scrape_ping_time_seconds"
           (pingTookSeconds t) []
     end
   else ret tt) ;;
  (if SetClientName (options e) then
     _ <- cmd t ["CLIENT"; "SETNAME"; "redis_exporter"] ;; ret tt
   else ret tt).

(** Fetching the config (lines 710-723); the result is [dbCount]. *)
Definition configuring (e : Exporter) (t : Target) : Go (option error) Z :=
  if String.eqb (ConfigCommandName (options e)) "-" then ret 0
  else
    r <- cmd t [ConfigCommandName (options e); "GET"; "*"] ;;
    match redis.Values r with
    | inr config =>
        r <- call (extractConfigMetrics e config) ;;
        match snd r with
        | Some err => return_ (Some err)
        | None => ret (fst r)
        end
    | inl _ => ret 0
    end.

(** Fetching the status report (lines 725-733); the result is
    [infoAll]. *)
Definition fetchInfo (t : Target) : Go (option error) string :=
  let retry :=
    r <- cmd t ["INFO"] ;;
    match redis.String r with
    | inl err => return_ (Some err)
    | inr s => ret s
    end in
  r <- cmd t ["INFO"; "ALL"] ;;
  match redis.String r with
  | inl _ => retry
  | inr s => if String.eqb s "" then retry else ret s
  end.

(** Cluster mode and the database count (lines 736-750); the result is
    the new [dbCount]. *)
Definition resolveDbCount (t : Target) (infoAll : string) (dbCount : Z)
  : Go (option error) Z :=
  if strings.Contains infoAll "cluster_enabled:1" then
    r <- cmd t ["CLUSTER"; "INFO"] ;;
    match redis.String r with
    | inr clusterInfo =>
        extraction (call_extractClusterInfoMetrics clusterInfo)
          (extractClusterInfoMetrics t clusterInfo) ;;
        ret 1
    | inl _ => ret dbCount
    end
  else if dbCount =? 0 then ret 16
  else ret dbCount.

(** The per-key checks, subject to the role (lines 763-773). *)
Definition perKeyChecks (e : Exporter) (t : Target) (role : string)
  : Go (option error) unit :=
  if String.eqb role InstanceRoleSlave
     || negb (SkipCheckKeysForRoleMaster (options e)) then
    extraction call_extractCheckKeyMetrics (fst (extractCheckKeyMetrics t)) ;;
    extraction call_extractCountKeysMetrics (extractCountKeysMetrics t) ;;
    extraction call_extractStreamMetrics (extractStreamMetrics t)
  else ret tt.

(** The steps that always follow (lines 775-793). *)
Definition laterSteps (e : Exporter) (t : Target) (infoAll : string) (dbCount : Z)
  : Go (option error) unit :=
  extraction call_extractSlowLogMetrics (extractSlowLogMetrics t) ;;
  extraction (call_extractKeyGroupMetrics dbCount) (extractKeyGroupMetrics t dbCount) ;;
  (if strings.Contains infoAll "# Sentinel" then
     extraction call_extractSentinelMetrics (extractSentinelMetrics t)
   else ret tt) ;;
  (if ExportClientList (options e) then
     extraction call_extractConnectedClientMetrics (extractConnectedClientMetrics t)
   else ret tt) ;;
  (if IsTile38 (options e) then
     extraction call_extractTile38Metrics (extractTile38Metrics t)
   else ret tt) ;;
  (if InclModulesMetrics (options e) then
     extraction call_extractModulesMetrics (extractModulesMetrics t)
   else ret tt).

(** One Lua script (lines 797-799). *)
Definition luaScript (t : Target) (fs : string * string) : Go (option error) unit :=
  let r := extractLuaScriptMetrics t (fst fs) (snd fs) in
  extraction (call_extractLuaScriptMetrics (fst fs) (snd fs)) (fst r) ;;
  match snd r with
  | Some err => return_ (Some err)
  | None => ret tt
  end.

(** Everything from the extraction of the status report on (lines
    754-803), for the status report [infoAll] and the database count
    [dbCount]. *)
Definition extractionSteps (e : Exporter) (t : Target) (infoAll : string) (dbCount : Z)
  : Go (option error) (option error) :=
  extraction (call_extractInfoMetrics infoAll dbCount)
    (fst (extractInfoMetrics t infoAll dbCount)) ;;
  let role := snd (extractInfoMetrics t infoAll dbCount) in
  (if negb (ExcludeLatencyHistogramMetrics (options e)) then
     extraction (call_extractLatencyMetrics infoAll) (extractLatencyMetrics t infoAll)
   else ret tt) ;;
  perKeyChecks e t role ;;
  laterSteps e t infoAll dbCount ;;
  forM (LuaScript (options e)) (luaScript t) ;;
  ret None.

(** [scrapeRedisHost(ch)]; the result is the error, [None] for [nil]. *)
Definition scrapeRedisHost (e : Exporter) (t : Target)
  : Go (option error) (option error) :=
  connecting t ;;
  handshake e t ;;
  dbCount <- configuring e t ;;
  infoAll <- fetchInfo t ;;
  dbCount <- resolveDbCount t infoAll dbCount ;;
  extractionSteps e t infoAll dbCount.

(** The part of [scrapeRedisHost] before [extractionSteps], on its own;
    its value is the status report and the database count. *)
Definition uptoInfo (e : Exporter) (t : Target) : Go (option error) (string * Z) :=
  connecting t ;;
  handshake e t ;;
  dbCount <- configuring e t ;;
  infoAll <- fetchInfo t ;;
  dbCount <- resolveDbCount t infoAll dbCount ;;
  ret (infoAll, dbCount).

(** ** [Collect] *)

Definition Collect (e : Exporter) (t : Target) : Go unit unit :=
  emit TotalScrapesInc ;;
  (if negb (String.eqb (redisAddr e) "") then
     err <- call (scrapeRedisHost e t) ;;
     up <-
       match err with
       | Some err =>
           registerConstMetricGauge "exporter_last_scrape_error" (f64 1) [err] ;;
           ret (f64 0)
       | None =>
           registerConstMetricGauge "exporter_last_scrape_error" (f64 0) [""] ;;
           ret (f64 1)
       end ;;
     registerConstMetricGauge "up" up [] ;;
     emit (ScrapeDurationObserve (took t)) ;;
     registerConstMetricGauge "exporter_last_scrape_duration_seconds" (took t) []
   else ret tt) ;;
  emit (Send (OwnCollector "exporter_scrapes_total")) ;;
  emit (Send (OwnCollector "exporter_scrape_duration_seconds")) ;;
  emit (Send (OwnCollector "target_scrape_request_errors_total")).

(** ** Vocabulary of the statements *)

Definition metricName (m : Metric) : string :=
  match m with
  | ConstGauge name _ _ => name
  | OwnCollector name => name
  end.

(** The metrics of [ms] that are named [name], in order. *)
Definition named (name : string) (ms : list Metric) : list Metric :=
  List.filter (fun m => String.eqb (metricName m) name) ms.

(** The config keys whose values are secrets. *)
Definition sensitive (k : string) : Prop :=
  In k ["masterauth"; "requirepass"; "tls-key-file-pass"; "tls-client-key-file-pass"].

(** Two config replies that differ at most in the values of sensitive
    keys: the same length, the same key at every pair, and the same
    value at every pair whose key is not sensitive. *)
Definition sameButSecrets (c1 c2 : list Reply) : Prop :=
  length c1 = length c2 /\
  forall pos : nat,
    c1 !! (pos * 2)%nat = c2 !! (pos * 2)%nat /\
    (c1 !! (pos * 2 + 1)%nat = c2 !! (pos * 2 + 1)%nat \/
     exists kr k, c1 !! (pos * 2)%nat = Some kr /\
                  redis.String (inr kr) = inr k /\ sensitive k).

(** The calls that [scrapeRedisHost] makes before it extracts the
    status report. *)
Definition beforeInfo (c : Call) : Prop :=
  match c with
  | call_connectToRedis | call_doRedisCmd _ | call_extractClusterInfoMetrics _ => True
  | _ => False
  end.

End Model.

Arguments Next {R A} a.
Arguments Returned {R A} r.
Arguments Panicked {R A} msg.

(** ** A runtime to run the code on examples *)

Module Decimal.

Definition Q := QArith_base.Q.

Fixpoint splitDot (s : string) : string * option string :=
  match s with
  | EmptyString => (EmptyString, None)
  | String "." r => (EmptyString, Some r)
  | String a r => let (i, f) := splitDot r in (String a i, f)
  end.

(** [strconv.ParseFloat] on plain decimal literals: an optional sign,
    digits, and optionally a point and digits, with at least one digit.
    The value is kept exact.  Go accepts more (exponents, hexadecimal
    literals, underscores, Inf, NaN), rounds to the nearest binary64
    and has a negative zero; the examples below use none of that. *)
Definition parse (s : string) : option Q :=
  let (neg, body) :=
    match s with
    | String "-" r => (true, r)
    | String "+" r => (false, r)
    | _ => (false, s)
    end in
  let (i, f) := splitDot body in
  let f := default EmptyString f in
  if (String.length i + String.length f =? 0)%nat then None
  else
    match strconv.digits i 0, strconv.digits f 0 with
    | Some a, Some b =>
        let v := a * 10 ^ Z.of_nat (String.length f) + b in
        Some (Qreduction.Qred
                (QArith_base.Qmake (if neg then - v else v)
                   (Z.to_pos (10 ^ Z.of_nat (String.length f)))))
    | _, _ => None
    end.

Definition float : Float64 := Q.

(** The renderings of [%#v] occur only inside two error messages; they
    are abbreviated here. *)
Definition lib : @GoLib float :=
  {| f64 := QArith_base.inject_Z;
     ParseFloat := parse;
     GoSyntaxValues := fun _ => "[]interface {}{...}";
     GoSyntaxString := fun s => s |}.

End Decimal.

Module Examples.

#[local] Existing Instance Decimal.float.
#[local] Existing Instance Decimal.lib.

Definition exampleOptions : Options :=
  {| Namespace := "redis"; ConfigCommandName := "CONFIG";
     CheckKeys := ""; CheckSingleKeys := ""; CheckStreams := "";
     CheckSingleStreams := ""; CountKeys := ""; LuaScript := [];
     InclConfigMetrics := false; InclModulesMetrics := false;
     ExcludeLatencyHistogramMetrics := false; RedactConfigMetrics := false;
     InclSystemMetrics := false; SetClientName := false; IsTile38 := false;
     ExportClientList := false; MetricsPath := "/metrics";
     PingOnConnect := false; SkipCheckKeysForRoleMaster := false |}.

(** The options with a Lua script to evaluate. *)
Definition luaOptions : Options :=
  {| Namespace := "redis"; ConfigCommandName := "CONFIG";
     CheckKeys := ""; CheckSingleKeys := ""; CheckStreams := "";
     CheckSingleStreams := ""; CountKeys := "";
     LuaScript := [("collect.lua", "return {}")];
     InclConfigMetrics := false; InclModulesMetrics := false;
     ExcludeLatencyHistogramMetrics := false; RedactConfigMetrics := false;
     InclSystemMetrics := false; SetClientName := false; IsTile38 := false;
     ExportClientList := false; MetricsPath := "/metrics";
     PingOnConnect := false; SkipCheckKeysForRoleMaster := false |}.

(** The options with config metrics included and redacted. *)
Definition redactOptions : Options :=
  {| Namespace := "redis"; ConfigCommandName := "CONFIG";
     CheckKeys := ""; CheckSingleKeys := ""; CheckStreams := "";
     CheckSingleStreams := ""; CountKeys := ""; LuaScript := [];
     InclConfigMetrics := true; InclModulesMetrics := false;
     ExcludeLatencyHistogramMetrics := false; RedactConfigMetrics := true;
     InclSystemMetrics := false; SetClientName := false; IsTile38 := false;
     ExportClientList := false; MetricsPath := "/metrics";
     PingOnConnect := false; SkipCheckKeysForRoleMaster := false |}.


Definition exporterWith (o : Options) : Exporter :=
  {| redisAddr := "redis://localhost:6379"; options := o;
     metricMapCounters := list_to_map counterEntries;
     metricMapGauges := list_to_map gaugeEntries |}.

(** A server that answers CONFIG GET, INFO ALL and CLUSTER INFO as
    given and knows no other command. *)
Definition exampleServer (config : error + Reply) (info : string)
    (cluster : error + Reply) (args : list string) : error + Reply :=
  if decide (args = ["CONFIG"; "GET"; "*"]) then config
  else if decide (args = ["INFO"; "ALL"]) then inr (RBulk info)
  else if decide (args = ["CLUSTER"; "INFO"]) then cluster
  else inl "ERR unknown command".

(** A scrape in which the extraction functions send nothing, the
    instance reports the role [role], and connecting, the key checks
    and the Lua scripts end as given. *)
Definition exampleTarget (connect : option error)
    (server : list string -> error + Reply) (role : string)
    (checkKeys lua : option error) : Target :=
  {| connectToRedis := connect;
     connectTookSeconds := QArith_base.inject_Z 0;
     pingTookSeconds := QArith_base.inject_Z 0;
     took := QArith_base.inject_Z 0;
     doRedisCmd := server;
     extractClusterInfoMetrics := fun _ => [];
     extractInfoMetrics := fun _ _ => ([], role);
     extractLatencyMetrics := fun _ => [];
     extractCheckKeyMetrics := ([], checkKeys);
     extractCountKeysMetrics := [];
     extractStreamMetrics := [];
     extractSlowLogMetrics := [];
     extractKeyGroupMetrics := fun _ => [];
     extractSentinelMetrics := [];
     extractConnectedClientMetrics := [];
     extractTile38Metrics := [];
     extractModulesMetrics := [];
     extractLuaScriptMetrics := fun _ _ => ([], lua) |}.

Definition databases32 : Reply := RArray [RBulk "databases"; RBulk "32"].

Definition bufferLimitConfig : list Reply :=
  [RBulk "client-output-buffer-limit"; RBulk "normal 0 0 0 slave 10 20 5"].

Definition refused : error := "dial tcp 127.0.0.1:6379: connect: connection refused".

(** A server without the CONFIG command. *)
Definition noConfig : list string -> error + Reply :=
  exampleServer (inl "ERR unknown command 'CONFIG'") "# Server" (inl "ERR").

(** A server with 32 databases, not in cluster mode. *)
Definition plain32 : list string -> error + Reply :=
  exampleServer (inr databases32) "# Server" (inl "ERR").

(** A server in cluster mode on which CLUSTER INFO fails. *)
Definition clusterDenied : list string -> error + Reply :=
  exampleServer (inr databases32) "cluster_enabled:1"
    (inl "NOPERM this user has no permissions to run the 'cluster|info' command").

End Examples.

(** ** [Describe] *)

(** Modelled from the spec: [newMetricDescr] is defined in another file
    of the exporter.  A metric descriptor has an exported name, a help
    text and label names; here it is the record of the arguments it is
    made from, the namespace included. *)
Record Desc := newMetricDescr {
  descNamespace : string;
  descName : string;
  descHelp : string;
  descLabels : list string;
}.

(** The double quote, which occurs in some help texts. *)
Definition dq : string := String (ascii_of_nat 34) EmptyString.

(** The literal from which [NewRedisExporter] fills
    [metricDescriptions]: the help text and the label names of each
    metric. *)
Definition metricDescriptionEntries : list (string * (string * list string)) :=
  [
    ("commands_duration_seconds_total", ("Total amount of time in seconds spent per command", ["cmd"]));
    ("commands_failed_calls_total", ("Total number of errors prior command execution per command", ["cmd"]));
    ("commands_latencies_usec", ("A histogram of latencies per command", ["cmd"]));
    ("commands_rejected_calls_total", ("Total number of errors within command execution per command", ["cmd"]));
    ("commands_total", ("Total number of calls per command", ["cmd"]));
    ("config_client_output_buffer_limit_bytes", ("The configured buffer limits per class", ["class"; "limit"]));
    ("config_client_output_buffer_limit_overcome_seconds", ("How long for buffer limits per class to be exceeded before replicas are dropped", ["class"; "limit"]));
    ("config_key_value", ("Config key and value", ["key"; "value"]));
    ("config_value", ("Config key and value as metric", ["key"]));
    ("connected_slave_lag_seconds", ("Lag of connected slave", ["slave_ip"; "slave_port"; "slave_state"]));
    ("connected_slave_offset_bytes", ("Offset of connected slave", ["slave_ip"; "slave_port"; "slave_state"]));
    ("db_avg_ttl_seconds", ("Avg TTL in seconds", ["db"]));
    ("db_keys", ("Total number of keys by DB", ["db"]));
    ("db_keys_cached", ("Total number of cached keys by DB", ["db"]));
    ("db_keys_expiring", ("Total number of expiring keys by DB", ["db"]));
    ("errors_total", ("Total number of errors per error type", ["err"]));
    ("exporter_last_scrape_error", ("The last scrape error status.", ["err"]));
    ("key_group_count", ("Count of keys in key group", ["db"; "key_group"]));
    ("key_group_memory_usage_bytes", ("Total memory usage of key group in bytes", ["db"; "key_group"]));
    ("key_memory_usage_bytes", (("The memory usage of " +:+ dq +:+ "key" +:+ dq +:+ " in bytes"), ["db"; "key"]));
    ("key_size", (("The length or size of " +:+ dq +:+ "key" +:+ dq), ["db"; "key"]));
    ("key_value", (("The value of " +:+ dq +:+ "key" +:+ dq), ["db"; "key"]));
    ("key_value_as_string", (("The value of " +:+ dq +:+ "key" +:+ dq +:+ " as a string"), ["db"; "key"; "val"]));
    ("keys_count", ("Count of keys", ["db"; "key"]));
    ("last_key_groups_scrape_duration_milliseconds", ("Duration of the last key group metrics scrape in milliseconds", []));
    ("last_slow_execution_duration_seconds", ("The amount of time needed for last slow execution, in seconds", []));
    ("latency_percentiles_usec", ("A summary of latency percentile distribution per command", ["cmd"]));
    ("latency_spike_duration_seconds", ("Length of the last latency spike in seconds", ["event_name"]));
    ("latency_spike_last", ("When the latency spike last occurred", ["event_name"]));
    ("master_last_io_seconds_ago", ("Master last io seconds ago", ["master_host"; "master_port"]));
    ("master_link_up", ("Master link status on Redis slave", ["master_host"; "master_port"]));
    ("master_sync_in_progress", ("Master sync in progress", ["master_host"; "master_port"]));
    ("module_info", ("Information about loaded Redis module", ["name"; "ver"; "api"; "filters"; "usedby"; "using"]));
    ("number_of_distinct_key_groups", ("Number of distinct key groups", ["db"]));
    ("script_result", ("Result of the collect script evaluation", ["filename"]));
    ("script_values", ("Values returned by the collect script", ["key"; "filename"]));
    ("sentinel_master_ckquorum_status", ("Master ckquorum status", ["master_name"; "message"]));
    ("sentinel_master_ok_sentinels", ("The number of okay sentinels monitoring this master", ["master_name"; "master_address"]));
    ("sentinel_master_ok_slaves", ("The number of okay slaves of the master", ["master_name"; "master_address"]));
    ("sentinel_master_sentinels", ("The number of sentinels monitoring this master", ["master_name"; "master_address"]));
    ("sentinel_master_setting_ckquorum", ("Show the current ckquorum config for each master", ["master_name"; "master_address"]));
    ("sentinel_master_setting_down_after_milliseconds", ("Show the current down-after-milliseconds config for each master", ["master_name"; "master_address"]));
    ("sentinel_master_setting_failover_timeout", ("Show the current failover-timeout config for each master", ["master_name"; "master_address"]));
    ("sentinel_master_setting_parallel_syncs", ("Show the current parallel-syncs config for each master", ["master_name"; "master_address"]));
    ("sentinel_master_slaves", ("The number of slaves of the master", ["master_name"; "master_address"]));
    ("sentinel_master_status", ("Master status on Sentinel", ["master_name"; "master_address"; "master_status"]));
    ("sentinel_masters", ("The number of masters this sentinel is watching", []));
    ("sentinel_running_scripts", ("Number of scripts in execution right now", []));
    ("sentinel_scripts_queue_length", ("Queue of user scripts to execute", []));
    ("sentinel_simulate_failure_flags", ("Failures simulations", []));
    ("sentinel_tilt", ("Sentinel is in TILT mode", []));
    ("slave_info", ("Information about the Redis slave", ["master_host"; "master_port"; "read_only"]));
    ("slave_repl_offset", ("Slave replication offset", ["master_host"; "master_port"]));
    ("slowlog_last_id", ("Last id of slowlog", []));
    ("slowlog_length", ("Total slowlog", []));
    ("start_time_seconds", ("Start time of the Redis instance since unix epoch in seconds.", []));
    ("stream_first_entry_id", ("The epoch timestamp (ms) of the first message in the stream", ["db"; "stream"]));
    ("stream_group_consumer_idle_seconds", ("Consumer idle time in seconds", ["db"; "stream"; "group"; "consumer"]));
    ("stream_group_consumer_messages_pending", ("Pending number of messages for this specific consumer", ["db"; "stream"; "group"; "consumer"]));
    ("stream_group_consumers", ("Consumers count of stream group", ["db"; "stream"; "group"]));
    ("stream_group_entries_read", ("Total number of entries read from the stream group", ["db"; "stream"; "group"]));
    ("stream_group_lag", ("The number of messages waiting to be delivered to the stream group's consumers", ["db"; "stream"; "group"]));
    ("stream_group_last_delivered_id", ("The epoch timestamp (ms) of the last delivered message", ["db"; "stream"; "group"]));
    ("stream_group_messages_pending", ("Pending number of messages in that stream group", ["db"; "stream"; "group"]));
    ("stream_groups", ("Groups count of stream", ["db"; "stream"]));
    ("stream_last_entry_id", ("The epoch timestamp (ms) of the last message in the stream", ["db"; "stream"]));
    ("stream_last_generated_id", ("The epoch timestamp (ms) of the latest message on the stream", ["db"; "stream"]));
    ("stream_length", ("The number of elements of the stream", ["db"; "stream"]));
    ("stream_max_deleted_entry_id", ("The epoch timestamp (ms) of last message was deleted from the stream", ["db"; "stream"]));
    ("stream_radix_tree_keys", (("Radix tree keys count" +:+ dq), ["db"; "stream"]));
    ("stream_radix_tree_nodes", ("Radix tree nodes count", ["db"; "stream"]));
    ("up", ("Information about the Redis instance", []))
  ].

(** The field [metricDescriptions] of an exporter: [NewRedisExporter]
    makes a descriptor of each entry of the literal in the namespace of
    the options, and nothing changes the map afterwards. *)
Definition metricDescriptions (e : Exporter) : gmap string Desc :=
  list_to_map
    ((fun kd : string * (string * list string) =>
        (fst kd, newMetricDescr (Namespace (options e)) (fst kd)
                   (fst (snd kd)) (snd (snd kd))))
       <$> metricDescriptionEntries).

(** The descriptors of the exporter's own collectors, which
    [NewRedisExporter] creates in the namespace of the options. *)
Definition totalScrapesDesc (e : Exporter) : Desc :=
  newMetricDescr (Namespace (options e)) "exporter_scrapes_total"
    "Current total redis scrapes." [].

Definition scrapeDurationDesc (e : Exporter) : Desc :=
  newMetricDescr (Namespace (options e)) "exporter_scrape_duration_seconds"
    "Durations of scrapes by the exporter" [].

Definition targetScrapeRequestErrorsDesc (e : Exporter) : Desc :=
  newMetricDescr (Namespace (options e)) "target_scrape_request_errors_total"
    "Errors in requests to the exporter" [].

(** The descriptor that [Describe] makes for an exported name of the
    gauge or counter table. *)
Definition plainDesc (e : Exporter) (v : string) : Desc :=
  newMetricDescr (Namespace (options e)) v (v +:+ " metric") [].

(** [Describe(ch)]: [out] is what is sent on the channel.  A [range]
    over a map visits every entry once, in an order that Go leaves
    open: [ds], [gs] and [cs] are the values of the three maps in the
    order of the visit. *)
Definition Describe (e : Exporter) (out : list Desc) : Prop :=
  exists (ds : list Desc) (gs cs : list string),
    ds ≡ₚ snd <$> map_to_list (metricDescriptions e) /\
    gs ≡ₚ snd <$> map_to_list (metricMapGauges e) /\
    cs ≡ₚ snd <$> map_to_list (metricMapCounters e) /\
    out = (ds ++ (plainDesc e <$> gs) ++ (plainDesc e <$> cs)
           ++ [totalScrapesDesc e; scrapeDurationDesc e;
               targetScrapeRequestErrorsDesc e])%list.

Section Described.

Context {F : Float64}.

(** A metric that is registered with label values is described when
    [metricDescriptions] declares its name with as many label names; a
    metric without label values needs no declaration. *)
Definition described (e : Exporter) (m : Metric) : Prop :=
  match m with
  | ConstGauge name _ labelValues =>
      labelValues = [] \/
      exists d, metricDescriptions e !! name = Some d /\
                length (descLabels d) = length labelValues
  | OwnCollector _ => True
  end.

(** What an event of [extractConfigMetrics] is: a gauge that is sent,
    described, and named as one of seven names, the two key/value names
    only with InclConfigMetrics. *)
Definition configEvent (e : Exporter) (ev : Event) : Prop :=
  exists name v labels,
    ev = Send (ConstGauge name v labels) /\
    described e (ConstGauge name v labels) /\
    (In name ["config_io_threads"; "config_maxclients"; "config_maxmemory";
              "config_client_output_buffer_limit_bytes";
              "config_client_output_buffer_limit_overcome_seconds"] \/
     InclConfigMetrics (options e) = true /\
     In name ["config_key_value"; "config_value"]).

(** Two computations with the same effects and the same way of ending,
    which may differ in the value they go on with. *)
Definition sameEffects {R A} (m m' : Go R A) : Prop :=
  trace m = trace m' /\
  match result m, result m' with
  | Next _, Next _ => True
  | Returned r, Returned r' => r = r'
  | Panicked msg, Panicked msg' => msg = msg'
  | _, _ => False
  end.

(** How often [totalScrapes] is incremented, and the durations that
    [scrapeDuration] observes, oldest first. *)
Definition totalScrapesIncs (tr : list Event) : nat :=
  length (List.filter
            (fun ev => match ev with TotalScrapesInc => true | _ => false end) tr).

Definition scrapeDurations (tr : list Event) : list float64 :=
  omap (fun ev => match ev with ScrapeDurationObserve v => Some v | _ => None end) tr.

(** An event of a scrape: a metric sent on the channel or a call. *)
Definition scrapeEvent (ev : Event) : Prop :=
  match ev with
  | Send _ | Invoke _ => True
  | TotalScrapesInc | ScrapeDurationObserve _ => False
  end.

(** The descriptors of [out] that are named [name], in order. *)
Definition declared (name : string) (out : list Desc) : list Desc :=
  List.filter (fun d => String.eqb (descName d) name) out.

(** The names in the three literals of [NewRedisExporter] and of its
    own collectors, with the gauge that InclSystemMetrics adds. *)
Definition literalNames (inclSystemMetrics : bool) : list string :=
  ((fst <$> metricDescriptionEntries)
   ++ (snd <$> (if inclSystemMetrics
                then ("total_system_memory", "total_system_memory_bytes") :: gaugeEntries
                else gaugeEntries))
   ++ (snd <$> counterEntries)
   ++ ["exporter_scrapes_total"; "exporter_scrape_duration_seconds";
       "target_scrape_request_errors_total"])%list.

End Described.

(** ** More examples *)

Module MoreExamples.

Import Examples.

(** A [parseKeyArg] that accepts every key option. *)
Definition acceptKeys (_ : string) : option error := None.

(** The options as a caller may leave them, with no config command
    name. *)
Definition bareOptions : Options := withConfigCommandName exampleOptions "".

(** What [Describe] sends when each [range] visits its map in the order
    of [map_to_list]. *)
Definition describedInOrder (e : Exporter) : list Desc :=
  ((snd <$> map_to_list (metricDescriptions e))
   ++ (plainDesc e <$> (snd <$> map_to_list (metricMapGauges e)))
   ++ (plainDesc e <$> (snd <$> map_to_list (metricMapCounters e)))
   ++ [totalScrapesDesc e; scrapeDurationDesc e; targetScrapeRequestErrorsDesc e])%list.

(** A config reply with the client limit and the database count. *)
Definition limitsAndDatabases : list Reply :=
  [RBulk "maxclients"; RBulk "10000"; RBulk "databases"; RBulk "32"].

(** A config reply whose first pair has a number for a key. *)
Definition numberForKey : list Reply :=
  [RInt 1; RBulk "x"; RBulk "databases"; RBulk "32"].

(** A config reply in which the database count is not the last pair,
    and a server that gives it. *)
Definition databasesFirst : list Reply :=
  [RBulk "databases"; RBulk "32"; RBulk "maxclients"; RBulk "10000"].

Definition databasesFirstServer : list string -> error + Reply :=
  exampleServer (inr (RArray databasesFirst)) "# Server" (inl "ERR").

(** A server whose buffer limit has three tokens. *)
Definition shortLimit : list Reply :=
  [RBulk "client-output-buffer-limit"; RBulk "normal 0 0"].

Definition shortLimitServer : list string -> error + Reply :=
  exampleServer (inr (RArray shortLimit)) "# Server" (inl "ERR").

End MoreExamples.

(** * Properties *)

(** ** Strings *)

Lemma prefix_app (p r : string) : String.prefix p (p +:+ r) = true.
Proof.
  induction p as [|a p IH]; simpl.
  - now destruct r.
  - destruct (ascii_dec a a); [exact IH | congruence].
Qed.

Lemma prefix_inv (p s : string) :
  String.prefix p s = true -> exists r, s = p +:+ r.
Proof.
  revert s. induction p as [|a p IH]; intros s Hp.
  - now exists s.
  - destruct s as [|b s]; simpl in Hp; [discriminate|].
    destruct (ascii_dec a b) as [->|]; [|discriminate].
    destruct (IH _ Hp) as [r ->]. now exists r.
Qed.

Lemma substring_all (s : string) : substring 0 (String.length s) s = s.
Proof. induction s; simpl; congruence. Qed.

Lemma Replace1_valkey (rest : string) :
  strings.Replace1 ("valkey://" +:+ rest) "valkey://" "redis://" = "redis://" +:+ rest.
Proof.
  unfold strings.Replace1, strings.Index. simpl.
  destruct rest; simpl; [reflexivity|].
  now rewrite substring_all.
Qed.

Lemma Replace1_valkeys (rest : string) :
  strings.Replace1 ("valkeys://" +:+ rest) "valkeys://" "rediss://" = "rediss://" +:+ rest.
Proof.
  unfold strings.Replace1, strings.Index. simpl.
  destruct rest; simpl; [reflexivity|].
  now rewrite substring_all.
Qed.

Lemma valkeys_not_valkey (rest : string) :
  strings.HasPrefix ("valkeys://" +:+ rest) "valkey://" = false.
Proof. reflexivity. Qed.

(** ** [NewRedisExporter] *)

Section NewRedisExporterFacts.

Variable parseKeyArg : string -> option error.

Lemma NewRedisExporter_inr uri opts e :
  NewRedisExporter parseKeyArg uri opts = inr e ->
  redisAddr e =
    (if strings.HasPrefix uri "valkey://" then
       strings.Replace1 uri "valkey://" "redis://"
     else if strings.HasPrefix uri "valkeys://" then
       strings.Replace1 uri "valkeys://" "rediss://"
     else uri) /\
  metricMapCounters e = list_to_map counterEntries /\
  metricMapGauges e =
    (if InclSystemMetrics opts
     then <["total_system_memory" := "total_system_memory_bytes"]> (list_to_map gaugeEntries)
     else list_to_map gaugeEntries).
Proof.
  unfold NewRedisExporter.
  generalize (list_to_map gaugeEntries : gmap string string).
  generalize (list_to_map counterEntries : gmap string string).
  intros counters gauges.
  repeat match goal with
         | |- context [parseKeyArg ?x] => destruct (parseKeyArg x); [discriminate|]
         end.
  intros [= <-]. auto.
Qed.

(** C10. The URI that [NewRedisExporter] stores as the scrape address:
    a URI that begins with valkey:// has this prefix replaced by
    redis://, one that begins with valkeys:// has it replaced by
    rediss://, and any other URI is stored as it is. *)
Theorem C10_uri_scheme_rewritten uri opts e :
  NewRedisExporter parseKeyArg uri opts = inr e ->
  (forall rest, uri = "valkey://" +:+ rest -> redisAddr e = "redis://" +:+ rest) /\
  (forall rest, uri = "valkeys://" +:+ rest -> redisAddr e = "rediss://" +:+ rest) /\
  ((forall rest, uri <> "valkey://" +:+ rest) ->
   (forall rest, uri <> "valkeys://" +:+ rest) -> redisAddr e = uri).
Proof.
  intros He. destruct (NewRedisExporter_inr _ _ _ He) as (-> & _ & _).
  split; [|split].
  - intros rest ->. unfold strings.HasPrefix at 1.
    now rewrite prefix_app, Replace1_valkey.
  - intros rest ->. rewrite valkeys_not_valkey. unfold strings.HasPrefix.
    now rewrite prefix_app, Replace1_valkeys.
  - intros H1 H2. unfold strings.HasPrefix.
    destruct (String.prefix "valkey://" uri) eqn:E1.
    { apply prefix_inv in E1 as [r ->]. now destruct (H1 r). }
    destruct (String.prefix "valkeys://" uri) eqn:E2.
    { apply prefix_inv in E2 as [r ->]. now destruct (H2 r). }
    reflexivity.
Qed.

(** C1. The field expired_time_cap_reached_count is a key of both
    tables of every exporter that [NewRedisExporter] returns: the gauge
    table and the counter table are not disjoint. *)
Theorem C1_field_in_both_tables uri opts e :
  NewRedisExporter parseKeyArg uri opts = inr e ->
  metricMapGauges e !! "expired_time_cap_reached_count"
    = Some "expired_time_cap_reached_total" /\
  metricMapCounters e !! "expired_time_cap_reached_count"
    = Some "expired_time_cap_reached_total".
Proof.
  intros He. destruct (NewRedisExporter_inr _ _ _ He) as (_ & -> & ->).
  split; [|vm_compute; reflexivity].
  destruct (InclSystemMetrics opts).
  - rewrite lookup_insert_ne by discriminate. vm_compute; reflexivity.
  - vm_compute; reflexivity.
Qed.

End NewRedisExporterFacts.

(** It is the only field the two literals share. *)
Lemma tables_share_one_field :
  dom (list_to_map gaugeEntries : gmap string string)
    ∩ dom (list_to_map counterEntries : gmap string string)
  = {[ "expired_time_cap_reached_count" ]}.
Proof. apply (bool_decide_eq_true_1 _). vm_compute. reflexivity. Qed.

Lemma C10_uri_scheme_rewritten_witness :
  NewRedisExporter (fun _ => None) "valkey://localhost:6379" Examples.exampleOptions
    = inr (Examples.exporterWith Examples.exampleOptions) /\
  redisAddr (Examples.exporterWith Examples.exampleOptions)
    = "redis://" +:+ "localhost:6379".
Proof.
  split; [reflexivity|].
  refine (proj1 (C10_uri_scheme_rewritten (fun _ => None)
                  "valkey://localhost:6379" Examples.exampleOptions
                  (Examples.exporterWith Examples.exampleOptions) _) _ _);
    reflexivity.
Defined.

Lemma C1_field_in_both_tables_witness :
  NewRedisExporter (fun _ => None) "redis://localhost:6379" Examples.exampleOptions
    = inr (Examples.exporterWith Examples.exampleOptions) /\
  metricMapGauges (Examples.exporterWith Examples.exampleOptions)
    !! "expired_time_cap_reached_count" = Some "expired_time_cap_reached_total" /\
  metricMapCounters (Examples.exporterWith Examples.exampleOptions)
    !! "expired_time_cap_reached_count" = Some "expired_time_cap_reached_total".
Proof.
  split; [reflexivity|].
  apply (C1_field_in_both_tables (fun _ => None) "redis://localhost:6379"
           Examples.exampleOptions).
  reflexivity.
Defined.

(** ** Loops *)

(** The list [stride4 n] holds the multiples of 4 below [n], which are
    the values the loop variable takes. *)
Lemma stride4_spec (n i : nat) :
  i ∈ stride4 n <-> (i < n /\ i mod 4 = 0)%nat.
Proof.
  unfold stride4. rewrite list_elem_of_fmap. split.
  - intros (k & -> & Hk). apply elem_of_seq in Hk as [_ Hk].
    split.
    + destruct (Nat.lt_ge_cases (4 * k) n) as [Hlt|Hge]; [exact Hlt|exfalso].
      assert ((n + 3) / 4 < k + 1)%nat by (apply Nat.Div0.div_lt_upper_bound; lia).
      lia.
    + rewrite Nat.mul_comm. apply Nat.Div0.mod_mul.
  - intros [Hlt Hmod]. exists (i / 4)%nat.
    pose proof (Nat.div_mod_eq i 4) as Hi. rewrite Hmod in Hi.
    split; [lia|]. apply elem_of_seq. split; [lia|].
    assert (i / 4 + 1 <= (n + 3) / 4)%nat by (apply Nat.div_le_lower_bound; lia).
    lia.
Qed.

(** ** The monad *)

Section GoFacts.

Context {F : Float64} {lib : GoLib}.

Lemma trace_bind {R A B} (m : Go R A) (f : A -> Go R B) :
  trace (bind m f)
  = (trace m ++ match result m with Next a => trace (f a) | _ => [] end)%list.
Proof.
  destruct m as [tr [a|r|msg]]; simpl; rewrite ?app_nil_r; try reflexivity.
  now destruct (f a).
Qed.

Lemma result_bind {R A B} (m : Go R A) (f : A -> Go R B) :
  result (bind m f)
  = match result m with
    | Next a => result (f a)
    | Returned r => Returned r
    | Panicked msg => Panicked msg
    end.
Proof.
  destruct m as [tr [a|r|msg]]; simpl; try reflexivity.
  now destruct (f a).
Qed.

Lemma bind_ext {R A B} (m : Go R A) (f g : A -> Go R B) :
  (forall a, f a = g a) -> bind m f = bind m g.
Proof.
  intros Hfg. destruct m as [tr [a|r|msg]]; simpl; try reflexivity.
  now rewrite Hfg.
Qed.

Lemma bind_ret_l {R A B} (a : A) (f : A -> Go R B) : bind (ret a) f = f a.
Proof. unfold ret, bind. now destruct (f a). Qed.

Lemma bind_assoc {R A B C} (m : Go R A) (f : A -> Go R B) (g : B -> Go R C) :
  bind (bind m f) g = bind m (fun a => bind (f a) g).
Proof.
  destruct m as [tr [a|r|msg]]; simpl; try reflexivity.
  destruct (f a) as [tr' [b|r|msg]]; simpl; try reflexivity.
  destruct (g b) as [tr'' r'']. now rewrite app_assoc.
Qed.

Lemma Go_eq {R A} (m m' : Go R A) :
  trace m = trace m' -> result m = result m' -> m = m'.
Proof. destruct m, m'; simpl; congruence. Qed.

Lemma foldM_ext {R A B} (f g : A -> B -> Go R A) (l : list B) (a : A) :
  (forall a x, f a x = g a x) -> foldM f l a = foldM g l a.
Proof.
  intros Hfg. revert a. induction l as [|x l IH]; intros a; simpl; [reflexivity|].
  rewrite Hfg. now apply bind_ext.
Qed.

Lemma forM_cons {R B} (x : B) (l : list B) (body : B -> Go R unit) :
  forM (x :: l) body = bind (body x) (fun _ => forM l body).
Proof. unfold forM. simpl. apply bind_ext. now intros []. Qed.

Lemma sent_app (tr tr' : list Event) : sent (tr ++ tr') = (sent tr ++ sent tr')%list.
Proof. apply omap_app. Qed.

Lemma calls_app (tr tr' : list Event) : calls (tr ++ tr') = (calls tr ++ calls tr')%list.
Proof. apply omap_app. Qed.

Lemma named_app (n : string) (ms ms' : list Metric) :
  named n (ms ++ ms') = (named n ms ++ named n ms')%list.
Proof. apply List.filter_app. Qed.

(** ** The parse of [client-output-buffer-limit] *)

Lemma index_Some {R A} (l : list A) (i : nat) (x : A) :
  l !! i = Some x -> index (R := R) l i = ret x.
Proof. unfold index. now intros ->. Qed.

Lemma index_None {R A} (l : list A) (i : nat) :
  l !! i = None -> index (R := R) (A := A) l i = panic "runtime error: index out of range".
Proof. unfold index. now intros ->. Qed.

Ltac result_steps :=
  repeat first
    [ rewrite result_bind
    | progress cbn [result ret panic return_ emit registerConstMetricGauge snd]
    | match goal with
      | |- context [match ParseFloat ?x with _ => _ end] => destruct (ParseFloat x)
      end ].

(** A class with its three fields in range is parsed without fault. *)
Lemma bufferLimitClass_in_range {R} (splitVal : list string) (i : nat) :
  (i + 3 < length splitVal)%nat ->
  result (bufferLimitClass (R := R) splitVal i) = Next tt.
Proof.
  intros Hi. unfold bufferLimitClass.
  destruct (lookup_lt_is_Some_2 splitVal i) as [c Hc]; [lia|].
  destruct (lookup_lt_is_Some_2 splitVal (i + 1)) as [a Ha]; [lia|].
  destruct (lookup_lt_is_Some_2 splitVal (i + 2)) as [b Hb]; [lia|].
  destruct (lookup_lt_is_Some_2 splitVal (i + 3)) as [d Hd]; [lia|].
  rewrite (index_Some _ _ _ Hc), (index_Some _ _ _ Ha),
    (index_Some _ _ _ Hb), (index_Some _ _ _ Hd).
  result_steps; reflexivity.
Qed.

(** A class that lacks one of its three fields makes the index
    expression panic. *)
Lemma bufferLimitClass_short {R} (splitVal : list string) (i : nat) :
  (length splitVal <= i + 3)%nat ->
  result (bufferLimitClass (R := R) splitVal i)
  = Panicked "runtime error: index out of range".
Proof.
  intros Hi. unfold bufferLimitClass.
  assert (Hd : splitVal !! (i + 3)%nat = None) by (apply lookup_ge_None_2; lia).
  rewrite (index_None _ _ Hd).
  unfold index.
  destruct (splitVal !! i) as [c|]; [|reflexivity].
  destruct (splitVal !! (i + 1)%nat) as [a|]; [|result_steps; reflexivity].
  destruct (splitVal !! (i + 2)%nat) as [b|]; result_steps; reflexivity.
Qed.

Lemma forM_classes_ok {R} (splitVal : list string) (a m : nat) :
  (4 * (a + m) <= length splitVal)%nat ->
  result (forM (R := R) ((fun k => 4 * k)%nat <$> seq a m) (bufferLimitClass splitVal))
  = Next tt.
Proof.
  revert a. induction m as [|m IH]; intros a Hlen; [reflexivity|].
  simpl seq. rewrite fmap_cons, forM_cons, result_bind.
  rewrite bufferLimitClass_in_range by lia.
  apply IH. lia.
Qed.

Lemma forM_classes_short {R} (splitVal : list string) (a m : nat) :
  (4 * (a + m) < length splitVal)%nat ->
  (length splitVal < 4 * (a + S m))%nat ->
  result (forM (R := R) ((fun k => 4 * k)%nat <$> seq a (S m)) (bufferLimitClass splitVal))
  = Panicked "runtime error: index out of range".
Proof.
  revert a. induction m as [|m IH]; intros a Hlo Hhi.
  - simpl seq. rewrite fmap_cons, forM_cons, result_bind.
    now rewrite bufferLimitClass_short by lia.
  - change (seq a (S (S m))) with (a :: seq (S a) (S m)).
    rewrite fmap_cons, forM_cons, result_bind.
    rewrite bufferLimitClass_in_range by lia.
    apply IH; lia.
Qed.

(** The loop over the classes ends without fault when the number of
    tokens is a multiple of 4, and panics otherwise. *)
Lemma forM_stride4 {R} (splitVal : list string) :
  result (forM (R := R) (stride4 (length splitVal)) (bufferLimitClass splitVal))
  = if (length splitVal mod 4 =? 0)%nat then Next tt
    else Panicked "runtime error: index out of range".
Proof.
  unfold stride4.
  pose proof (Nat.div_mod_eq (length splitVal + 3) 4) as Hq.
  pose proof (Nat.mod_upper_bound (length splitVal + 3) 4 ltac:(lia)) as Hr.
  pose proof (Nat.div_mod_eq (length splitVal) 4) as Hq'.
  pose proof (Nat.mod_upper_bound (length splitVal) 4 ltac:(lia)) as Hr'.
  destruct (Nat.eqb_spec (length splitVal mod 4) 0) as [E|E].
  - apply forM_classes_ok. lia.
  - destruct ((length splitVal + 3) / 4)%nat as [|m] eqn:Em; [lia|].
    apply forM_classes_short; lia.
Qed.

End GoFacts.

Section ConfigFacts.

Context {F : Float64} {lib : GoLib}.

Lemma configKeyValue_result {R} e strKey strVal :
  result (configKeyValue (R := R) e strKey strVal) = Next tt.
Proof.
  unfold configKeyValue. destruct (InclConfigMetrics (options e)); [|reflexivity].
  cbv zeta. destruct (_ || _); [|reflexivity].
  now destruct (ParseFloat strVal).
Qed.

Lemma configGauge_other {R} strKey strVal :
  lookupBool configGaugeKeys strKey = false ->
  configGauge (R := R) strKey strVal = ret strKey.
Proof. unfold configGauge. now intros ->. Qed.

Lemma configBufferLimits_result {R} strVal :
  result (configBufferLimits (R := R) "client-output-buffer-limit" strVal)
  = if (length (strings.Split strVal " ") mod 4 =? 0)%nat then Next tt
    else Panicked "runtime error: index out of range".
Proof. unfold configBufferLimits. cbn [String.eqb Ascii.eqb Bool.eqb]. apply forM_stride4. Qed.

(** What [configEntry] ends with on the key client-output-buffer-limit. *)
Lemma configEntry_buffer_limit e dbCount strVal :
  result (configEntry e dbCount "client-output-buffer-limit" strVal)
  = if (length (strings.Split strVal " ") mod 4 =? 0)%nat then Next dbCount
    else Panicked "runtime error: index out of range".
Proof.
  unfold configEntry.
  rewrite result_bind. cbn [configDatabases String.eqb Ascii.eqb Bool.eqb result ret snd].
  rewrite result_bind, configKeyValue_result.
  rewrite configGauge_other by (vm_compute; reflexivity).
  rewrite bind_ret_l, result_bind, configBufferLimits_result.
  now destruct (_ =? _)%nat.
Qed.

(** What [configEntry] ends with on the key databases. *)
Lemma configEntry_databases e dbCount strVal :
  result (configEntry e dbCount "databases" strVal)
  = match strconv.Atoi strVal with
    | Some n => Next n
    | None =>
        Returned (0, Some ("invalid config value for key databases: "
                           +:+ GoSyntaxString strVal))
    end.
Proof.
  unfold configEntry.
  rewrite result_bind. cbn [configDatabases String.eqb Ascii.eqb Bool.eqb].
  destruct (strconv.Atoi strVal) as [n|]; [|reflexivity].
  cbn [result ret snd].
  rewrite result_bind, configKeyValue_result.
  rewrite configGauge_other by (vm_compute; reflexivity).
  rewrite bind_ret_l. reflexivity.
Qed.

(** On a reply that consists of one key and its value, both strings. *)
Lemma extractConfigMetrics_pair e strKey strVal :
  extractConfigMetrics e [RBulk strKey; RBulk strVal]
  = bind (configEntry e 0 strKey strVal) (fun dbCount => ret (dbCount, None)).
Proof.
  unfold extractConfigMetrics.
  change (length [RBulk strKey; RBulk strVal]) with 2%nat.
  change (negb (2 mod 2 =? 0)%nat) with false. cbv iota.
  change (seq 0 (2 / 2)) with [0%nat].
  rewrite bind_ret_l. cbn [foldM].
  unfold configPair at 1.
  change (index [RBulk strKey; RBulk strVal] (0 * 2))
    with (ret (R := Z * option error) (RBulk strKey)).
  rewrite bind_ret_l. cbn [redis.String].
  change (index [RBulk strKey; RBulk strVal] (0 * 2 + 1))
    with (ret (R := Z * option error) (RBulk strVal)).
  rewrite bind_ret_l. cbn [redis.String].
  rewrite bind_assoc. apply bind_ext. intros a. reflexivity.
Qed.

Lemma extractConfigMetrics_buffer_limit e strVal :
  result (extractConfigMetrics e [RBulk "client-output-buffer-limit"; RBulk strVal])
  = if (length (strings.Split strVal " ") mod 4 =? 0)%nat then Next (0, None)
    else Panicked "runtime error: index out of range".
Proof.
  rewrite extractConfigMetrics_pair, result_bind, configEntry_buffer_limit.
  now destruct (_ =? _)%nat.
Qed.

(** The count that [extractConfigMetrics] returns on a reply that
    consists of the key databases and its value. *)
Lemma extractConfigMetrics_databases e strVal :
  result (extractConfigMetrics e [RBulk "databases"; RBulk strVal])
  = match strconv.Atoi strVal with
    | Some n => Next (n, None)
    | None =>
        Returned (0, Some ("invalid config value for key databases: "
                           +:+ GoSyntaxString strVal))
    end.
Proof.
  rewrite extractConfigMetrics_pair, result_bind, configEntry_databases.
  now destruct (strconv.Atoi strVal).
Qed.

(** A reply with an odd number of elements is rejected. *)
Lemma extractConfigMetrics_odd e config :
  (length config mod 2 <> 0)%nat ->
  extractConfigMetrics e config
  = ([], Returned (0, Some ("invalid config: " +:+ GoSyntaxValues config))).
Proof.
  intros Hodd. unfold extractConfigMetrics.
  apply Nat.eqb_neq in Hodd. now rewrite Hodd.
Qed.

(** C7. A value of client-output-buffer-limit whose number of tokens is
    not a multiple of 4 makes [extractConfigMetrics] panic on an index
    out of range: the parse is aborted, and with it the scrape. *)
Theorem C7_buffer_limit_index_out_of_range e strVal :
  (length (strings.Split strVal " ") mod 4 <> 0)%nat ->
  result (extractConfigMetrics e [RBulk "client-output-buffer-limit"; RBulk strVal])
  = Panicked "runtime error: index out of range".
Proof.
  intros Hlen. rewrite extractConfigMetrics_buffer_limit.
  now destruct (Nat.eqb_spec (length (strings.Split strVal " ") mod 4) 0).
Qed.

(** When the number of tokens is a multiple of 4 there is no fault,
    whatever the tokens are: a field that is not a number is left out. *)
Lemma buffer_limit_multiple_of_4 e strVal :
  (length (strings.Split strVal " ") mod 4 = 0)%nat ->
  result (extractConfigMetrics e [RBulk "client-output-buffer-limit"; RBulk strVal])
  = Next (0, None).
Proof.
  intros Hlen. rewrite extractConfigMetrics_buffer_limit.
  now destruct (Nat.eqb_spec (length (strings.Split strVal " ") mod 4) 0).
Qed.

End ConfigFacts.

Section RedactionFacts.

Context {F : Float64} {lib : GoLib}.

(** A sensitive key and its value contribute nothing when config
    metrics are redacted. *)
Lemma configEntry_sensitive e dbCount k v :
  RedactConfigMetrics (options e) = true ->
  sensitive k ->
  configEntry e dbCount k v = ret dbCount.
Proof.
  intros Hred Hk. unfold configEntry, configKeyValue. rewrite Hred.
  destruct (InclConfigMetrics (options e));
    repeat (destruct Hk as [<-|Hk]; [vm_compute; reflexivity|]);
    destruct Hk.
Qed.

Lemma configPair_sameButSecrets e c1 c2 dbCount pos :
  RedactConfigMetrics (options e) = true ->
  sameButSecrets c1 c2 ->
  configPair e c1 dbCount pos = configPair e c2 dbCount pos.
Proof.
  intros Hred [Hlen Hsame]. destruct (Hsame pos) as [Hk Hv].
  unfold configPair, index. rewrite <- Hk.
  destruct Hv as [Hv|(kr & k & Hkr & Hstr & Hsens)].
  - now rewrite <- Hv.
  - rewrite Hkr. rewrite !bind_ret_l, Hstr.
    destruct (c1 !! (pos * 2 + 1)%nat) as [v1|] eqn:E1.
    + destruct (lookup_lt_is_Some_2 c2 (pos * 2 + 1)) as [v2 E2].
      { rewrite <- Hlen. now apply lookup_lt_Some in E1. }
      rewrite E2, !bind_ret_l.
      destruct (redis.String (inr v1)), (redis.String (inr v2));
        now rewrite ?configEntry_sensitive.
    + apply lookup_ge_None_1 in E1. rewrite Hlen in E1.
      apply lookup_ge_None_2 in E1. now rewrite E1.
Qed.

(** C9. With config metrics included and redacted, two config replies
    that differ only in the values of sensitive keys make
    [extractConfigMetrics] send the same metrics, the config_key_value
    and config_value ones among them; and a sensitive key with its
    value contributes no metric at all, so that neither the value nor
    the presence of the key shows. *)
Theorem C9_redacted_config_noninterference e c1 c2 :
  InclConfigMetrics (options e) = true ->
  RedactConfigMetrics (options e) = true ->
  sameButSecrets c1 c2 ->
  trace (extractConfigMetrics e c1) = trace (extractConfigMetrics e c2) /\
  named "config_key_value" (sent (trace (extractConfigMetrics e c1)))
    = named "config_key_value" (sent (trace (extractConfigMetrics e c2))) /\
  named "config_value" (sent (trace (extractConfigMetrics e c1)))
    = named "config_value" (sent (trace (extractConfigMetrics e c2))) /\
  (forall dbCount k v, sensitive k -> configEntry e dbCount k v = ret dbCount).
Proof.
  intros _ Hred Hsame.
  assert (Htr : trace (extractConfigMetrics e c1) = trace (extractConfigMetrics e c2)).
  { unfold extractConfigMetrics. destruct Hsame as [Hlen Hpos].
    rewrite <- Hlen.
    destruct (negb (length c1 mod 2 =? 0)%nat); [reflexivity|].
    rewrite !bind_ret_l.
    rewrite (foldM_ext (configPair e c1) (configPair e c2)); [reflexivity|].
    intros a x. apply configPair_sameButSecrets; [assumption|now split]. }
  split; [exact Htr|]. rewrite Htr.
  repeat split. intros dbCount k v Hk. now apply configEntry_sensitive.
Qed.

End RedactionFacts.

Section BufferLimitExample.

Context {F : Float64} {lib : GoLib}.

(** C6. On client-output-buffer-limit = normal 0 0 0 slave 10 20 5 the
    two classes normal and slave each yield one hard and one soft
    byte-limit metric and one overcome-seconds metric: there are two
    overcome-seconds metrics, the first of them for the class normal. *)
Theorem C6_buffer_limit_two_classes e (v0 v10 v20 v5 : float64) :
  ParseFloat "0" = Some v0 ->
  ParseFloat "10" = Some v10 ->
  ParseFloat "20" = Some v20 ->
  ParseFloat "5" = Some v5 ->
  let out := sent (trace (extractConfigMetrics e Examples.bufferLimitConfig)) in
  named "config_client_output_buffer_limit_bytes" out
  = [ConstGauge "config_client_output_buffer_limit_bytes" v0 ["normal"; "hard"];
     ConstGauge "config_client_output_buffer_limit_bytes" v0 ["normal"; "soft"];
     ConstGauge "config_client_output_buffer_limit_bytes" v10 ["slave"; "hard"];
     ConstGauge "config_client_output_buffer_limit_bytes" v20 ["slave"; "soft"]] /\
  named "config_client_output_buffer_limit_overcome_seconds" out
  = [ConstGauge "config_client_output_buffer_limit_overcome_seconds" v0 ["normal"; "soft"];
     ConstGauge "config_client_output_buffer_limit_overcome_seconds" v5 ["slave"; "soft"]].
Proof.
  destruct lib as [c PF GV GS]. cbn [ParseFloat].
  intros H0 H10 H20 H5.
  unfold extractConfigMetrics, configPair, configEntry, configKeyValue,
    Examples.bufferLimitConfig.
  destruct e as [addr o cs gs]. cbn [options].
  destruct (InclConfigMetrics o), (RedactConfigMetrics o);
    vm_compute;
    try destruct (PF "normal 0 0 0 slave 10 20 5");
    do 4 (rewrite ?H0, ?H10, ?H20, ?H5; vm_compute);
    split; reflexivity.
Qed.

End BufferLimitExample.

(** ** The blocks of [scrapeRedisHost] *)

Section ScrapeFacts.

Context {F : Float64} {lib : GoLib}.

Lemma calls_sends (ms : list Metric) : calls (Send <$> ms) = [].
Proof. induction ms as [|m ms IH]; [reflexivity|exact IH]. Qed.

Lemma sent_sends (ms : list Metric) : sent (Send <$> ms) = ms.
Proof.
  induction ms as [|m ms IH]; [reflexivity|].
  change (sent (Send <$> m :: ms)) with (m :: sent (Send <$> ms)).
  now rewrite IH.
Qed.

Lemma extraction_calls {R} c ms : calls (trace (extraction (R := R) c ms)) = [c].
Proof.
  change (calls (trace (extraction (R := R) c ms))) with (c :: calls (Send <$> ms)).
  now rewrite calls_sends.
Qed.

Lemma extraction_sent {R} c ms : sent (trace (extraction (R := R) c ms)) = ms.
Proof.
  change (sent (trace (extraction (R := R) c ms))) with (sent (Send <$> ms)).
  apply sent_sends.
Qed.

Lemma calls_bind_nil {R A B} (m : Go R A) (f : A -> Go R B) :
  calls (trace m) = [] -> (forall a, calls (trace (f a)) = []) ->
  calls (trace (bind m f)) = [].
Proof.
  intros Hm Hf. rewrite trace_bind, calls_app, Hm.
  destruct (result m); simpl; auto.
Qed.

Lemma calls_foldM_nil {R A B} (body : A -> B -> Go R A) (l : list B) (a : A) :
  (forall a x, calls (trace (body a x)) = []) ->
  calls (trace (foldM body l a)) = [].
Proof.
  intros Hb. revert a. induction l as [|x l IH]; intros a; [reflexivity|].
  simpl. apply calls_bind_nil; auto.
Qed.

Lemma calls_index_nil {R A} (l : list A) (i : nat) :
  calls (trace (index (R := R) l i)) = [].
Proof. unfold index. now destruct (l !! i). Qed.

Ltac no_calls :=
  repeat first
    [ reflexivity
    | apply calls_index_nil
    | apply calls_foldM_nil; intros
    | apply calls_bind_nil; intros
    | match goal with
      | |- context [match ?x with _ => _ end] => destruct x
      end ].

Lemma bufferLimitClass_calls {R} splitVal i :
  calls (trace (bufferLimitClass (R := R) splitVal i)) = [].
Proof. unfold bufferLimitClass. no_calls. Qed.

Lemma configEntry_calls e dbCount strKey strVal :
  calls (trace (configEntry e dbCount strKey strVal)) = [].
Proof.
  unfold configEntry, configDatabases, configKeyValue, configGauge,
    configBufferLimits, forM.
  cbv zeta.
  repeat first
    [ apply calls_bind_nil; intros
    | apply calls_foldM_nil; intros
    | apply bufferLimitClass_calls
    | apply calls_index_nil
    | match goal with
      | |- context [if ?b then _ else _] => destruct b
      | |- context [match ?x with _ => _ end] => destruct x
      end
    | reflexivity ].
Qed.

(** [extractConfigMetrics] makes no call: it only sends metrics. *)
Lemma extractConfigMetrics_calls e config :
  calls (trace (extractConfigMetrics e config)) = [].
Proof.
  unfold extractConfigMetrics.
  apply calls_bind_nil; [now destruct (negb _)|]. intros _.
  apply calls_bind_nil; [|reflexivity].
  apply calls_foldM_nil. intros a x. unfold configPair.
  apply calls_bind_nil; [apply calls_index_nil|]. intros k.
  destruct (redis.String (inr k)); [reflexivity|].
  apply calls_bind_nil; [apply calls_index_nil|]. intros v.
  destruct (redis.String (inr v)); [reflexivity|].
  apply configEntry_calls.
Qed.

Lemma call_trace {R R'} (body : Go R R) : trace (call (R' := R') body) = trace body.
Proof. now destruct body as [tr [r|r|msg]]. Qed.

Lemma call_result {R R'} (body : Go R R) :
  result (call (R' := R') body)
  = match result body with
    | Next r | Returned r => Next r
    | Panicked msg => Panicked msg
    end.
Proof. now destruct body as [tr [r|r|msg]]. Qed.

Lemma cmd_result {R} t args : result (cmd (R := R) t args) = Next (doRedisCmd t args).
Proof. reflexivity. Qed.

Lemma cmd_calls {R} t args : calls (trace (cmd (R := R) t args)) = [call_doRedisCmd args].
Proof. reflexivity. Qed.

(** *** Connecting *)

Lemma connecting_result t :
  result (connecting t)
  = match connectToRedis t with Some err => Returned (Some err) | None => Next tt end.
Proof. unfold connecting. now destruct (connectToRedis t). Qed.

Lemma connecting_trace t :
  trace (connecting t)
  = [Invoke call_connectToRedis;
     Send (ConstGauge "exporter_last_scrape_connect_time_seconds"
             (connectTookSeconds t) [])].
Proof. unfold connecting. now destruct (connectToRedis t). Qed.

(** *** The handshake *)

Lemma handshake_result e t : result (handshake e t) = Next tt.
Proof.
  unfold handshake, cmd.
  destruct (PingOnConnect (options e)), (SetClientName (options e));
    try destruct (doRedisCmd t ["PING"]); reflexivity.
Qed.

Lemma handshake_calls e t c :
  In c (calls (trace (handshake e t))) ->
  c = call_doRedisCmd ["PING"] \/
  c = call_doRedisCmd ["CLIENT"; "SETNAME"; "redis_exporter"].
Proof.
  unfold handshake, cmd.
  destruct (PingOnConnect (options e)), (SetClientName (options e));
    try destruct (doRedisCmd t ["PING"]); simpl; intuition.
Qed.

(** *** Fetching the config *)

(** The database count that the config step leaves. *)
Lemma configuring_result e t :
  result (configuring e t)
  = if String.eqb (ConfigCommandName (options e)) "-" then Next 0
    else
      match redis.Values (doRedisCmd t [ConfigCommandName (options e); "GET"; "*"]) with
      | inl _ => Next 0
      | inr config =>
          match result (extractConfigMetrics e config) with
          | Next (n, None) | Returned (n, None) => Next n
          | Next (_, Some err) | Returned (_, Some err) => Returned (Some err)
          | Panicked msg => Panicked msg
          end
      end.
Proof.
  unfold configuring. destruct (String.eqb _ "-"); [reflexivity|].
  rewrite result_bind, cmd_result.
  destruct (redis.Values _) as [err|config]; [reflexivity|].
  rewrite result_bind, call_result.
  destruct (result (extractConfigMetrics e config)) as [[n [err|]]|[n [err|]]|msg];
    reflexivity.
Qed.

Lemma configuring_calls e t c :
  In c (calls (trace (configuring e t))) ->
  c = call_doRedisCmd [ConfigCommandName (options e); "GET"; "*"].
Proof.
  unfold configuring. destruct (String.eqb _ "-"); [intros []|].
  rewrite trace_bind, calls_app, cmd_calls, cmd_result.
  destruct (redis.Values _) as [err|config].
  - simpl. intuition.
  - rewrite trace_bind, calls_app, call_trace, extractConfigMetrics_calls, call_result.
    intros Hin. apply in_app_or in Hin as [Hin|Hin]; [simpl in Hin; intuition|].
    simpl in Hin.
    destruct (result (extractConfigMetrics e config)) as [[n [err|]]|[n [err|]]|msg];
      destruct Hin.
Qed.

(** *** Fetching the status report *)

Lemma fetchInfo_calls_eq t :
  exists cs, calls (trace (fetchInfo t)) = call_doRedisCmd ["INFO"; "ALL"] :: cs /\
             (cs = [] \/ cs = [call_doRedisCmd ["INFO"]]).
Proof.
  unfold fetchInfo. cbv zeta.
  rewrite trace_bind, calls_app, cmd_calls, cmd_result.
  destruct (redis.String (doRedisCmd t ["INFO"; "ALL"])) as [err|s];
    [|destruct (String.eqb s "")];
    rewrite ?trace_bind, ?calls_app, ?cmd_calls, ?cmd_result;
    try destruct (redis.String (doRedisCmd t ["INFO"]));
    simpl; eauto.
Qed.

Lemma fetchInfo_calls t c :
  In c (calls (trace (fetchInfo t))) ->
  c = call_doRedisCmd ["INFO"; "ALL"] \/ c = call_doRedisCmd ["INFO"].
Proof.
  destruct (fetchInfo_calls_eq t) as (cs & -> & [->| ->]); simpl; intuition.
Qed.

(** *** Cluster mode and the database count *)

Lemma resolveDbCount_result t infoAll dbCount :
  result (resolveDbCount t infoAll dbCount)
  = Next (if strings.Contains infoAll "cluster_enabled:1" then
            match redis.String (doRedisCmd t ["CLUSTER"; "INFO"]) with
            | inr _ => 1
            | inl _ => dbCount
            end
          else if dbCount =? 0 then 16 else dbCount).
Proof.
  unfold resolveDbCount.
  destruct (strings.Contains _ _).
  - rewrite result_bind, cmd_result. now destruct (redis.String _).
  - now destruct (dbCount =? 0).
Qed.

Lemma resolveDbCount_calls t infoAll dbCount c :
  In c (calls (trace (resolveDbCount t infoAll dbCount))) -> beforeInfo c.
Proof.
  unfold resolveDbCount.
  destruct (strings.Contains _ _).
  - rewrite trace_bind, calls_app, cmd_calls, cmd_result.
    destruct (redis.String _) as [err|ci].
    + simpl. intros [<-|[]]. exact I.
    + rewrite trace_bind, calls_app, extraction_calls. simpl.
      intros [<-|[<-|[]]]; exact I.
  - destruct (dbCount =? 0); intros [].
Qed.

End ScrapeFacts.

Section ScrapeTheorems.

Context {F : Float64} {lib : GoLib}.

(** *** The extraction steps *)

Lemma when_extraction_result {R} (b : bool) c ms :
  result (if b then extraction (R := R) c ms else ret tt) = Next tt.
Proof. now destruct b. Qed.

Lemma when_extraction_calls {R} (b : bool) c ms :
  calls (trace (if b then extraction (R := R) c ms else ret tt))
  = if b then [c] else [].
Proof. destruct b; [apply extraction_calls|reflexivity]. Qed.

Lemma bind_extraction_result {R B} c ms (f : unit -> Go R B) :
  result (bind (extraction c ms) f) = result (f tt).
Proof. now rewrite result_bind. Qed.

Lemma bind_extraction_calls {R B} c ms (f : unit -> Go R B) :
  calls (trace (bind (extraction c ms) f)) = c :: calls (trace (f tt)).
Proof. now rewrite trace_bind, calls_app, extraction_calls. Qed.

Lemma bind_when_result {R B} (b : bool) c ms (f : unit -> Go R B) :
  result (bind (if b then extraction c ms else ret tt) f) = result (f tt).
Proof. rewrite result_bind. now destruct b. Qed.

Lemma bind_when_calls {R B} (b : bool) c ms (f : unit -> Go R B) :
  calls (trace (bind (if b then extraction c ms else ret tt) f))
  = ((if b then [c] else []) ++ calls (trace (f tt)))%list.
Proof.
  rewrite trace_bind, calls_app, when_extraction_calls, when_extraction_result.
  reflexivity.
Qed.

Lemma perKeyChecks_result e t role : result (perKeyChecks e t role) = Next tt.
Proof. unfold perKeyChecks. now destruct (_ || _). Qed.

Lemma perKeyChecks_calls e t role :
  calls (trace (perKeyChecks e t role))
  = if String.eqb role InstanceRoleSlave || negb (SkipCheckKeysForRoleMaster (options e))
    then [call_extractCheckKeyMetrics; call_extractCountKeysMetrics;
          call_extractStreamMetrics]
    else [].
Proof.
  unfold perKeyChecks. destruct (_ || _); [|reflexivity].
  now rewrite !bind_extraction_calls, extraction_calls.
Qed.

Lemma laterSteps_result e t infoAll dbCount :
  result (laterSteps e t infoAll dbCount) = Next tt.
Proof.
  unfold laterSteps.
  rewrite !bind_extraction_result, !bind_when_result.
  apply when_extraction_result.
Qed.

Lemma laterSteps_calls e t infoAll dbCount :
  calls (trace (laterSteps e t infoAll dbCount))
  = ([call_extractSlowLogMetrics; call_extractKeyGroupMetrics dbCount]
     ++ (if strings.Contains infoAll "# Sentinel" then [call_extractSentinelMetrics] else [])
     ++ (if ExportClientList (options e) then [call_extractConnectedClientMetrics] else [])
     ++ (if IsTile38 (options e) then [call_extractTile38Metrics] else [])
     ++ (if InclModulesMetrics (options e) then [call_extractModulesMetrics] else []))%list.
Proof.
  unfold laterSteps.
  rewrite !bind_extraction_calls, !bind_when_calls, when_extraction_calls.
  reflexivity.
Qed.

Lemma luaScript_calls t fs :
  calls (trace (luaScript t fs))
  = [call_extractLuaScriptMetrics (fst fs) (snd fs)].
Proof.
  unfold luaScript. cbv zeta. rewrite bind_extraction_calls.
  now destruct (snd (extractLuaScriptMetrics t (fst fs) (snd fs))).
Qed.

Lemma luaScripts_calls t l c :
  In c (calls (trace (forM l (luaScript t)))) ->
  exists filename script, c = call_extractLuaScriptMetrics filename script.
Proof.
  induction l as [|fs l IH]; [intros []|].
  rewrite forM_cons, trace_bind, calls_app, luaScript_calls.
  intros [<-|Hin]; [eauto|].
  destruct (result (luaScript t fs)); [auto|destruct Hin..].
Qed.

(** The loop over the Lua scripts goes through when no script fails. *)
Lemma luaScripts_ok t l :
  (forall fs, In fs l -> snd (extractLuaScriptMetrics t (fst fs) (snd fs)) = None) ->
  result (forM l (luaScript t)) = Next tt.
Proof.
  induction l as [|fs l IH]; intros Hok; [reflexivity|].
  rewrite forM_cons, result_bind.
  assert (Hfs : result (luaScript t fs) = Next tt).
  { unfold luaScript. cbv zeta. rewrite bind_extraction_result.
    now rewrite (Hok fs (or_introl eq_refl)). }
  rewrite Hfs. apply IH. intros fs' Hin. apply Hok. now right.
Qed.

(** It stops with the error of the first script that fails. *)
Lemma luaScripts_fail t l l' fs err :
  (forall fs', In fs' l -> snd (extractLuaScriptMetrics t (fst fs') (snd fs')) = None) ->
  snd (extractLuaScriptMetrics t (fst fs) (snd fs)) = Some err ->
  result (forM (l ++ fs :: l') (luaScript t)) = Returned (Some err).
Proof.
  induction l as [|fs0 l IH]; intros Hok Hfs.
  - simpl app. rewrite forM_cons, result_bind.
    unfold luaScript. cbv zeta. rewrite bind_extraction_result.
    now rewrite Hfs.
  - change ((fs0 :: l) ++ fs :: l')%list with (fs0 :: (l ++ fs :: l'))%list.
    rewrite forM_cons, result_bind.
    assert (Hfs0 : result (luaScript t fs0) = Next tt).
    { unfold luaScript. cbv zeta. rewrite bind_extraction_result.
      now rewrite (Hok fs0 (or_introl eq_refl)). }
    rewrite Hfs0. apply IH; [|assumption]. intros fs' Hin. apply Hok. now right.
Qed.

(** The scripts after the one that fails are not evaluated. *)
Lemma luaScripts_fail_calls t l l' fs err :
  (forall fs', In fs' l -> snd (extractLuaScriptMetrics t (fst fs') (snd fs')) = None) ->
  snd (extractLuaScriptMetrics t (fst fs) (snd fs)) = Some err ->
  calls (trace (forM (l ++ fs :: l') (luaScript t)))
  = (fun fs' => call_extractLuaScriptMetrics (fst fs') (snd fs')) <$> (l ++ [fs])%list.
Proof.
  induction l as [|fs0 l IH]; intros Hok Hfs.
  - simpl app. rewrite forM_cons, trace_bind, calls_app, luaScript_calls.
    unfold luaScript. cbv zeta. rewrite bind_extraction_result, Hfs. reflexivity.
  - change ((fs0 :: l) ++ fs :: l')%list with (fs0 :: (l ++ fs :: l'))%list.
    rewrite forM_cons, trace_bind, calls_app, luaScript_calls.
    assert (Hfs0 : result (luaScript t fs0) = Next tt).
    { unfold luaScript. cbv zeta. rewrite bind_extraction_result.
      now rewrite (Hok fs0 (or_introl eq_refl)). }
    rewrite Hfs0, IH; [reflexivity| |assumption].
    intros fs' Hin. apply Hok. now right.
Qed.

Lemma extractionSteps_result e t infoAll dbCount :
  result (extractionSteps e t infoAll dbCount)
  = match result (forM (LuaScript (options e)) (luaScript t)) with
    | Next _ => Next None
    | Returned r => Returned r
    | Panicked msg => Panicked msg
    end.
Proof.
  unfold extractionSteps. cbv zeta.
  rewrite bind_extraction_result, bind_when_result.
  rewrite result_bind, perKeyChecks_result.
  rewrite result_bind, laterSteps_result.
  rewrite result_bind.
  now destruct (result (forM _ _)).
Qed.

Lemma extractionSteps_calls e t infoAll dbCount :
  calls (trace (extractionSteps e t infoAll dbCount))
  = (call_extractInfoMetrics infoAll dbCount
     :: (if negb (ExcludeLatencyHistogramMetrics (options e))
         then [call_extractLatencyMetrics infoAll] else [])
     ++ calls (trace (perKeyChecks e t (snd (extractInfoMetrics t infoAll dbCount))))
     ++ calls (trace (laterSteps e t infoAll dbCount))
     ++ calls (trace (forM (LuaScript (options e)) (luaScript t))))%list.
Proof.
  unfold extractionSteps. cbv zeta.
  rewrite bind_extraction_calls, bind_when_calls.
  rewrite trace_bind, calls_app, perKeyChecks_result.
  rewrite trace_bind, calls_app, laterSteps_result.
  rewrite trace_bind, calls_app.
  destruct (result (forM _ _)); simpl; rewrite ?app_nil_r; reflexivity.
Qed.

(** *** The scrape as a whole *)

Lemma scrapeRedisHost_uptoInfo e t :
  scrapeRedisHost e t
  = bind (uptoInfo e t) (fun x => extractionSteps e t (fst x) (snd x)).
Proof.
  unfold scrapeRedisHost, uptoInfo.
  repeat (rewrite bind_assoc; apply bind_ext; intros ?).
  now rewrite bind_ret_l.
Qed.

Lemma uptoInfo_calls e t c :
  In c (calls (trace (uptoInfo e t))) -> beforeInfo c.
Proof.
  unfold uptoInfo.
  rewrite trace_bind, calls_app, connecting_trace, connecting_result.
  intros Hin. apply in_app_or in Hin as [Hin|Hin].
  { destruct Hin as [<-|[]]. exact I. }
  destruct (connectToRedis t); [destruct Hin|].
  rewrite trace_bind, calls_app, handshake_result in Hin.
  apply in_app_or in Hin as [Hin|Hin].
  { apply handshake_calls in Hin as [->| ->]; exact I. }
  rewrite trace_bind, calls_app in Hin.
  apply in_app_or in Hin as [Hin|Hin].
  { apply configuring_calls in Hin as ->. exact I. }
  destruct (result (configuring e t)) as [d| |]; [|destruct Hin..].
  rewrite trace_bind, calls_app in Hin.
  apply in_app_or in Hin as [Hin|Hin].
  { apply fetchInfo_calls in Hin as [->| ->]; exact I. }
  destruct (result (fetchInfo t)) as [i| |]; [|destruct Hin..].
  rewrite trace_bind, calls_app in Hin.
  apply in_app_or in Hin as [Hin|Hin].
  { now apply resolveDbCount_calls in Hin. }
  rewrite resolveDbCount_result in Hin. destruct Hin.
Qed.

(** What it takes for the scrape to get as far as the status report. *)
Lemma uptoInfo_Next e t infoAll dbCount :
  result (uptoInfo e t) = Next (infoAll, dbCount) ->
  connectToRedis t = None /\
  exists d,
    result (configuring e t) = Next d /\
    result (fetchInfo t) = Next infoAll /\
    result (resolveDbCount t infoAll d) = Next dbCount.
Proof.
  unfold uptoInfo.
  rewrite result_bind, connecting_result.
  destruct (connectToRedis t); [discriminate|].
  rewrite result_bind, handshake_result, result_bind.
  destruct (result (configuring e t)) as [d| |]; try discriminate.
  rewrite result_bind.
  destruct (result (fetchInfo t)) as [i| |]; try discriminate.
  rewrite result_bind.
  destruct (result (resolveDbCount t i d)) as [n| |] eqn:E; try discriminate.
  intros [= <- <-]. eauto.
Qed.

(** The status report is extracted exactly when the part before it
    goes through. *)
Lemma reached_iff e t infoAll dbCount :
  In (call_extractInfoMetrics infoAll dbCount) (calls (trace (scrapeRedisHost e t)))
  <-> result (uptoInfo e t) = Next (infoAll, dbCount).
Proof.
  rewrite scrapeRedisHost_uptoInfo, trace_bind, calls_app. split.
  - intros Hin. apply in_app_or in Hin as [Hin|Hin].
    { now apply uptoInfo_calls in Hin. }
    destruct (result (uptoInfo e t)) as [[i n]| |]; [|destruct Hin..].
    cbn [fst snd] in Hin. rewrite extractionSteps_calls, perKeyChecks_calls,
      laterSteps_calls in Hin.
    destruct Hin as [[= -> ->]|Hin]; [reflexivity|exfalso].
    repeat (apply in_app_or in Hin as [Hin|Hin]);
      repeat match type of Hin with
             | In _ (if ?b then _ else _) => destruct b
             end;
      try (simpl in Hin; intuition discriminate).
    apply luaScripts_calls in Hin as (f & s & [=]).
  - intros ->. apply in_or_app. right. cbn [fst snd].
    rewrite extractionSteps_calls. now left.
Qed.

Lemma scrapeRedisHost_reached e t infoAll dbCount :
  result (uptoInfo e t) = Next (infoAll, dbCount) ->
  result (scrapeRedisHost e t) = result (extractionSteps e t infoAll dbCount) /\
  calls (trace (scrapeRedisHost e t))
  = (calls (trace (uptoInfo e t)) ++ calls (trace (extractionSteps e t infoAll dbCount)))%list.
Proof.
  intros Hup. rewrite scrapeRedisHost_uptoInfo, result_bind, trace_bind, calls_app, Hup.
  split; reflexivity.
Qed.

End ScrapeTheorems.

Section Claims.

Context {F : Float64} {lib : GoLib}.

(** What [Collect] sends after the scrape. *)
Lemma Collect_sent e t :
  redisAddr e <> "" ->
  sent (trace (Collect e t))
  = (sent (trace (scrapeRedisHost e t))
     ++ match result (scrapeRedisHost e t) with
        | Next err | Returned err =>
            [match err with
             | Some err => ConstGauge "exporter_last_scrape_error" (f64 1) [err]
             | None => ConstGauge "exporter_last_scrape_error" (f64 0) [""]
             end;
             ConstGauge "up" (match err with Some _ => f64 0 | None => f64 1 end) [];
             ConstGauge "exporter_last_scrape_duration_seconds" (took t) [];
             OwnCollector "exporter_scrapes_total";
             OwnCollector "exporter_scrape_duration_seconds";
             OwnCollector "target_scrape_request_errors_total"]
        | Panicked _ => []
        end)%list.
Proof.
  intros Haddr. unfold Collect.
  apply String.eqb_neq in Haddr. rewrite Haddr. cbn [negb].
  destruct (scrapeRedisHost e t) as [tr [[err|]|[err|]|msg]];
    cbn; rewrite ?omap_app, <- ?app_assoc, ?app_nil_r; reflexivity.
Qed.

(** C4. When connecting fails, [Collect] sends the connection time,
    exporter_last_scrape_error = 1 labelled with the error text,
    up = 0, the scrape duration and the exporter's own three
    collectors, and nothing else; it makes no call but the attempt to
    connect. *)
Theorem C4_connection_failure e t err :
  connectToRedis t = Some err ->
  redisAddr e <> "" ->
  Collect e t
  = ([TotalScrapesInc;
      Invoke call_connectToRedis;
      Send (ConstGauge "exporter_last_scrape_connect_time_seconds"
              (connectTookSeconds t) []);
      Send (ConstGauge "exporter_last_scrape_error" (f64 1) [err]);
      Send (ConstGauge "up" (f64 0) []);
      ScrapeDurationObserve (took t);
      Send (ConstGauge "exporter_last_scrape_duration_seconds" (took t) []);
      Send (OwnCollector "exporter_scrapes_total");
      Send (OwnCollector "exporter_scrape_duration_seconds");
      Send (OwnCollector "target_scrape_request_errors_total")],
     Next tt).
Proof.
  intros Hc Haddr. unfold Collect, scrapeRedisHost, connecting.
  apply String.eqb_neq in Haddr. rewrite Haddr, Hc. reflexivity.
Qed.

(** The per-key steps and the test on the role. *)
Lemma per_key_steps_iff e t infoAll dbCount :
  In (call_extractInfoMetrics infoAll dbCount) (calls (trace (scrapeRedisHost e t))) ->
  let role := snd (extractInfoMetrics t infoAll dbCount) in
  let wanted := role = InstanceRoleSlave \/ SkipCheckKeysForRoleMaster (options e) = false in
  (In call_extractCheckKeyMetrics (calls (trace (scrapeRedisHost e t))) <-> wanted) /\
  (In call_extractCountKeysMetrics (calls (trace (scrapeRedisHost e t))) <-> wanted) /\
  (In call_extractStreamMetrics (calls (trace (scrapeRedisHost e t))) <-> wanted).
Proof.
  intros Hreach role wanted. apply reached_iff in Hreach.
  destruct (scrapeRedisHost_reached _ _ _ _ Hreach) as [_ ->].
  rewrite extractionSteps_calls, perKeyChecks_calls, laterSteps_calls.
  fold role.
  assert (Hwanted : String.eqb role InstanceRoleSlave
                  || negb (SkipCheckKeysForRoleMaster (options e)) = true <-> wanted).
  { unfold wanted. rewrite orb_true_iff, String.eqb_eq, negb_true_iff. reflexivity. }
  assert (Hpre : forall c, In c (calls (trace (uptoInfo e t))) -> beforeInfo c)
    by apply uptoInfo_calls.
  destruct (String.eqb role InstanceRoleSlave
            || negb (SkipCheckKeysForRoleMaster (options e))).
  - repeat split; try (intros _; now apply Hwanted);
      intros _; apply in_or_app; right; right; apply in_or_app; right;
      simpl; auto.
  - repeat split; try (intros Hg; apply Hwanted in Hg; discriminate);
      intros Hin; exfalso;
      (apply in_app_or in Hin as [Hin|Hin]; [now apply Hpre in Hin|]);
      (destruct Hin as [Hin|Hin]; [discriminate|]);
      repeat (apply in_app_or in Hin as [Hin|Hin]);
      repeat match type of Hin with
             | In _ (if ?b then _ else _) => destruct b
             end;
      try (simpl in Hin; intuition discriminate);
      apply luaScripts_calls in Hin as (f & s & [=]).
Qed.


(** C3. With the config step enabled and the connection made: a
    failure of the CONFIG GET command does not end the scrape, which
    goes on to send INFO ALL; a reply that [extractConfigMetrics]
    rejects ends it with that error, before INFO ALL is sent.  A reply
    with an odd number of elements is rejected, and so is a value of
    databases that is not an integer. *)
Theorem C3_config_failures e t :
  connectToRedis t = None ->
  ConfigCommandName (options e) <> "-" ->
  let configCmd := [ConfigCommandName (options e); "GET"; "*"] in
  (forall err,
     redis.Values (doRedisCmd t configCmd) = inl err ->
     In (call_doRedisCmd ["INFO"; "ALL"]) (calls (trace (scrapeRedisHost e t)))) /\
  (forall config n err,
     redis.Values (doRedisCmd t configCmd) = inr config ->
     result (extractConfigMetrics e config) = Returned (n, Some err) ->
     result (scrapeRedisHost e t) = Returned (Some err) /\
     ~ In (call_doRedisCmd ["INFO"; "ALL"]) (calls (trace (scrapeRedisHost e t)))) /\
  (forall config,
     redis.Values (doRedisCmd t configCmd) = inr config ->
     (length config mod 2 <> 0)%nat ->
     result (extractConfigMetrics e config)
     = Returned (0, Some ("invalid config: " +:+ GoSyntaxValues config))) /\
  (forall strVal,
     strconv.Atoi strVal = None ->
     result (extractConfigMetrics e [RBulk "databases"; RBulk strVal])
     = Returned (0, Some ("invalid config value for key databases: "
                          +:+ GoSyntaxString strVal))).
Proof.
  intros Hc Hname configCmd. apply String.eqb_neq in Hname.
  pose proof (configuring_result e t) as Hcfg.
  rewrite Hname in Hcfg. fold configCmd in Hcfg.
  unfold scrapeRedisHost. split; [|split; [|split]].
  - intros err Hval. rewrite Hval in Hcfg.
    rewrite trace_bind, calls_app, connecting_result, Hc.
    rewrite trace_bind, calls_app, handshake_result.
    rewrite trace_bind, calls_app, Hcfg.
    rewrite trace_bind, calls_app.
    destruct (fetchInfo_calls_eq t) as (cs & -> & _).
    do 3 (apply in_or_app; right). now left.
  - intros config n err Hval Hext. rewrite Hval, Hext in Hcfg.
    rewrite !result_bind, connecting_result, Hc, handshake_result, Hcfg.
    split; [reflexivity|].
    rewrite trace_bind, calls_app, connecting_trace.
    rewrite connecting_result, Hc.
    rewrite trace_bind, calls_app, handshake_result.
    rewrite trace_bind, calls_app, Hcfg, app_nil_r.
    intros Hin. apply in_app_or in Hin as [Hin|Hin].
    { destruct Hin as [Hin|[]]. discriminate. }
    apply in_app_or in Hin as [Hin|Hin].
    { apply handshake_calls in Hin as [Hin|Hin]; discriminate. }
    apply configuring_calls in Hin. discriminate.
  - intros config _ Hodd. now rewrite extractConfigMetrics_odd.
  - intros strVal Hn. now rewrite extractConfigMetrics_databases, Hn.
Qed.

(** C2. In a scrape that gets as far as the status report.  When no
    Lua script fails, [scrapeRedisHost] returns nil whatever the other
    extraction steps do, the key checks included, which may return an
    error; [Collect] then sends exporter_last_scrape_error = 0 and
    up = 1; and the steps after a failed one still run.  When a Lua
    script fails, [scrapeRedisHost] returns the error of that script,
    the scripts after it are not evaluated, and [Collect] sends
    exporter_last_scrape_error = 1 and up = 0. *)
Theorem C2_failures_after_info e t infoAll dbCount :
  In (call_extractInfoMetrics infoAll dbCount) (calls (trace (scrapeRedisHost e t))) ->
  ((forall fs, In fs (LuaScript (options e)) ->
               snd (extractLuaScriptMetrics t (fst fs) (snd fs)) = None) ->
   result (scrapeRedisHost e t) = Next None /\
   (redisAddr e <> "" ->
    sent (trace (Collect e t))
    = (sent (trace (scrapeRedisHost e t))
       ++ [ConstGauge "exporter_last_scrape_error" (f64 0) [""];
           ConstGauge "up" (f64 1) [];
           ConstGauge "exporter_last_scrape_duration_seconds" (took t) [];
           OwnCollector "exporter_scrapes_total";
           OwnCollector "exporter_scrape_duration_seconds";
           OwnCollector "target_scrape_request_errors_total"])%list) /\
   (In call_extractCheckKeyMetrics (calls (trace (scrapeRedisHost e t))) ->
    In call_extractCountKeysMetrics (calls (trace (scrapeRedisHost e t))) /\
    In call_extractStreamMetrics (calls (trace (scrapeRedisHost e t)))) /\
   In call_extractSlowLogMetrics (calls (trace (scrapeRedisHost e t))) /\
   In (call_extractKeyGroupMetrics dbCount) (calls (trace (scrapeRedisHost e t))) /\
   (forall fs, In fs (LuaScript (options e)) ->
      In (call_extractLuaScriptMetrics (fst fs) (snd fs))
         (calls (trace (scrapeRedisHost e t))))) /\
  (forall l fs l' err,
     LuaScript (options e) = (l ++ fs :: l')%list ->
     (forall fs', In fs' l ->
                  snd (extractLuaScriptMetrics t (fst fs') (snd fs')) = None) ->
     snd (extractLuaScriptMetrics t (fst fs) (snd fs)) = Some err ->
     result (scrapeRedisHost e t) = Returned (Some err) /\
     (redisAddr e <> "" ->
      sent (trace (Collect e t))
      = (sent (trace (scrapeRedisHost e t))
         ++ [ConstGauge "exporter_last_scrape_error" (f64 1) [err];
             ConstGauge "up" (f64 0) [];
             ConstGauge "exporter_last_scrape_duration_seconds" (took t) [];
             OwnCollector "exporter_scrapes_total";
             OwnCollector "exporter_scrape_duration_seconds";
             OwnCollector "target_scrape_request_errors_total"])%list) /\
     calls (trace (forM (LuaScript (options e)) (luaScript t)))
     = (fun fs' => call_extractLuaScriptMetrics (fst fs') (snd fs')) <$> (l ++ [fs])%list).
Proof.
  intros Hreach.
  pose proof (per_key_steps_iff e t infoAll dbCount Hreach) as (Hck & Hcnt & Hstr).
  apply reached_iff in Hreach.
  destruct (scrapeRedisHost_reached _ _ _ _ Hreach) as [Hres Hcalls].
  split.
  - intros Hlua.
    assert (Hnil : result (scrapeRedisHost e t) = Next None).
    { rewrite Hres, extractionSteps_result. now rewrite (luaScripts_ok _ _ Hlua). }
    split; [exact Hnil|]. split.
    { intros Haddr. now rewrite (Collect_sent _ _ Haddr), Hnil. }
    split.
    { intros Hin. apply Hck in Hin. split; [now apply Hcnt|now apply Hstr]. }
    rewrite Hcalls, extractionSteps_calls, laterSteps_calls.
    repeat split.
    + apply in_or_app. right. right. do 2 (apply in_or_app; right).
      apply in_or_app. left. now left.
    + apply in_or_app. right. right. do 2 (apply in_or_app; right).
      apply in_or_app. left. right. now left.
    + intros fs Hfs. apply in_or_app. right. right. do 3 (apply in_or_app; right).
      clear -Hfs Hlua. induction (LuaScript (options e)) as [|fs0 l IH]; [destruct Hfs|].
      rewrite forM_cons, trace_bind, calls_app, luaScript_calls.
      destruct Hfs as [->|Hfs]; [now left|right].
      assert (Hfs0 : result (luaScript t fs0) = Next tt).
      { unfold luaScript. cbv zeta. rewrite bind_extraction_result.
        now rewrite (Hlua fs0 (or_introl eq_refl)). }
      rewrite Hfs0. apply IH; [|assumption]. intros fs' Hin. apply Hlua. now right.
  - intros l fs l' err Hscripts Hok Hfs.
    assert (Herr : result (scrapeRedisHost e t) = Returned (Some err)).
    { rewrite Hres, extractionSteps_result, Hscripts.
      now rewrite (luaScripts_fail t l l' fs err Hok Hfs). }
    split; [exact Herr|]. split.
    { intros Haddr. now rewrite (Collect_sent _ _ Haddr), Herr. }
    rewrite Hscripts. now apply (luaScripts_fail_calls t l l' fs err).
Qed.

End Claims.

(** ** More on [NewRedisExporter] *)

Section NewRedisExporterMore.

Variable parseKeyArg : string -> option error.

(** X1. [NewRedisExporter] returns an error exactly when [parseKeyArg]
    rejects one of the five key options. *)
Theorem X1_NewRedisExporter_fails_iff uri opts :
  (exists err, NewRedisExporter parseKeyArg uri opts = inl err) <->
  (exists k,
     In k [CheckKeys opts; CheckSingleKeys opts; CheckStreams opts;
           CheckSingleStreams opts; CountKeys opts] /\
     parseKeyArg k <> None).
Proof.
  unfold NewRedisExporter.
  generalize (list_to_map gaugeEntries : gmap string string).
  generalize (list_to_map counterEntries : gmap string string).
  intros counters gauges. split.
  - intros [err Herr].
    destruct (parseKeyArg (CheckKeys opts)) eqn:E1.
    { exists (CheckKeys opts). split; [simpl; auto|congruence]. }
    destruct (parseKeyArg (CheckSingleKeys opts)) eqn:E2.
    { exists (CheckSingleKeys opts). split; [simpl; auto|congruence]. }
    destruct (parseKeyArg (CheckStreams opts)) eqn:E3.
    { exists (CheckStreams opts). split; [simpl; auto|congruence]. }
    destruct (parseKeyArg (CheckSingleStreams opts)) eqn:E4.
    { exists (CheckSingleStreams opts). split; [simpl; auto 6|congruence]. }
    destruct (parseKeyArg (CountKeys opts)) eqn:E5.
    { exists (CountKeys opts). split; [simpl; auto 6|congruence]. }
    discriminate.
  - intros (k & Hin & Hk).
    destruct (parseKeyArg (CheckKeys opts)) eqn:E1; [eauto|].
    destruct (parseKeyArg (CheckSingleKeys opts)) eqn:E2; [eauto|].
    destruct (parseKeyArg (CheckStreams opts)) eqn:E3; [eauto|].
    destruct (parseKeyArg (CheckSingleStreams opts)) eqn:E4; [eauto|].
    destruct (parseKeyArg (CountKeys opts)) eqn:E5; [eauto|].
    exfalso. simpl in Hin.
    repeat (destruct Hin as [<-|Hin]; [congruence|]). exact Hin.
Qed.

Lemma NewRedisExporter_options uri opts e :
  NewRedisExporter parseKeyArg uri opts = inr e ->
  options e
  = (let o := if String.eqb (ConfigCommandName opts) ""
              then withConfigCommandName opts "CONFIG" else opts in
     if String.eqb (MetricsPath o) "" then withMetricsPath o "/metrics" else o).
Proof.
  unfold NewRedisExporter.
  generalize (list_to_map gaugeEntries : gmap string string).
  generalize (list_to_map counterEntries : gmap string string).
  intros counters gauges.
  repeat match goal with
         | |- context [parseKeyArg ?x] => destruct (parseKeyArg x); [discriminate|]
         end.
  now intros [= <-].
Qed.

(** X2. The exporter that [NewRedisExporter] returns has a config
    command name and a metrics path that are not empty: an empty one is
    replaced by its default, CONFIG and /metrics, and one that is given
    is kept. *)
Theorem X2_option_defaults uri opts e :
  NewRedisExporter parseKeyArg uri opts = inr e ->
  ConfigCommandName (options e) <> "" /\
  MetricsPath (options e) <> "" /\
  ConfigCommandName (options e)
  = (if String.eqb (ConfigCommandName opts) "" then "CONFIG" else ConfigCommandName opts) /\
  MetricsPath (options e)
  = (if String.eqb (MetricsPath opts) "" then "/metrics" else MetricsPath opts).
Proof.
  intros He. rewrite (NewRedisExporter_options _ _ _ He). cbv zeta.
  destruct (String.eqb_spec (ConfigCommandName opts) "") as [Hc|Hc];
    destruct (String.eqb_spec (MetricsPath opts) "") as [Hm|Hm];
    cbn [withConfigCommandName withMetricsPath MetricsPath ConfigCommandName];
    rewrite ?Hm; cbn [String.eqb];
    try (destruct (String.eqb_spec (MetricsPath opts) "") as [Hm'|Hm']; [contradiction|]);
    cbn [withConfigCommandName withMetricsPath MetricsPath ConfigCommandName];
    repeat split; solve [discriminate | assumption | reflexivity].
Qed.

(** X3. In every exporter that [NewRedisExporter] returns,
    expired_time_cap_reached_count is the only field that is a key of
    both tables, and total_system_memory is a key of the gauge table
    exactly when InclSystemMetrics is set. *)
Theorem X3_tables_of_the_exporter uri opts e :
  NewRedisExporter parseKeyArg uri opts = inr e ->
  dom (metricMapGauges e) ∩ dom (metricMapCounters e)
    = {[ "expired_time_cap_reached_count" ]} /\
  (is_Some (metricMapGauges e !! "total_system_memory")
   <-> InclSystemMetrics opts = true).
Proof.
  intros He. destruct (NewRedisExporter_inr _ _ _ _ He) as (_ & -> & ->).
  destruct (InclSystemMetrics opts).
  - split.
    + apply (bool_decide_eq_true_1 _). vm_compute. reflexivity.
    + split; [reflexivity|]. intros _. rewrite lookup_insert_eq. eauto.
  - split.
    + apply (bool_decide_eq_true_1 _). vm_compute. reflexivity.
    + split; [|discriminate]. intros [v Hv]. vm_compute in Hv. discriminate.
Qed.

End NewRedisExporterMore.

(** ** More on the monad *)

Section GoMore.

Context {F : Float64} {lib : GoLib}.

Lemma bind_trace_Forall {R A B} (P : Event -> Prop) (m : Go R A) (f : A -> Go R B) :
  Forall P (trace m) -> (forall a, Forall P (trace (f a))) ->
  Forall P (trace (bind m f)).
Proof.
  intros Hm Hf. rewrite trace_bind. apply Forall_app. split; [exact Hm|].
  destruct (result m); auto.
Qed.

Lemma foldM_trace_Forall {R A B} (P : Event -> Prop)
    (body : A -> B -> Go R A) (l : list B) (a : A) :
  (forall a x, Forall P (trace (body a x))) ->
  Forall P (trace (foldM body l a)).
Proof.
  intros Hb. revert a. induction l as [|x l IH]; intros a; [constructor|].
  simpl. apply bind_trace_Forall; auto.
Qed.

Lemma foldM_Panicked {R A B} (body : A -> B -> Go R A) (l : list B) (a : A) msg :
  result (foldM body l a) = Panicked msg ->
  exists a' x, In x l /\ result (body a' x) = Panicked msg.
Proof.
  revert a. induction l as [|x l IH]; intros a; [discriminate|].
  simpl. rewrite result_bind.
  destruct (result (body a x)) as [a'| |msg'] eqn:E; try discriminate.
  - intros Hp. destruct (IH _ Hp) as (a'' & y & Hy & Hres). eauto 6.
  - intros [= <-]. eauto 6.
Qed.

Lemma foldM_Returned {R A B} (body : A -> B -> Go R A) (l : list B) (a : A) r :
  result (foldM body l a) = Returned r ->
  exists a' x, In x l /\ result (body a' x) = Returned r.
Proof.
  revert a. induction l as [|x l IH]; intros a; [discriminate|].
  simpl. rewrite result_bind.
  destruct (result (body a x)) as [a'|r'|] eqn:E; try discriminate.
  - intros Hp. destruct (IH _ Hp) as (a'' & y & Hy & Hres). eauto 6.
  - intros [= <-]. eauto 6.
Qed.

Lemma foldM_Next_inv {R A B} (I : A -> Prop)
    (body : A -> B -> Go R A) (l : list B) (a a' : A) :
  I a ->
  (forall a x a', In x l -> I a -> result (body a x) = Next a' -> I a') ->
  result (foldM body l a) = Next a' -> I a'.
Proof.
  revert a. induction l as [|x l IH]; intros a Ha Hstep.
  - now intros [= <-].
  - simpl. rewrite result_bind.
    destruct (result (body a x)) as [a1| |] eqn:E; try discriminate.
    apply IH.
    + apply (Hstep a x a1); [now left|assumption|assumption].
    + intros a2 y a3 Hy. apply Hstep. now right.
Qed.

Lemma foldM_fmap {R A B C} (body : A -> B -> Go R A) (f : C -> B) (l : list C) (a : A) :
  foldM body (f <$> l) a = foldM (fun a x => body a (f x)) l a.
Proof.
  revert a. induction l as [|x l IH]; intros a; [reflexivity|].
  simpl. apply bind_ext. intros a'. apply IH.
Qed.

End GoMore.

(** ** More on [extractConfigMetrics] *)

Section ConfigMore.

Context {F : Float64} {lib : GoLib}.

Lemma configGaugeKeys_cases k :
  lookupBool configGaugeKeys k = true ->
  k = "io-threads" \/ k = "maxclients" \/ k = "maxmemory".
Proof.
  unfold lookupBool, configGaugeKeys. cbn [list_to_map foldr fst snd].
  destruct (_ !! k) as [b|] eqn:E; [|discriminate]. intros _.
  rewrite !lookup_insert_Some, lookup_empty in E. intuition congruence.
Qed.

(** The key that [configGauge] leaves is client-output-buffer-limit
    only if it was so before. *)
Lemma configGauge_result {R} strKey strVal :
  exists s, result (configGauge (R := R) strKey strVal) = Next s /\
            (s = "client-output-buffer-limit" -> strKey = "client-output-buffer-limit").
Proof.
  unfold configGauge.
  destruct (lookupBool configGaugeKeys strKey) eqn:E; [|now exists strKey].
  destruct (ParseFloat strVal); [|now exists strKey].
  cbv zeta. rewrite result_bind. cbn [result registerConstMetricGauge emit ret snd].
  eexists. split; [reflexivity|].
  apply configGaugeKeys_cases in E as [->|[->| ->]]; vm_compute; discriminate.
Qed.

Lemma configBufferLimits_result_gen {R} strKey strVal :
  result (configBufferLimits (R := R) strKey strVal)
  = if String.eqb strKey "client-output-buffer-limit" then
      if (length (strings.Split strVal " ") mod 4 =? 0)%nat then Next tt
      else Panicked "runtime error: index out of range"
    else Next tt.
Proof.
  unfold configBufferLimits. destruct (String.eqb _ _); [|reflexivity].
  apply forM_stride4.
Qed.

Lemma configDatabases_result dbCount strKey strVal :
  result (configDatabases dbCount strKey strVal)
  = if String.eqb strKey "databases" then
      match strconv.Atoi strVal with
      | Some n => Next n
      | None => Returned (0, Some ("invalid config value for key databases: "
                                   +:+ GoSyntaxString strVal))
      end
    else Next dbCount.
Proof.
  unfold configDatabases. destruct (String.eqb _ _); [|reflexivity].
  now destruct (strconv.Atoi strVal).
Qed.

(** How [configEntry] ends, from how its blocks end. *)
Lemma configEntry_result e dbCount strKey strVal :
  exists s,
    (s = "client-output-buffer-limit" -> strKey = "client-output-buffer-limit") /\
    result (configEntry e dbCount strKey strVal)
    = match result (configDatabases dbCount strKey strVal) with
      | Next d =>
          match result (configBufferLimits (R := Z * option error) s strVal) with
          | Next _ => Next d
          | Returned r => Returned r
          | Panicked msg => Panicked msg
          end
      | Returned r => Returned r
      | Panicked msg => Panicked msg
      end.
Proof.
  destruct (configGauge_result (R := Z * option error) strKey strVal) as (s & Hs & Hkey).
  exists s. split; [exact Hkey|].
  unfold configEntry. rewrite result_bind.
  destruct (result (configDatabases dbCount strKey strVal)); try reflexivity.
  rewrite result_bind, configKeyValue_result, result_bind, Hs, result_bind.
  now destruct (result (configBufferLimits s strVal)).
Qed.

(** The pairs that the loop visits are in range. *)
Lemma config_pair_in_range (config : list Reply) pos :
  In pos (seq 0 (length config / 2)) ->
  exists kr vr, config !! (pos * 2)%nat = Some kr /\ config !! (pos * 2 + 1)%nat = Some vr.
Proof.
  intros Hin. apply in_seq in Hin as [_ Hlt].
  pose proof (Nat.Div0.mul_div_le (length config) 2) as Hle.
  destruct (lookup_lt_is_Some_2 config (pos * 2)) as [kr Hk]; [lia|].
  destruct (lookup_lt_is_Some_2 config (pos * 2 + 1)) as [vr Hv]; [lia|].
  eauto.
Qed.

(** How the body of the loop ends at a pair in range. *)
Lemma configPair_result e config dbCount pos kr vr :
  config !! (pos * 2)%nat = Some kr ->
  config !! (pos * 2 + 1)%nat = Some vr ->
  result (configPair e config dbCount pos)
  = match redis.String (inr kr), redis.String (inr vr) with
    | inr strKey, inr strVal => result (configEntry e dbCount strKey strVal)
    | _, _ => Next dbCount
    end.
Proof.
  intros Hk Hv. unfold configPair.
  rewrite (index_Some _ _ _ Hk), bind_ret_l.
  destruct (redis.String (inr kr)); [reflexivity|].
  rewrite (index_Some _ _ _ Hv), bind_ret_l.
  now destruct (redis.String (inr vr)).
Qed.

(** X5. [extractConfigMetrics] panics only on a value of
    client-output-buffer-limit whose number of tokens is not a multiple
    of 4, and then on an index out of range. *)
Theorem X5_only_buffer_limit_panics e config msg :
  result (extractConfigMetrics e config) = Panicked msg ->
  msg = "runtime error: index out of range" /\
  exists pos kr vr strVal,
    config !! (pos * 2)%nat = Some kr /\
    redis.String (inr kr) = inr "client-output-buffer-limit" /\
    config !! (pos * 2 + 1)%nat = Some vr /\
    redis.String (inr vr) = inr strVal /\
    (length (strings.Split strVal " ") mod 4 <> 0)%nat.
Proof.
  unfold extractConfigMetrics. rewrite result_bind.
  destruct (negb _); [discriminate|]. cbn [result ret snd].
  rewrite result_bind.
  destruct (result (foldM _ _ _)) as [d|r|msg'] eqn:E; try discriminate.
  intros [= <-].
  apply foldM_Panicked in E as (a & pos & Hpos & Hres).
  destruct (config_pair_in_range _ _ Hpos) as (kr & vr & Hk & Hv).
  rewrite (configPair_result _ _ _ _ _ _ Hk Hv) in Hres.
  destruct (redis.String (inr kr)) as [|strKey] eqn:Ek; [discriminate|].
  destruct (redis.String (inr vr)) as [|strVal] eqn:Ev; [discriminate|].
  destruct (configEntry_result e a strKey strVal) as (s & Hkey & Hent).
  rewrite Hent, configDatabases_result, configBufferLimits_result_gen in Hres.
  assert (Hlim :
    (if String.eqb s "client-output-buffer-limit" then
       if (length (strings.Split strVal " ") mod 4 =? 0)%nat
       then @Next (Z * option error) unit tt
       else Panicked "runtime error: index out of range"
     else Next tt) = Panicked msg').
  { destruct (String.eqb strKey "databases");
      [destruct (strconv.Atoi strVal); [|discriminate]|];
      destruct (String.eqb s _); try discriminate;
      destruct (_ =? _)%nat; try discriminate; congruence. }
  destruct (String.eqb_spec s "client-output-buffer-limit") as [Hs|]; [|discriminate].
  destruct (Nat.eqb_spec (length (strings.Split strVal " ") mod 4) 0) as [|Hmod];
    [discriminate|].
  injection Hlim as <-. split; [reflexivity|].
  exists pos, kr, vr, strVal. rewrite <- (Hkey Hs). auto.
Qed.

(** X6. The errors of [extractConfigMetrics]: it returns an error
    only for a reply with an odd number of elements, or at a value of
    the key databases that is not an integer; the count returned with
    an error is 0, and a normal end carries no error. *)
Theorem X6_config_errors e config :
  match result (extractConfigMetrics e config) with
  | Next r => snd r = None /\ (length config mod 2 = 0)%nat
  | Returned r =>
      (length config mod 2 <> 0)%nat /\
      r = (0, Some ("invalid config: " +:+ GoSyntaxValues config))
      \/
      exists pos kr vr strVal,
        config !! (pos * 2)%nat = Some kr /\
        redis.String (inr kr) = inr "databases" /\
        config !! (pos * 2 + 1)%nat = Some vr /\
        redis.String (inr vr) = inr strVal /\
        strconv.Atoi strVal = None /\
        r = (0, Some ("invalid config value for key databases: "
                      +:+ GoSyntaxString strVal))
  | Panicked _ => True
  end.
Proof.
  unfold extractConfigMetrics. rewrite result_bind.
  destruct (Nat.eqb_spec (length config mod 2) 0) as [Heven|Hodd]; cbn [negb].
  2:{ cbn [result return_ snd]. left. auto. }
  cbn [result ret snd]. rewrite result_bind.
  destruct (result (foldM _ _ _)) as [d|r|msg'] eqn:E; [now split| |exact I].
  right.
  apply foldM_Returned in E as (a & pos & Hpos & Hres).
  destruct (config_pair_in_range _ _ Hpos) as (kr & vr & Hk & Hv).
  rewrite (configPair_result _ _ _ _ _ _ Hk Hv) in Hres.
  destruct (redis.String (inr kr)) as [|strKey] eqn:Ek; [discriminate|].
  destruct (redis.String (inr vr)) as [|strVal] eqn:Ev; [discriminate|].
  destruct (configEntry_result e a strKey strVal) as (s & Hkey & Hent).
  rewrite Hent, configDatabases_result, configBufferLimits_result_gen in Hres.
  destruct (String.eqb_spec strKey "databases") as [->|].
  - destruct (strconv.Atoi strVal) eqn:Ea.
    + destruct (String.eqb s _); try discriminate.
      destruct (_ =? _)%nat; discriminate.
    + injection Hres as <-. exists pos, kr, vr, strVal. auto 7.
  - destruct (String.eqb s _); try discriminate.
    destruct (_ =? _)%nat; discriminate.
Qed.

(** X7. The count that [extractConfigMetrics] returns is 0 or the
    integer value of a key databases of the reply. *)
Theorem X7_count_comes_from_databases e config n :
  result (extractConfigMetrics e config) = Next (n, None) ->
  n = 0 \/
  exists pos kr vr strVal,
    config !! (pos * 2)%nat = Some kr /\
    redis.String (inr kr) = inr "databases" /\
    config !! (pos * 2 + 1)%nat = Some vr /\
    redis.String (inr vr) = inr strVal /\
    strconv.Atoi strVal = Some n.
Proof.
  unfold extractConfigMetrics. rewrite result_bind.
  destruct (negb _); [discriminate|]. cbn [result ret snd].
  rewrite result_bind.
  destruct (result (foldM _ _ _)) as [d|r|msg'] eqn:E; try discriminate.
  intros [= <-]. revert E.
  apply (foldM_Next_inv
           (fun d => d = 0 \/
              exists pos kr vr strVal,
                config !! (pos * 2)%nat = Some kr /\
                redis.String (inr kr) = inr "databases" /\
                config !! (pos * 2 + 1)%nat = Some vr /\
                redis.String (inr vr) = inr strVal /\
                strconv.Atoi strVal = Some d)); [now left|].
  intros a pos a' Hpos Ha Hres.
  destruct (config_pair_in_range _ _ Hpos) as (kr & vr & Hk & Hv).
  rewrite (configPair_result _ _ _ _ _ _ Hk Hv) in Hres.
  destruct (redis.String (inr kr)) as [|strKey] eqn:Ek; [now injection Hres as <-|].
  destruct (redis.String (inr vr)) as [|strVal] eqn:Ev; [now injection Hres as <-|].
  destruct (configEntry_result e a strKey strVal) as (s & Hkey & Hent).
  rewrite Hent, configDatabases_result, configBufferLimits_result_gen in Hres.
  destruct (String.eqb_spec strKey "databases") as [->|].
  - destruct (strconv.Atoi strVal) as [m|] eqn:Ea; [|discriminate].
    assert (m = a') as <-.
    { destruct (String.eqb s _); [destruct (_ =? _)%nat|]; congruence. }
    right. exists pos, kr, vr, strVal. auto.
  - assert (a = a') as <-; [|assumption].
    destruct (String.eqb s _); [destruct (_ =? _)%nat|]; congruence.
Qed.

End ConfigMore.

(** ** The database count *)

Section DatabaseCount.

Context {F : Float64} {lib : GoLib}.

Lemma foldM_app_Next {R A B} (body : A -> B -> Go R A) (l1 l2 : list B) (a m : A) :
  result (foldM body (l1 ++ l2) a) = Next m ->
  exists a1, result (foldM body l1 a) = Next a1 /\ result (foldM body l2 a1) = Next m.
Proof.
  revert a. induction l1 as [|x l1 IH]; intros a.
  - intros H. now exists a.
  - cbn [app foldM]. rewrite !result_bind.
    destruct (result (body a x)) as [a'| |]; try discriminate.
    apply IH.
Qed.

(** A pair whose key is databases sets the count to the integer value. *)
Lemma configPair_Next_databases e config d pos kr vr strVal n d' :
  config !! (pos * 2)%nat = Some kr ->
  redis.String (inr kr) = inr "databases" ->
  config !! (pos * 2 + 1)%nat = Some vr ->
  redis.String (inr vr) = inr strVal ->
  strconv.Atoi strVal = Some n ->
  result (configPair e config d pos) = Next d' ->
  d' = n.
Proof.
  intros Hk Hks Hv Hvs Hn.
  rewrite (configPair_result _ _ _ _ _ _ Hk Hv), Hks, Hvs.
  destruct (configEntry_result e d "databases" strVal) as (s & _ & ->).
  rewrite configDatabases_result. cbn [String.eqb Ascii.eqb Bool.eqb].
  rewrite Hn.
  destruct (result (configBufferLimits s strVal)); try discriminate.
  now intros [= <-].
Qed.

(** A pair in range whose key is not databases leaves the count. *)
Lemma configPair_Next_other e config d pos d' :
  In pos (seq 0 (length config / 2)) ->
  (forall kr, config !! (pos * 2)%nat = Some kr ->
              redis.String (inr kr) <> inr "databases") ->
  result (configPair e config d pos) = Next d' ->
  d' = d.
Proof.
  intros Hpos Hkey.
  destruct (config_pair_in_range _ _ Hpos) as (kr & vr & Hk & Hv).
  rewrite (configPair_result _ _ _ _ _ _ Hk Hv).
  specialize (Hkey _ Hk).
  destruct (redis.String (inr kr)) as [|strKey]; [now intros [= <-]|].
  destruct (redis.String (inr vr)) as [|strVal]; [now intros [= <-]|].
  destruct (configEntry_result e d strKey strVal) as (s & _ & ->).
  rewrite configDatabases_result.
  destruct (String.eqb_spec strKey "databases") as [->|_]; [congruence|].
  destruct (result (configBufferLimits s strVal)); try discriminate.
  now intros [= <-].
Qed.

(** The count that [extractConfigMetrics] returns is the integer value
    of the last pair of the reply whose key is databases. *)
Lemma extractConfigMetrics_last_databases e config pos kr vr strVal n m :
  config !! (pos * 2)%nat = Some kr ->
  redis.String (inr kr) = inr "databases" ->
  config !! (pos * 2 + 1)%nat = Some vr ->
  redis.String (inr vr) = inr strVal ->
  strconv.Atoi strVal = Some n ->
  (forall pos' kr', (pos < pos')%nat ->
                    config !! (pos' * 2)%nat = Some kr' ->
                    redis.String (inr kr') <> inr "databases") ->
  result (extractConfigMetrics e config) = Next (m, None) ->
  m = n.
Proof.
  intros Hk Hks Hv Hvs Hn Hlast.
  unfold extractConfigMetrics. rewrite result_bind.
  destruct (Nat.eqb_spec (length config mod 2) 0) as [Heven|]; [|discriminate].
  cbn [negb result ret snd]. rewrite result_bind.
  destruct (result (foldM _ _ _)) as [d| |] eqn:E; try discriminate.
  intros [= <-].
  assert (Hlt : (pos < length config / 2)%nat).
  { apply lookup_lt_Some in Hv.
    apply Nat.div_le_lower_bound; lia. }
  replace (length config / 2)%nat
    with (pos + S (length config / 2 - S pos))%nat in E by lia.
  rewrite seq_app in E. cbn [seq Nat.add] in E.
  apply foldM_app_Next in E as (a1 & _ & E).
  cbn [foldM] in E. rewrite result_bind in E.
  destruct (result (configPair e config a1 pos)) as [d1| |] eqn:E1; try discriminate.
  apply (configPair_Next_databases _ _ _ _ _ _ _ _ _ Hk Hks Hv Hvs Hn) in E1 as ->.
  revert E.
  apply (foldM_Next_inv (fun d => d = n)); [reflexivity|].
  intros a x a' Hx -> Hres.
  apply in_seq in Hx.
  apply (configPair_Next_other e config n x a').
  - apply in_seq. lia.
  - intros kr' Hk'. apply (Hlast x kr'); [lia|exact Hk'].
  - exact Hres.
Qed.

(** It is 0 for a reply without the key databases. *)
Lemma extractConfigMetrics_no_databases e config m :
  (forall pos kr, config !! (pos * 2)%nat = Some kr ->
                  redis.String (inr kr) <> inr "databases") ->
  result (extractConfigMetrics e config) = Next (m, None) ->
  m = 0.
Proof.
  intros Hnone.
  unfold extractConfigMetrics. rewrite result_bind.
  destruct (negb _); [discriminate|].
  cbn [result ret snd]. rewrite result_bind.
  destruct (result (foldM _ _ _)) as [d| |] eqn:E; try discriminate.
  intros [= <-]. revert E.
  apply (foldM_Next_inv (fun d => d = 0)); [reflexivity|].
  intros a x a' Hx -> Hres.
  apply (configPair_Next_other e config 0 x a'); eauto.
Qed.

(** An early return of [extractConfigMetrics] carries an error. *)
Lemma extractConfigMetrics_Returned e config r :
  result (extractConfigMetrics e config) = Returned r -> snd r <> None.
Proof.
  unfold extractConfigMetrics. rewrite result_bind.
  destruct (negb _); [now intros [= <-]|].
  cbn [result ret snd]. rewrite result_bind.
  destruct (result (foldM _ _ _)) as [d|r'|] eqn:E; try discriminate.
  intros [= <-].
  apply foldM_Returned in E as (a & pos & Hpos & Hres).
  destruct (config_pair_in_range _ _ Hpos) as (kr & vr & Hk & Hv).
  rewrite (configPair_result _ _ _ _ _ _ Hk Hv) in Hres.
  destruct (redis.String (inr kr)) as [|strKey]; [discriminate|].
  destruct (redis.String (inr vr)) as [|strVal]; [discriminate|].
  destruct (configEntry_result e a strKey strVal) as (s & _ & Hent).
  rewrite Hent, configDatabases_result, configBufferLimits_result_gen in Hres.
  destruct (String.eqb strKey "databases").
  - destruct (strconv.Atoi strVal).
    + destruct (String.eqb s _); try discriminate.
      destruct (_ =? _)%nat; discriminate.
    + now injection Hres as <-.
  - destruct (String.eqb s _); try discriminate.
    destruct (_ =? _)%nat; discriminate.
Qed.

(** The count that the config step leaves is the one that
    [extractConfigMetrics] returns at its normal end. *)
Lemma configuring_Next e t config d :
  ConfigCommandName (options e) <> "-" ->
  redis.Values (doRedisCmd t [ConfigCommandName (options e); "GET"; "*"]) = inr config ->
  result (configuring e t) = Next d ->
  result (extractConfigMetrics e config) = Next (d, None).
Proof.
  intros Hname Hval. apply String.eqb_neq in Hname.
  rewrite configuring_result, Hname, Hval.
  destruct (result (extractConfigMetrics e config)) as [[n [err|]]|[n [err|]]|msg] eqn:E;
    try discriminate.
  - now intros [= <-].
  - now destruct (extractConfigMetrics_Returned _ _ _ E).
Qed.

(** C5. The database count on which the status report is extracted.
    In cluster mode it is 1 when the CLUSTER INFO command succeeds.
    Outside cluster mode: when the config reply has the key databases,
    it is the integer value N of the last pair with that key if N is
    not 0, and 16 if N is 0; it is 16 when the reply has no key
    databases, when the config step is disabled and when the CONFIG
    GET command fails.  In every case it is the count that
    [extractConfigMetrics] returns, with 16 for 0. *)
Theorem C5_database_count e t infoAll dbCount :
  In (call_extractInfoMetrics infoAll dbCount) (calls (trace (scrapeRedisHost e t))) ->
  let configCmd := [ConfigCommandName (options e); "GET"; "*"] in
  (strings.Contains infoAll "cluster_enabled:1" = true ->
   forall clusterInfo,
     redis.String (doRedisCmd t ["CLUSTER"; "INFO"]) = inr clusterInfo ->
     dbCount = 1) /\
  (strings.Contains infoAll "cluster_enabled:1" = false ->
   (forall config pos kr vr strVal n,
      ConfigCommandName (options e) <> "-" ->
      redis.Values (doRedisCmd t configCmd) = inr config ->
      config !! (pos * 2)%nat = Some kr ->
      redis.String (inr kr) = inr "databases" ->
      config !! (pos * 2 + 1)%nat = Some vr ->
      redis.String (inr vr) = inr strVal ->
      strconv.Atoi strVal = Some n ->
      (forall pos' kr', (pos < pos')%nat ->
                        config !! (pos' * 2)%nat = Some kr' ->
                        redis.String (inr kr') <> inr "databases") ->
      dbCount = if n =? 0 then 16 else n) /\
   (forall config,
      ConfigCommandName (options e) <> "-" ->
      redis.Values (doRedisCmd t configCmd) = inr config ->
      (forall pos kr, config !! (pos * 2)%nat = Some kr ->
                      redis.String (inr kr) <> inr "databases") ->
      dbCount = 16) /\
   (forall config n,
      ConfigCommandName (options e) <> "-" ->
      redis.Values (doRedisCmd t configCmd) = inr config ->
      result (extractConfigMetrics e config) = Next (n, None) ->
      dbCount = if n =? 0 then 16 else n) /\
   (ConfigCommandName (options e) = "-" -> dbCount = 16) /\
   (forall err,
      ConfigCommandName (options e) <> "-" ->
      redis.Values (doRedisCmd t configCmd) = inl err ->
      dbCount = 16)).
Proof.
  intros Hreach configCmd. apply reached_iff in Hreach.
  apply uptoInfo_Next in Hreach as (_ & d & Hcfg & _ & Hres).
  rewrite resolveDbCount_result in Hres. injection Hres as <-.
  split.
  - intros -> clusterInfo ->. reflexivity.
  - intros ->. split; [|split; [|split; [|split]]].
    + intros config pos kr vr strVal n Hname Hval Hk Hks Hv Hvs Hn Hlast.
      pose proof (configuring_Next _ _ _ _ Hname Hval Hcfg) as Hext.
      now rewrite (extractConfigMetrics_last_databases
                     _ _ _ _ _ _ _ _ Hk Hks Hv Hvs Hn Hlast Hext).
    + intros config Hname Hval Hnone.
      pose proof (configuring_Next _ _ _ _ Hname Hval Hcfg) as Hext.
      now rewrite (extractConfigMetrics_no_databases _ _ _ Hnone Hext).
    + intros config n Hname Hval Hext.
      pose proof (configuring_Next _ _ _ _ Hname Hval Hcfg) as Hext'.
      rewrite Hext in Hext'. now injection Hext' as <-.
    + intros Hname. apply String.eqb_eq in Hname.
      rewrite configuring_result, Hname in Hcfg. now injection Hcfg as <-.
    + intros err Hname Hval. apply String.eqb_neq in Hname.
      rewrite configuring_result, Hname in Hcfg. fold configCmd in Hcfg.
      rewrite Hval in Hcfg. now injection Hcfg as <-.
Qed.

End DatabaseCount.

Section ConfigEvents.

Context {F : Float64} {lib : GoLib}.

Lemma described_config_key_value e v k s :
  described e (ConstGauge "config_key_value" v [k; s]).
Proof.
  right. exists (newMetricDescr (Namespace (options e)) "config_key_value"
                   "Config key and value" ["key"; "value"]).
  split; [vm_compute; reflexivity|reflexivity].
Qed.

Lemma described_config_value e v k :
  described e (ConstGauge "config_value" v [k]).
Proof.
  right. exists (newMetricDescr (Namespace (options e)) "config_value"
                   "Config key and value as metric" ["key"]).
  split; [vm_compute; reflexivity|reflexivity].
Qed.

Lemma described_limit_bytes e v c l :
  described e (ConstGauge "config_client_output_buffer_limit_bytes" v [c; l]).
Proof.
  right. exists (newMetricDescr (Namespace (options e))
                   "config_client_output_buffer_limit_bytes"
                   "The configured buffer limits per class" ["class"; "limit"]).
  split; [vm_compute; reflexivity|reflexivity].
Qed.

Lemma described_limit_seconds e v c l :
  described e (ConstGauge "config_client_output_buffer_limit_overcome_seconds" v [c; l]).
Proof.
  right. exists (newMetricDescr (Namespace (options e))
                   "config_client_output_buffer_limit_overcome_seconds"
                   "How long for buffer limits per class to be exceeded before replicas are dropped"
                   ["class"; "limit"]).
  split; [vm_compute; reflexivity|reflexivity].
Qed.

Lemma Forall_nil_trace {R A} (P : Event -> Prop) (m : Go R A) :
  trace m = [] -> Forall P (trace m).
Proof. intros ->. constructor. Qed.

Lemma bufferLimitClass_events {R} e splitVal i :
  Forall (configEvent e) (trace (bufferLimitClass (R := R) splitVal i)).
Proof.
  assert (Hbytes : forall v c l,
    Forall (configEvent e)
      (trace (registerConstMetricGauge (R := R)
                "config_client_output_buffer_limit_bytes" v [c; l]))).
  { intros v c l. constructor; [|constructor]. do 3 eexists.
    split; [reflexivity|]. split; [apply described_limit_bytes|].
    left. simpl. auto 6. }
  assert (Hsecs : forall v c l,
    Forall (configEvent e)
      (trace (registerConstMetricGauge (R := R)
                "config_client_output_buffer_limit_overcome_seconds" v [c; l]))).
  { intros v c l. constructor; [|constructor]. do 3 eexists.
    split; [reflexivity|]. split; [apply described_limit_seconds|].
    left. simpl. auto 6. }
  unfold bufferLimitClass, index.
  destruct (splitVal !! i) as [c|]; [|constructor]. rewrite bind_ret_l.
  destruct (splitVal !! (i + 1)%nat) as [a|]; [|constructor]. rewrite bind_ret_l.
  apply bind_trace_Forall; [destruct (ParseFloat a); [apply Hbytes|constructor]|].
  intros _.
  destruct (splitVal !! (i + 2)%nat) as [b|]; [|constructor]. rewrite bind_ret_l.
  apply bind_trace_Forall; [destruct (ParseFloat b); [apply Hbytes|constructor]|].
  intros _.
  destruct (splitVal !! (i + 3)%nat) as [d|]; [|constructor]. rewrite bind_ret_l.
  destruct (ParseFloat d); [apply Hsecs|constructor].
Qed.

Lemma configEntry_events e dbCount strKey strVal :
  Forall (configEvent e) (trace (configEntry e dbCount strKey strVal)).
Proof.
  unfold configEntry.
  apply bind_trace_Forall.
  { unfold configDatabases. destruct (String.eqb _ _); [|constructor].
    destruct (strconv.Atoi strVal); constructor. }
  intros d. apply bind_trace_Forall.
  { unfold configKeyValue.
    destruct (InclConfigMetrics (options e)) eqn:Hincl; [|constructor].
    cbv zeta. destruct (_ || _); [|constructor].
    apply bind_trace_Forall.
    - constructor; [|constructor]. do 3 eexists.
      split; [reflexivity|]. split; [apply described_config_key_value|].
      right. split; [exact Hincl|]. now left.
    - intros _. destruct (ParseFloat strVal); [|constructor].
      constructor; [|constructor]. do 3 eexists.
      split; [reflexivity|]. split; [apply described_config_value|].
      right. split; [exact Hincl|]. right. now left. }
  intros _. apply bind_trace_Forall.
  { unfold configGauge. destruct (lookupBool configGaugeKeys strKey) eqn:E; [|constructor].
    destruct (ParseFloat strVal); [|constructor].
    cbv zeta. apply bind_trace_Forall; [|intros; constructor].
    constructor; [|constructor]. do 3 eexists.
    split; [reflexivity|]. split; [now left|]. left.
    apply configGaugeKeys_cases in E as [->|[->| ->]]; vm_compute; auto. }
  intros s. apply bind_trace_Forall; [|intros; constructor].
  unfold configBufferLimits. destruct (String.eqb _ _); [|constructor].
  cbv zeta. unfold forM. apply foldM_trace_Forall. intros _ i.
  apply bufferLimitClass_events.
Qed.

Lemma extractConfigMetrics_events e config :
  Forall (configEvent e) (trace (extractConfigMetrics e config)).
Proof.
  unfold extractConfigMetrics.
  apply bind_trace_Forall; [destruct (negb _); constructor|]. intros _.
  apply bind_trace_Forall; [|intros; constructor].
  apply foldM_trace_Forall. intros d pos. unfold configPair, index.
  destruct (config !! (pos * 2)%nat) as [kr|]; [|constructor].
  rewrite bind_ret_l.
  destruct (redis.String (inr kr)); [constructor|].
  destruct (config !! (pos * 2 + 1)%nat) as [vr|]; [|constructor].
  rewrite bind_ret_l.
  destruct (redis.String (inr vr)); [constructor|].
  apply configEntry_events.
Qed.

Lemma In_sent (tr : list Event) (m : Metric) : In m (sent tr) <-> In (Send m) tr.
Proof.
  induction tr as [|ev tr IH]; [reflexivity|].
  destruct ev as [m'| | |]; simpl; rewrite ?IH; try tauto.
  - split; intros [H|H]; auto; left; congruence.
  - split; [auto|]. intros [H|H]; [discriminate|assumption].
  - split; [auto|]. intros [H|H]; [discriminate|assumption].
  - split; [auto|]. intros [H|H]; [discriminate|assumption].
Qed.

(** X4. [extractConfigMetrics] does nothing but send metrics, and each
    metric it sends with label values is declared in
    [metricDescriptions] with as many label names. *)
Theorem X4_config_metrics_are_described e config :
  trace (extractConfigMetrics e config)
    = Send <$> sent (trace (extractConfigMetrics e config)) /\
  forall m, In m (sent (trace (extractConfigMetrics e config))) -> described e m.
Proof.
  pose proof (extractConfigMetrics_events e config) as Hev.
  split.
  - induction Hev as [|ev tr (n & v & ls & -> & _) _ IH]; [reflexivity|].
    change (sent (Send (ConstGauge n v ls) :: tr))
      with (ConstGauge n v ls :: sent tr).
    rewrite fmap_cons. now f_equal.
  - intros m Hm. apply In_sent in Hm.
    rewrite Forall_forall in Hev. apply list_elem_of_In in Hm.
    destruct (Hev _ Hm) as (n & v & ls & [= ->] & Hd & _). exact Hd.
Qed.

(** X8. The names of the metrics that [extractConfigMetrics] sends:
    one of five config gauges, or, only when InclConfigMetrics is set,
    config_key_value or config_value. *)
Theorem X8_config_metric_names e config m :
  In m (sent (trace (extractConfigMetrics e config))) ->
  In (metricName m)
     ["config_io_threads"; "config_maxclients"; "config_maxmemory";
      "config_client_output_buffer_limit_bytes";
      "config_client_output_buffer_limit_overcome_seconds"] \/
  InclConfigMetrics (options e) = true /\
  In (metricName m) ["config_key_value"; "config_value"].
Proof.
  intros Hm. apply In_sent in Hm.
  pose proof (extractConfigMetrics_events e config) as Hev.
  rewrite Forall_forall in Hev. apply list_elem_of_In in Hm.
  destruct (Hev _ Hm) as (n & v & ls & [= ->] & _ & Hn). exact Hn.
Qed.

End ConfigEvents.

Section ConfigPairs.

Context {F : Float64} {lib : GoLib}.

Lemma sameEffects_refl {R A} (m : Go R A) : sameEffects m m.
Proof. split; [reflexivity|]. now destruct (result m). Qed.

Lemma sameEffects_bind {R A B} (m m' : Go R A) (f f' : A -> Go R B) :
  sameEffects m m' -> (forall a a', sameEffects (f a) (f' a')) ->
  sameEffects (bind m f) (bind m' f').
Proof.
  intros [Htr Hres] Hf. unfold sameEffects.
  rewrite !trace_bind, !result_bind, Htr.
  destruct (result m) as [a|r|msg], (result m') as [a'|r'|msg'];
    try contradiction; try (subst; now split).
  destruct (Hf a a') as [Htr' Hres']. now rewrite Htr'.
Qed.

Lemma sameEffects_bind_l {R A B} (m : Go R A) (f f' : A -> Go R B) :
  (forall a, sameEffects (f a) (f' a)) ->
  sameEffects (bind m f) (bind m f').
Proof.
  intros Hf. unfold sameEffects.
  rewrite !trace_bind, !result_bind.
  destruct (result m) as [a|r|msg]; try now split.
  destruct (Hf a) as [Htr' Hres']. now rewrite Htr'.
Qed.

Lemma sameEffects_foldM {R A B} (body : A -> B -> Go R A) (l : list B) (a a' : A) :
  (forall a a' x, sameEffects (body a x) (body a' x)) ->
  sameEffects (foldM body l a) (foldM body l a').
Proof.
  intros Hb. revert a a'. induction l as [|x l IH]; intros a a'.
  - now split.
  - simpl. apply sameEffects_bind; auto.
Qed.

Lemma sameEffects_ret {R A} (a a' : A) : sameEffects (R := R) (ret a) (ret a').
Proof. now split. Qed.

Lemma configEntry_sameEffects e d d' k v :
  sameEffects (configEntry e d k v) (configEntry e d' k v).
Proof.
  unfold configEntry. apply sameEffects_bind.
  - unfold configDatabases. destruct (String.eqb k "databases").
    + apply sameEffects_refl.
    + apply sameEffects_ret.
  - intros a a'. repeat (apply sameEffects_bind_l; intros ?).
    apply sameEffects_ret.
Qed.

(** The count that comes in changes nothing to what a pair sends and
    to how it ends. *)
Lemma configPair_sameEffects e config d d' pos :
  sameEffects (configPair e config d pos) (configPair e config d' pos).
Proof.
  unfold configPair.
  apply sameEffects_bind_l. intros k.
  destruct (redis.String (inr k)); [apply sameEffects_ret|].
  apply sameEffects_bind_l. intros v.
  destruct (redis.String (inr v)); [apply sameEffects_ret|].
  apply configEntry_sameEffects.
Qed.

(** The pair at position [S pos] of a reply is the pair at position
    [pos] of the reply without its first two elements. *)
Lemma configPair_shift e k v rest d pos :
  configPair e (k :: v :: rest) d (S pos) = configPair e rest d pos.
Proof.
  unfold configPair, index.
  replace (S pos * 2)%nat with (S (S (pos * 2))) by lia.
  replace (S (S (pos * 2)) + 1)%nat with (S (S (pos * 2 + 1))) by lia.
  reflexivity.
Qed.

Lemma configPair_first e k v rest d :
  configPair e (k :: v :: rest) d 0 = configPair e [k; v] d 0.
Proof. reflexivity. Qed.

Lemma half_cons2 {A} (k v : A) (rest : list A) :
  (length (k :: v :: rest) / 2 = S (length rest / 2))%nat.
Proof.
  simpl length. replace (S (S (length rest))) with (1 * 2 + length rest)%nat by lia.
  rewrite Nat.div_add_l by lia. reflexivity.
Qed.

Lemma even_cons2 {A} (k v : A) (rest : list A) :
  (length (k :: v :: rest) mod 2 = length rest mod 2)%nat.
Proof.
  simpl length. replace (S (S (length rest))) with (length rest + 1 * 2)%nat by lia.
  apply Nat.Div0.mod_add.
Qed.

(** The loop over a reply is the first pair, then the loop over the
    rest of the reply. *)
Lemma configLoop_cons e k v rest d :
  foldM (configPair e (k :: v :: rest)) (seq 0 (length (k :: v :: rest) / 2)) d =
  bind (configPair e [k; v] d 0)
       (fun d' => foldM (configPair e rest) (seq 0 (length rest / 2)) d').
Proof.
  rewrite half_cons2. cbn [seq foldM]. rewrite configPair_first.
  apply bind_ext. intros d'.
  rewrite <- fmap_S_seq, foldM_fmap.
  apply foldM_ext. intros a x. apply configPair_shift.
Qed.

Lemma extractConfigMetrics_cons e k v rest :
  extractConfigMetrics e (k :: v :: rest) =
  bind (if negb (length rest mod 2 =? 0)%nat then
          return_ (0, Some ("invalid config: " +:+ GoSyntaxValues (k :: v :: rest)))
        else ret tt)
       (fun _ =>
          bind (configPair e [k; v] 0 0)
               (fun d =>
                  bind (foldM (configPair e rest) (seq 0 (length rest / 2)) d)
                       (fun dbCount => ret (dbCount, None)))).
Proof.
  unfold extractConfigMetrics. rewrite even_cons2, configLoop_cons.
  apply bind_ext. intros _. now rewrite bind_assoc.
Qed.

(** X9: a pair whose key or value is not a string is skipped. *)
Theorem X9_pair_that_is_no_string_is_skipped e k v rest :
  (length rest mod 2 = 0)%nat ->
  (exists err, redis.String (inr k) = inl err) \/
  (exists err, redis.String (inr v) = inl err) ->
  extractConfigMetrics e (k :: v :: rest) = extractConfigMetrics e rest.
Proof.
  intros Heven Hns. rewrite extractConfigMetrics_cons.
  unfold extractConfigMetrics. rewrite Heven. cbn [Nat.eqb negb].
  apply bind_ext. intros _.
  assert (Hp : configPair e [k; v] 0 0 = ret 0).
  { unfold configPair, index. cbn [lookup list_lookup Nat.mul Nat.add].
    rewrite bind_ret_l.
    destruct Hns as [[err Hk]|[err Hv]].
    - now rewrite Hk.
    - destruct (redis.String (inr k)); [reflexivity|].
      rewrite bind_ret_l. now rewrite Hv. }
  rewrite Hp. now rewrite bind_ret_l.
Qed.

Lemma extractConfigMetrics_two e k v :
  extractConfigMetrics e [k; v] =
  bind (configPair e [k; v] 0 0) (fun d => ret (d, None)).
Proof.
  unfold extractConfigMetrics.
  change (length [k; v] mod 2 =? 0)%nat with true.
  change (length [k; v] / 2)%nat with 1%nat.
  cbn [negb seq foldM]. rewrite bind_ret_l, bind_assoc.
  apply bind_ext. intros d. now rewrite bind_ret_l.
Qed.

(** X10: what is sent for a reply is what is sent for its first pair,
    followed, unless the first pair ends the call, by what is sent for
    the rest of the reply. *)
Theorem X10_metrics_pair_by_pair e k v rest :
  (length rest mod 2 = 0)%nat ->
  trace (extractConfigMetrics e (k :: v :: rest)) =
  (trace (extractConfigMetrics e [k; v]) ++
   match result (extractConfigMetrics e [k; v]) with
   | Next _ => trace (extractConfigMetrics e rest)
   | _ => []
   end)%list.
Proof.
  intros Heven. rewrite extractConfigMetrics_cons, extractConfigMetrics_two.
  unfold extractConfigMetrics. rewrite Heven.
  change (negb (0 =? 0)%nat) with false. cbv iota.
  rewrite !bind_ret_l.
  rewrite (trace_bind (configPair e [k; v] 0 0)),
          (trace_bind (configPair e [k; v] 0 0)),
          (result_bind (configPair e [k; v] 0 0)).
  destruct (result (configPair e [k; v] 0 0)) as [d|r|msg] eqn:Hres.
  - change (trace (ret (R := Z * option error) (d, @None error))) with (@nil Event).
    change (result (ret (R := Z * option error) (d, @None error)))
      with (Next (R := Z * option error) (d, @None error)).
    cbv iota. rewrite app_nil_r. f_equal.
    rewrite !trace_bind.
    destruct (sameEffects_foldM (configPair e rest) (seq 0 (length rest / 2)) d 0
                (fun a a' x => configPair_sameEffects e rest a a' x)) as [Htr Hk].
    rewrite Htr. f_equal.
    destruct (result (foldM (configPair e rest) (seq 0 (length rest / 2)) d)),
             (result (foldM (configPair e rest) (seq 0 (length rest / 2)) 0));
      try contradiction; reflexivity.
  - now rewrite !app_nil_r.
  - now rewrite !app_nil_r.
Qed.

End ConfigPairs.

(** ** More on [scrapeRedisHost] *)

Section ScrapeMore.

Context {F : Float64} {lib : GoLib}.

Lemma handshake_calls_eq e t :
  calls (trace (handshake e t))
  = ((if PingOnConnect (options e) then [call_doRedisCmd ["PING"]] else [])
     ++ (if SetClientName (options e)
         then [call_doRedisCmd ["CLIENT"; "SETNAME"; "redis_exporter"]] else []))%list.
Proof.
  unfold handshake, cmd.
  destruct (PingOnConnect (options e)), (SetClientName (options e));
    try destruct (doRedisCmd t ["PING"]); reflexivity.
Qed.

Lemma configuring_calls_eq e t :
  calls (trace (configuring e t))
  = if String.eqb (ConfigCommandName (options e)) "-" then []
    else [call_doRedisCmd [ConfigCommandName (options e); "GET"; "*"]].
Proof.
  unfold configuring. destruct (String.eqb _ "-"); [reflexivity|].
  rewrite trace_bind, calls_app, cmd_calls, cmd_result.
  destruct (redis.Values _) as [err|config]; [reflexivity|].
  rewrite trace_bind, calls_app, call_trace, extractConfigMetrics_calls.
  cbn [app]. f_equal.
  destruct (result (call _)) as [r| |]; try reflexivity.
  now destruct (snd r).
Qed.

(** The text that [fetchInfo] reads from a reply, when it reads one. *)
Lemma fetchInfo_result t :
  result (fetchInfo t)
  = match redis.String (doRedisCmd t ["INFO"; "ALL"]) with
    | inr (String c s) => Next (String c s)
    | _ =>
        match redis.String (doRedisCmd t ["INFO"]) with
        | inl err => Returned (Some err)
        | inr s => Next s
        end
    end.
Proof.
  unfold fetchInfo. cbv zeta. rewrite result_bind, cmd_result.
  destruct (redis.String (doRedisCmd t ["INFO"; "ALL"])) as [err|[|c s]].
  - rewrite result_bind, cmd_result. now destruct (redis.String _).
  - cbn [String.eqb]. rewrite result_bind, cmd_result. now destruct (redis.String _).
  - reflexivity.
Qed.

Lemma fetchInfo_calls_exact t :
  calls (trace (fetchInfo t))
  = call_doRedisCmd ["INFO"; "ALL"]
    :: match redis.String (doRedisCmd t ["INFO"; "ALL"]) with
       | inr (String _ _) => []
       | _ => [call_doRedisCmd ["INFO"]]
       end.
Proof.
  unfold fetchInfo. cbv zeta. rewrite trace_bind, calls_app, cmd_calls, cmd_result.
  cbn [app]. f_equal.
  destruct (redis.String (doRedisCmd t ["INFO"; "ALL"])) as [err|[|c s]].
  - rewrite trace_bind, calls_app, cmd_calls, cmd_result.
    now destruct (redis.String _).
  - cbn [String.eqb]. rewrite trace_bind, calls_app, cmd_calls, cmd_result.
    now destruct (redis.String _).
  - reflexivity.
Qed.

Lemma resolveDbCount_calls_eq t infoAll dbCount :
  calls (trace (resolveDbCount t infoAll dbCount))
  = if strings.Contains infoAll "cluster_enabled:1" then
      call_doRedisCmd ["CLUSTER"; "INFO"]
      :: match redis.String (doRedisCmd t ["CLUSTER"; "INFO"]) with
         | inr clusterInfo => [call_extractClusterInfoMetrics clusterInfo]
         | inl _ => []
         end
    else [].
Proof.
  unfold resolveDbCount.
  destruct (strings.Contains _ _).
  - rewrite trace_bind, calls_app, cmd_calls, cmd_result. cbn [app]. f_equal.
    destruct (redis.String _) as [err|ci]; [reflexivity|].
    now rewrite bind_extraction_calls.
  - now destruct (dbCount =? 0).
Qed.

(** The calls of a scrape, step by step. *)
Lemma scrapeRedisHost_calls e t :
  calls (trace (scrapeRedisHost e t))
  = (call_connectToRedis
     :: match connectToRedis t with
        | Some _ => []
        | None =>
            calls (trace (handshake e t))
            ++ calls (trace (configuring e t))
            ++ match result (configuring e t) with
               | Next d =>
                   calls (trace (fetchInfo t))
                   ++ match result (fetchInfo t) with
                      | Next infoAll =>
                          calls (trace (resolveDbCount t infoAll d))
                          ++ match result (resolveDbCount t infoAll d) with
                             | Next dbCount =>
                                 calls (trace (extractionSteps e t infoAll dbCount))
                             | _ => []
                             end
                      | _ => []
                      end
               | _ => []
               end
        end)%list.
Proof.
  unfold scrapeRedisHost.
  rewrite trace_bind, calls_app, connecting_trace, connecting_result.
  change (calls [Invoke call_connectToRedis; Send _]) with [call_connectToRedis].
  cbn [app]. f_equal.
  destruct (connectToRedis t); [reflexivity|].
  rewrite trace_bind, calls_app, handshake_result. f_equal.
  rewrite trace_bind, calls_app. f_equal.
  destruct (result (configuring e t)) as [d| |]; try reflexivity.
  rewrite trace_bind, calls_app. f_equal.
  destruct (result (fetchInfo t)) as [infoAll| |]; try reflexivity.
  rewrite trace_bind, calls_app. f_equal.
  now destruct (result (resolveDbCount t infoAll d)).
Qed.

(** How a scrape ends, step by step. *)
Lemma scrapeRedisHost_result e t :
  result (scrapeRedisHost e t)
  = match connectToRedis t with
    | Some err => Returned (Some err)
    | None =>
        match result (configuring e t) with
        | Next d =>
            match result (fetchInfo t) with
            | Next infoAll =>
                match result (resolveDbCount t infoAll d) with
                | Next dbCount => result (extractionSteps e t infoAll dbCount)
                | Returned r => Returned r
                | Panicked msg => Panicked msg
                end
            | Returned r => Returned r
            | Panicked msg => Panicked msg
            end
        | Returned r => Returned r
        | Panicked msg => Panicked msg
        end
    end.
Proof.
  unfold scrapeRedisHost.
  rewrite result_bind, connecting_result.
  destruct (connectToRedis t); [reflexivity|].
  rewrite result_bind, handshake_result, result_bind.
  destruct (result (configuring e t)) as [d| |]; try reflexivity.
  rewrite result_bind.
  destruct (result (fetchInfo t)) as [infoAll| |]; try reflexivity.
  now rewrite result_bind.
Qed.

(** No command and no connection after the status report is fetched and
    the cluster is asked. *)
Lemma extractionSteps_no_command e t infoAll dbCount c :
  In c (calls (trace (extractionSteps e t infoAll dbCount))) -> ~ beforeInfo c.
Proof.
  rewrite extractionSteps_calls, perKeyChecks_calls, laterSteps_calls.
  intros Hin Hb. revert Hin.
  destruct (negb (ExcludeLatencyHistogramMetrics (options e))),
           (String.eqb (snd (extractInfoMetrics t infoAll dbCount)) InstanceRoleSlave
            || negb (SkipCheckKeysForRoleMaster (options e))),
           (strings.Contains infoAll "# Sentinel"),
           (ExportClientList (options e)), (IsTile38 (options e)),
           (InclModulesMetrics (options e));
    cbn [app]; intros Hin;
    repeat (destruct Hin as [<-|Hin]; [exact Hb|]);
    apply luaScripts_calls in Hin as (f & s & ->); exact Hb.
Qed.

(** The calls of a scrape that gets as far as the status report. *)
Lemma reached_calls e t infoAll dbCount :
  In (call_extractInfoMetrics infoAll dbCount) (calls (trace (scrapeRedisHost e t))) ->
  exists d,
    connectToRedis t = None /\
    result (configuring e t) = Next d /\
    result (fetchInfo t) = Next infoAll /\
    result (resolveDbCount t infoAll d) = Next dbCount /\
    calls (trace (scrapeRedisHost e t))
    = (call_connectToRedis
       :: calls (trace (handshake e t))
       ++ calls (trace (configuring e t))
       ++ calls (trace (fetchInfo t))
       ++ calls (trace (resolveDbCount t infoAll d))
       ++ calls (trace (extractionSteps e t infoAll dbCount)))%list.
Proof.
  intros Hreach. apply reached_iff in Hreach.
  apply uptoInfo_Next in Hreach as (Hc & d & Hcfg & Hinfo & Hres).
  exists d. repeat (split; [assumption|]).
  now rewrite scrapeRedisHost_calls, Hc, Hcfg, Hinfo, Hres.
Qed.

(** A command on the connection is one of the handshake, the config
    command, or one of INFO ALL, INFO and CLUSTER INFO. *)
Lemma scrape_commands e t args :
  In (call_doRedisCmd args) (calls (trace (scrapeRedisHost e t))) ->
  connectToRedis t = None /\
  (In (call_doRedisCmd args) (calls (trace (handshake e t))) \/
   In (call_doRedisCmd args) (calls (trace (configuring e t))) \/
   args = ["INFO"; "ALL"] \/
   args = ["INFO"] /\
     (forall s, redis.String (doRedisCmd t ["INFO"; "ALL"]) = inr s -> s = "") \/
   args = ["CLUSTER"; "INFO"]).
Proof.
  rewrite scrapeRedisHost_calls. intros [Hin|Hin]; [discriminate|].
  destruct (connectToRedis t); [destruct Hin|]. split; [reflexivity|].
  apply in_app_or in Hin as [Hin|Hin]; [auto|].
  apply in_app_or in Hin as [Hin|Hin]; [auto|].
  destruct (result (configuring e t)) as [d| |]; try destruct Hin.
  apply in_app_or in Hin as [Hin|Hin].
  { rewrite fetchInfo_calls_exact in Hin. destruct Hin as [[= <-]|Hin]; [auto|].
    right; right; right; left.
    destruct (redis.String (doRedisCmd t ["INFO"; "ALL"])) as [err|[|c s]].
    - destruct Hin as [[= <-]|[]]. split; [reflexivity|]. intros s; discriminate.
    - destruct Hin as [[= <-]|[]]. split; [reflexivity|]. now intros s [= <-].
    - destruct Hin. }
  destruct (result (fetchInfo t)) as [infoAll| |]; try destruct Hin.
  apply in_app_or in Hin as [Hin|Hin].
  { rewrite resolveDbCount_calls_eq in Hin.
    destruct (strings.Contains _ _); [|destruct Hin].
    destruct Hin as [[= <-]|Hin]; [auto 6|].
    destruct (redis.String _); [destruct Hin|]. destruct Hin as [|[]]. discriminate. }
  destruct (result (resolveDbCount t infoAll d)) as [dbCount| |]; try destruct Hin.
  destruct (extractionSteps_no_command _ _ _ _ _ Hin I).
Qed.

(** X11. Once connected, a scrape sends PING exactly when PingOnConnect
    is set, CLIENT SETNAME redis_exporter exactly when SetClientName is
    set, and the config command exactly when its name is not "-". *)
Theorem X11_commands_by_option e t :
  connectToRedis t = None ->
  (In (call_doRedisCmd ["PING"]) (calls (trace (scrapeRedisHost e t)))
   <-> PingOnConnect (options e) = true) /\
  (In (call_doRedisCmd ["CLIENT"; "SETNAME"; "redis_exporter"])
      (calls (trace (scrapeRedisHost e t)))
   <-> SetClientName (options e) = true) /\
  (In (call_doRedisCmd [ConfigCommandName (options e); "GET"; "*"])
      (calls (trace (scrapeRedisHost e t)))
   <-> ConfigCommandName (options e) <> "-").
Proof.
  intros Hc.
  assert (Hpre : forall c,
            In c (calls (trace (handshake e t)) ++ calls (trace (configuring e t)))%list ->
            In c (calls (trace (scrapeRedisHost e t)))).
  { intros c Hin. rewrite scrapeRedisHost_calls, Hc. right.
    rewrite app_assoc. apply in_or_app. now left. }
  split; [|split]; split.
  - intros Hin. apply scrape_commands in Hin as (_ & [Hin|[Hin|[Hin|[[Hin _]|Hin]]]]);
      try discriminate.
    + rewrite handshake_calls_eq in Hin.
      destruct (PingOnConnect (options e)); [reflexivity|].
      destruct (SetClientName (options e)); cbn in Hin; intuition discriminate.
    + rewrite configuring_calls_eq in Hin.
      destruct (String.eqb _ "-"); cbn in Hin; intuition discriminate.
  - intros Hp. apply Hpre. apply in_or_app. left.
    rewrite handshake_calls_eq, Hp. now left.
  - intros Hin. apply scrape_commands in Hin as (_ & [Hin|[Hin|[Hin|[[Hin _]|Hin]]]]);
      try discriminate.
    + rewrite handshake_calls_eq in Hin.
      destruct (SetClientName (options e)); [reflexivity|].
      destruct (PingOnConnect (options e)); cbn in Hin; intuition discriminate.
    + rewrite configuring_calls_eq in Hin.
      destruct (String.eqb _ "-"); cbn in Hin; intuition discriminate.
  - intros Hs. apply Hpre. apply in_or_app. left.
    rewrite handshake_calls_eq, Hs. apply in_or_app. right. now left.
  - intros Hin. apply scrape_commands in Hin as (_ & [Hin|[Hin|[Hin|[[Hin _]|Hin]]]]);
      try discriminate.
    + rewrite handshake_calls_eq in Hin.
      destruct (PingOnConnect (options e)), (SetClientName (options e));
        cbn in Hin; intuition discriminate.
    + rewrite configuring_calls_eq in Hin.
      destruct (String.eqb_spec (ConfigCommandName (options e)) "-"); [destruct Hin|assumption].
  - intros Hn. apply Hpre. apply in_or_app. right.
    rewrite configuring_calls_eq. apply String.eqb_neq in Hn. rewrite Hn. now left.
Qed.

(** X12. The status report.  Once the config step is over, a scrape
    sends INFO ALL; it sends INFO exactly when INFO ALL fails or gives
    the empty text; the report that is extracted is the text of INFO ALL
    when that one is not empty, and else the text of INFO, even an empty
    one; and when both fail the scrape returns the error of INFO without
    extracting anything. *)
Theorem X12_status_report_fallback e t d :
  connectToRedis t = None ->
  result (configuring e t) = Next d ->
  let cs := calls (trace (scrapeRedisHost e t)) in
  let first := redis.String (doRedisCmd t ["INFO"; "ALL"]) in
  let second := redis.String (doRedisCmd t ["INFO"]) in
  In (call_doRedisCmd ["INFO"; "ALL"]) cs /\
  (In (call_doRedisCmd ["INFO"]) cs <-> forall s, first = inr s -> s = "") /\
  (forall infoAll dbCount,
     In (call_extractInfoMetrics infoAll dbCount) cs ->
     first = inr infoAll /\ infoAll <> "" \/
     (forall s, first = inr s -> s = "") /\ second = inr infoAll) /\
  (forall err,
     (forall s, first = inr s -> s = "") ->
     second = inl err ->
     result (scrapeRedisHost e t) = Returned (Some err) /\
     forall infoAll dbCount, ~ In (call_extractInfoMetrics infoAll dbCount) cs).
Proof.
  intros Hc Hcfg cs first second.
  assert (Hcs : cs = (call_connectToRedis
                      :: calls (trace (handshake e t))
                      ++ calls (trace (configuring e t))
                      ++ calls (trace (fetchInfo t))
                      ++ match result (fetchInfo t) with
                         | Next infoAll =>
                             calls (trace (resolveDbCount t infoAll d))
                             ++ match result (resolveDbCount t infoAll d) with
                                | Next dbCount =>
                                    calls (trace (extractionSteps e t infoAll dbCount))
                                | _ => []
                                end
                         | _ => []
                         end)%list).
  { unfold cs. now rewrite scrapeRedisHost_calls, Hc, Hcfg. }
  split; [|split; [|split]].
  - rewrite Hcs. right. do 2 (apply in_or_app; right). apply in_or_app. left.
    rewrite fetchInfo_calls_exact. now left.
  - split.
    + intros Hin. apply scrape_commands in Hin as (_ & [Hin|[Hin|[Hin|[[_ Hin]|Hin]]]]);
        try discriminate; [| |exact Hin].
      * rewrite handshake_calls_eq in Hin.
        destruct (PingOnConnect (options e)), (SetClientName (options e));
          cbn in Hin; intuition discriminate.
      * rewrite configuring_calls_eq in Hin.
        destruct (String.eqb _ "-"); cbn in Hin; intuition discriminate.
    + intros Hempty. rewrite Hcs. right. do 2 (apply in_or_app; right).
      apply in_or_app. left. rewrite fetchInfo_calls_exact. right.
      fold first. destruct first as [err|[|c s]]; [now left|now left|].
      now specialize (Hempty _ eq_refl).
  - intros infoAll dbCount Hin.
    apply reached_iff, uptoInfo_Next in Hin as (_ & d' & _ & Hinfo & _).
    rewrite fetchInfo_result in Hinfo. fold first second in Hinfo.
    destruct first as [err|[|c s]].
    + right. split; [intros s; discriminate|].
      destruct second; [discriminate|]. now injection Hinfo as ->.
    + right. split; [now intros s [= <-]|].
      destruct second; [discriminate|]. now injection Hinfo as ->.
    + left. injection Hinfo as <-. split; [reflexivity|discriminate].
  - intros err Hempty Hsecond.
    assert (Hinfo : result (fetchInfo t) = Returned (Some err)).
    { rewrite fetchInfo_result. fold first second. rewrite Hsecond.
      destruct first as [|[|c s]]; try reflexivity.
      now specialize (Hempty _ eq_refl). }
    split.
    + now rewrite scrapeRedisHost_result, Hc, Hcfg, Hinfo.
    + intros infoAll dbCount Hin.
      apply reached_iff, uptoInfo_Next in Hin as (_ & d' & _ & Hinfo' & _).
      rewrite Hinfo in Hinfo'. discriminate.
Qed.

(** X13. Cluster mode, in a scrape that gets as far as the status
    report.  CLUSTER INFO is sent exactly when the report contains
    cluster_enabled:1; the cluster metrics are extracted exactly when it
    is sent and gives a text, from that text; and when it fails the
    scrape goes on with the count of the config step as it is, without
    the default of 16. *)
Theorem X13_cluster_info e t infoAll dbCount :
  In (call_extractInfoMetrics infoAll dbCount) (calls (trace (scrapeRedisHost e t))) ->
  let cs := calls (trace (scrapeRedisHost e t)) in
  let cluster := strings.Contains infoAll "cluster_enabled:1" in
  let reply := redis.String (doRedisCmd t ["CLUSTER"; "INFO"]) in
  (In (call_doRedisCmd ["CLUSTER"; "INFO"]) cs <-> cluster = true) /\
  (forall clusterInfo,
     In (call_extractClusterInfoMetrics clusterInfo) cs
     <-> cluster = true /\ reply = inr clusterInfo) /\
  (forall err,
     cluster = true -> reply = inl err ->
     result (configuring e t) = Next dbCount).
Proof.
  intros Hreach cs cluster reply.
  destruct (reached_calls _ _ _ _ Hreach) as (d & Hc & Hcfg & Hinfo & Hres & Hcs).
  fold cs in Hcs.
  assert (Hin : forall c,
            beforeInfo c ->
            c <> call_connectToRedis ->
            c <> call_doRedisCmd ["PING"] ->
            c <> call_doRedisCmd ["CLIENT"; "SETNAME"; "redis_exporter"] ->
            c <> call_doRedisCmd [ConfigCommandName (options e); "GET"; "*"] ->
            c <> call_doRedisCmd ["INFO"; "ALL"] ->
            c <> call_doRedisCmd ["INFO"] ->
            (In c cs <-> In c (calls (trace (resolveDbCount t infoAll d))))).
  { intros c Hb H1 H2 H3 H4 H5 H6. rewrite Hcs. split.
    - intros [Hin|Hin]; [congruence|].
      apply in_app_or in Hin as [Hin|Hin].
      { apply handshake_calls in Hin as [Hin|Hin]; congruence. }
      apply in_app_or in Hin as [Hin|Hin].
      { apply configuring_calls in Hin. congruence. }
      apply in_app_or in Hin as [Hin|Hin].
      { apply fetchInfo_calls in Hin as [Hin|Hin]; congruence. }
      apply in_app_or in Hin as [Hin|Hin]; [assumption|].
      destruct (extractionSteps_no_command _ _ _ _ _ Hin Hb).
    - intros Hin. right. do 3 (apply in_or_app; right). apply in_or_app. now left. }
  rewrite resolveDbCount_calls_eq in Hin. fold cluster reply in Hin.
  split; [|split].
  - rewrite Hin by (exact I || discriminate).
    destruct cluster; [|now split].
    split; [reflexivity|]. intros _. now left.
  - intros clusterInfo. rewrite Hin by (exact I || discriminate).
    destruct cluster.
    + destruct reply as [err|ci].
      * split; [intros [Hx|[]]; discriminate|intros [_ Hx]; discriminate].
      * split.
        -- intros [Hx|[[= <-]|[]]]; [discriminate|]. now split.
        -- intros [_ [= <-]]. right. now left.
    + split; [intros []|intros [Hx _]; discriminate].
  - intros err Hcl Hrep. rewrite resolveDbCount_result in Hres.
    fold cluster reply in Hres. rewrite Hcl, Hrep in Hres.
    now injection Hres as <-.
Qed.

(** X14. The optional steps, in a scrape that gets as far as the status
    report extracted from [infoAll] with the count [dbCount].  The
    latency step runs exactly when ExcludeLatencyHistogramMetrics is
    not set, on the same report; the key groups are extracted with the
    same count and no other; the sentinel step runs exactly when the
    report contains # Sentinel; and the client list, Tile38 and
    modules steps run exactly when their options are set. *)
Theorem X14_optional_steps e t infoAll dbCount :
  In (call_extractInfoMetrics infoAll dbCount) (calls (trace (scrapeRedisHost e t))) ->
  let cs := calls (trace (scrapeRedisHost e t)) in
  (forall info, In (call_extractLatencyMetrics info) cs
                <-> info = infoAll /\ ExcludeLatencyHistogramMetrics (options e) = false) /\
  (forall n, In (call_extractKeyGroupMetrics n) cs <-> n = dbCount) /\
  (In call_extractSentinelMetrics cs <-> strings.Contains infoAll "# Sentinel" = true) /\
  (In call_extractConnectedClientMetrics cs <-> ExportClientList (options e) = true) /\
  (In call_extractTile38Metrics cs <-> IsTile38 (options e) = true) /\
  (In call_extractModulesMetrics cs <-> InclModulesMetrics (options e) = true).
Proof.
  intros Hreach cs. apply reached_iff in Hreach.
  destruct (scrapeRedisHost_reached _ _ _ _ Hreach) as [_ Hcs]. fold cs in Hcs.
  assert (Hin : forall c,
            ~ beforeInfo c ->
            (forall f s, c <> call_extractLuaScriptMetrics f s) ->
            (In c cs <->
             In c (call_extractInfoMetrics infoAll dbCount
                   :: (if negb (ExcludeLatencyHistogramMetrics (options e))
                       then [call_extractLatencyMetrics infoAll] else [])
                   ++ calls (trace (perKeyChecks e t (snd (extractInfoMetrics t infoAll dbCount))))
                   ++ calls (trace (laterSteps e t infoAll dbCount)))%list)).
  { intros c Hb Hlua. rewrite Hcs, extractionSteps_calls. split.
    - intros Hin. apply in_app_or in Hin as [Hin|Hin].
      { now apply uptoInfo_calls in Hin. }
      destruct Hin as [Hin|Hin]; [now left|]. right.
      apply in_app_or in Hin as [Hin|Hin]; [apply in_or_app; now left|].
      apply in_or_app. right.
      apply in_app_or in Hin as [Hin|Hin]; [apply in_or_app; now left|].
      apply in_or_app. right.
      apply in_app_or in Hin as [Hin|Hin]; [assumption|].
      apply luaScripts_calls in Hin as (f & s & ->). now destruct (Hlua f s).
    - intros Hin. apply in_or_app. right.
      destruct Hin as [Hin|Hin]; [now left|]. right.
      apply in_app_or in Hin as [Hin|Hin]; [apply in_or_app; now left|].
      apply in_or_app. right.
      apply in_app_or in Hin as [Hin|Hin]; [apply in_or_app; now left|].
      apply in_or_app. right. apply in_or_app. now left. }
  rewrite perKeyChecks_calls, laterSteps_calls in Hin.
  split; [intros info|split; [intros n|split; [|split; [|split]]]].
  all: rewrite Hin by (first [intros ? ?; discriminate|intros []]).
  all: destruct (ExcludeLatencyHistogramMetrics (options e)),
         (String.eqb (snd (extractInfoMetrics t infoAll dbCount)) InstanceRoleSlave
          || negb (SkipCheckKeysForRoleMaster (options e))),
         (strings.Contains infoAll "# Sentinel"),
         (ExportClientList (options e)), (IsTile38 (options e)),
         (InclModulesMetrics (options e));
       cbn; intuition congruence.
Qed.

Lemma luaScript_result t fs :
  result (luaScript t fs)
  = match snd (extractLuaScriptMetrics t (fst fs) (snd fs)) with
    | Some err => Returned (Some err)
    | None => Next tt
    end.
Proof.
  unfold luaScript. cbv zeta. rewrite bind_extraction_result.
  now destruct (snd _).
Qed.

Lemma luaScripts_result t l :
  match result (forM l (luaScript t)) with
  | Next _ => True
  | Returned r =>
      exists fs err, In fs l /\
        snd (extractLuaScriptMetrics t (fst fs) (snd fs)) = Some err /\ r = Some err
  | Panicked _ => False
  end.
Proof.
  unfold forM.
  destruct (result (foldM _ l tt)) as [a|r|msg] eqn:E; [exact I| |].
  - apply foldM_Returned in E as (_ & fs & Hfs & Hres).
    rewrite luaScript_result in Hres.
    destruct (snd _) as [err|] eqn:Herr; [|discriminate].
    injection Hres as <-. eauto.
  - apply foldM_Panicked in E as (_ & fs & Hfs & Hres).
    rewrite luaScript_result in Hres. destruct (snd _); discriminate.
Qed.

Lemma extractConfigMetrics_Next e config r :
  result (extractConfigMetrics e config) = Next r -> snd r = None.
Proof.
  unfold extractConfigMetrics. rewrite result_bind.
  destruct (negb _); [discriminate|]. cbn [result ret snd].
  rewrite result_bind.
  destruct (result (foldM _ _ _)); try discriminate.
  now intros [= <-].
Qed.

(** What follows the config step in a scrape, from the count [d] that
    the config step leaves. *)
Lemma scrapeRedisHost_after_config e t d :
  connectToRedis t = None ->
  result (configuring e t) = Next d ->
  result (scrapeRedisHost e t)
  = match result (fetchInfo t) with
    | Next infoAll =>
        match result (resolveDbCount t infoAll d) with
        | Next dbCount =>
            match result (forM (LuaScript (options e)) (luaScript t)) with
            | Next _ => Next None
            | Returned r => Returned r
            | Panicked msg => Panicked msg
            end
        | Returned r => Returned r
        | Panicked msg => Panicked msg
        end
    | Returned r => Returned r
    | Panicked msg => Panicked msg
    end.
Proof.
  intros Hc Hcfg. rewrite scrapeRedisHost_result, Hc, Hcfg.
  destruct (result (fetchInfo t)) as [infoAll| |]; try reflexivity.
  destruct (result (resolveDbCount t infoAll d)); try reflexivity.
  apply extractionSteps_result.
Qed.

Lemma cmd_trace {R} t args :
  trace (cmd (R := R) t args) = [Invoke (call_doRedisCmd args)].
Proof. reflexivity. Qed.

(** X15. A panic of [extractConfigMetrics] on the reply to the config
    command goes through [scrapeRedisHost], which recovers from
    nothing: the scrape panics with the same message, and what it has
    done is to connect, the handshake, the config command and what
    [extractConfigMetrics] did before the panic; INFO ALL is not
    sent. *)
Theorem X15_config_panic_ends_the_scrape e t config msg :
  connectToRedis t = None ->
  ConfigCommandName (options e) <> "-" ->
  redis.Values (doRedisCmd t [ConfigCommandName (options e); "GET"; "*"]) = inr config ->
  result (extractConfigMetrics e config) = Panicked msg ->
  result (scrapeRedisHost e t) = Panicked msg /\
  trace (scrapeRedisHost e t)
  = (trace (connecting t) ++ trace (handshake e t)
     ++ Invoke (call_doRedisCmd [ConfigCommandName (options e); "GET"; "*"])
        :: trace (extractConfigMetrics e config))%list /\
  calls (trace (scrapeRedisHost e t))
  = (call_connectToRedis :: calls (trace (handshake e t))
     ++ [call_doRedisCmd [ConfigCommandName (options e); "GET"; "*"]])%list.
Proof.
  intros Hc Hn Hv Hp.
  assert (Hcfg : result (configuring e t) = Panicked msg).
  { apply String.eqb_neq in Hn. now rewrite configuring_result, Hn, Hv, Hp. }
  assert (Htr : trace (configuring e t)
                = Invoke (call_doRedisCmd [ConfigCommandName (options e); "GET"; "*"])
                  :: trace (extractConfigMetrics e config)).
  { unfold configuring. apply String.eqb_neq in Hn. rewrite Hn.
    rewrite trace_bind, cmd_trace, cmd_result, Hv.
    rewrite trace_bind, call_trace, call_result, Hp.
    cbn [app]. now rewrite app_nil_r. }
  split; [|split].
  - now rewrite scrapeRedisHost_result, Hc, Hcfg.
  - unfold scrapeRedisHost.
    rewrite trace_bind, connecting_result, Hc.
    rewrite trace_bind, handshake_result.
    rewrite trace_bind, Hcfg, Htr. now rewrite app_nil_r.
  - rewrite scrapeRedisHost_calls, Hc, Hcfg, configuring_calls_eq.
    apply String.eqb_neq in Hn. rewrite Hn. now rewrite app_nil_r.
Qed.

(** X16. How [scrapeRedisHost] ends.  When it runs to its end it
    returns nil.  An error that it returns is the error of connecting,
    the error of [extractConfigMetrics] on the reply to the config
    command, the error of INFO when INFO ALL gave no text, or the error
    of a Lua script. *)
Theorem X16_scrape_errors e t :
  match result (scrapeRedisHost e t) with
  | Next r => r = None
  | Returned r =>
      exists err, r = Some err /\
        (connectToRedis t = Some err \/
         (ConfigCommandName (options e) <> "-" /\
          exists config n,
            redis.Values (doRedisCmd t [ConfigCommandName (options e); "GET"; "*"])
            = inr config /\
            result (extractConfigMetrics e config) = Returned (n, Some err)) \/
         ((forall s, redis.String (doRedisCmd t ["INFO"; "ALL"]) = inr s -> s = "") /\
          redis.String (doRedisCmd t ["INFO"]) = inl err) \/
         (exists fs, In fs (LuaScript (options e)) /\
                     snd (extractLuaScriptMetrics t (fst fs) (snd fs)) = Some err))
  | Panicked _ => True
  end.
Proof.
  destruct (connectToRedis t) as [err|] eqn:Hc.
  { rewrite scrapeRedisHost_result, Hc. eauto. }
  destruct (result (configuring e t)) as [d|r|msg'] eqn:Hcfg.
  - rewrite (scrapeRedisHost_after_config _ _ _ Hc Hcfg), fetchInfo_result.
    pose proof (luaScripts_result t (LuaScript (options e))) as Hl.
    destruct (redis.String (doRedisCmd t ["INFO"; "ALL"])) as [err|[|c s]] eqn:Hfirst.
    + destruct (redis.String (doRedisCmd t ["INFO"])) as [err'|s'].
      * exists err'. split; [reflexivity|]. right; right; left.
        split; [intros s; discriminate|reflexivity].
      * rewrite resolveDbCount_result.
        destruct (result (forM _ _)); [reflexivity| |exact I].
        destruct Hl as (fs & err' & Hfs & Herr & ->). eauto 8.
    + destruct (redis.String (doRedisCmd t ["INFO"])) as [err'|s'].
      * exists err'. split; [reflexivity|]. right; right; left.
        split; [now intros s [= <-]|reflexivity].
      * rewrite resolveDbCount_result.
        destruct (result (forM _ _)); [reflexivity| |exact I].
        destruct Hl as (fs & err' & Hfs & Herr & ->). eauto 8.
    + rewrite resolveDbCount_result.
      destruct (result (forM _ _)); [reflexivity| |exact I].
      destruct Hl as (fs & err' & Hfs & Herr & ->). eauto 8.
  - rewrite scrapeRedisHost_result, Hc, Hcfg.
    rewrite configuring_result in Hcfg.
    destruct (String.eqb_spec (ConfigCommandName (options e)) "-") as [Hn|Hn];
      [discriminate|].
    destruct (redis.Values _) as [err|config] eqn:Hv; [discriminate|].
    destruct (result (extractConfigMetrics e config)) as [[n [err|]]|[n [err|]]|msg']
      eqn:Hres; try discriminate.
    + apply extractConfigMetrics_Next in Hres. discriminate.
    + injection Hcfg as <-. exists err. split; [reflexivity|].
      right; left. split; [assumption|]. exists config, n. now split.
  - rewrite scrapeRedisHost_result, Hc, Hcfg. exact I.
Qed.

Lemma handshake_trace e t :
  trace (handshake e t)
  = ((if PingOnConnect (options e) then
        Invoke (call_doRedisCmd ["PING"])
        :: match doRedisCmd t ["PING"] with
           | inr _ => [Send (ConstGauge "exporter_last_scrape_ping_time_seconds"
                               (pingTookSeconds t) [])]
           | inl _ => []
           end
      else [])
     ++ (if SetClientName (options e)
         then [Invoke (call_doRedisCmd ["CLIENT"; "SETNAME"; "redis_exporter"])]
         else []))%list.
Proof.
  unfold handshake, cmd.
  destruct (PingOnConnect (options e)), (SetClientName (options e));
    try destruct (doRedisCmd t ["PING"]); reflexivity.
Qed.

(** X22. The timing gauges of a scrape.  A scrape begins by connecting
    and sending the connection time, also when connecting fails, and
    then it does nothing more.  Once connected, up to its next command
    (the config command, or INFO ALL when the config step is disabled)
    it does exactly this: with PingOnConnect it sends PING, and the
    ping time if and only if PING succeeds; with SetClientName it
    sends CLIENT SETNAME.  Without PingOnConnect no ping time is sent
    there. *)
Theorem X22_timing_gauges e t :
  exists rest,
    trace (scrapeRedisHost e t)
    = (Invoke call_connectToRedis
       :: Send (ConstGauge "exporter_last_scrape_connect_time_seconds"
                  (connectTookSeconds t) [])
       :: match connectToRedis t with
          | Some _ => []
          | None =>
              (if PingOnConnect (options e) then
                 Invoke (call_doRedisCmd ["PING"])
                 :: match doRedisCmd t ["PING"] with
                    | inr _ => [Send (ConstGauge "exporter_last_scrape_ping_time_seconds"
                                        (pingTookSeconds t) [])]
                    | inl _ => []
                    end
               else [])
              ++ (if SetClientName (options e)
                  then [Invoke (call_doRedisCmd ["CLIENT"; "SETNAME"; "redis_exporter"])]
                  else [])
              ++ Invoke (call_doRedisCmd
                           (if String.eqb (ConfigCommandName (options e)) "-"
                            then ["INFO"; "ALL"]
                            else [ConfigCommandName (options e); "GET"; "*"]))
                 :: rest
          end)%list.
Proof.
  unfold scrapeRedisHost.
  rewrite trace_bind, connecting_trace, connecting_result.
  destruct (connectToRedis t) as [err|].
  { exists []. reflexivity. }
  rewrite trace_bind, handshake_result, handshake_trace.
  cbn [app]. rewrite <- app_assoc.
  unfold configuring.
  destruct (String.eqb (ConfigCommandName (options e)) "-").
  - rewrite bind_ret_l. unfold fetchInfo. cbv zeta.
    rewrite trace_bind, trace_bind, cmd_trace. cbn [app]. eauto.
  - rewrite trace_bind, trace_bind, cmd_trace. cbn [app]. eauto.
Qed.

End ScrapeMore.

(** ** More on [Collect] *)

Section CollectMore.

Context {F : Float64} {lib : GoLib}.

Lemma scrapeEvent_quiet tr :
  Forall scrapeEvent tr -> totalScrapesIncs tr = 0%nat /\ scrapeDurations tr = [].
Proof.
  induction 1 as [|ev tr Hev _ [IH1 IH2]]; [now split|].
  destruct ev; try destruct Hev; split; assumption.
Qed.

Lemma extraction_scrapeEvent {R} c ms : Forall scrapeEvent (trace (extraction (R := R) c ms)).
Proof.
  constructor; [exact I|]. apply Forall_forall. intros ev Hev.
  apply list_elem_of_fmap in Hev as (m & -> & _). exact I.
Qed.

Lemma cmd_scrapeEvent {R} t args : Forall scrapeEvent (trace (cmd (R := R) t args)).
Proof. repeat constructor. Qed.

Lemma extractConfigMetrics_scrapeEvent e config :
  Forall scrapeEvent (trace (extractConfigMetrics e config)).
Proof.
  eapply Forall_impl; [apply extractConfigMetrics_events|].
  intros ev (n & v & ls & -> & _). exact I.
Qed.

Ltac scrape_events :=
  repeat first
    [ apply extraction_scrapeEvent
    | apply cmd_scrapeEvent
    | apply bind_trace_Forall; [|intros ?]
    | apply foldM_trace_Forall; intros ? ?
    | match goal with
      | |- Forall _ (trace (if ?b then _ else _)) => destruct b
      | |- Forall _ (trace (match ?x with _ => _ end)) => destruct x
      end
    | solve [repeat constructor] ].

Lemma scrapeRedisHost_scrapeEvent e t : Forall scrapeEvent (trace (scrapeRedisHost e t)).
Proof.
  unfold scrapeRedisHost.
  apply bind_trace_Forall; [rewrite connecting_trace; repeat constructor|intros _].
  apply bind_trace_Forall; [unfold handshake; scrape_events|intros _].
  apply bind_trace_Forall.
  { unfold configuring. scrape_events.
    rewrite call_trace. apply extractConfigMetrics_scrapeEvent. }
  intros d.
  apply bind_trace_Forall; [unfold fetchInfo; cbv zeta; scrape_events|intros infoAll].
  apply bind_trace_Forall; [unfold resolveDbCount; scrape_events|intros dbCount].
  unfold extractionSteps, perKeyChecks, laterSteps, forM, luaScript. cbv zeta.
  scrape_events.
Qed.

Lemma totalScrapesIncs_app tr tr' :
  totalScrapesIncs (tr ++ tr') = (totalScrapesIncs tr + totalScrapesIncs tr')%nat.
Proof. unfold totalScrapesIncs. now rewrite List.filter_app, length_app. Qed.

Lemma scrapeDurations_app tr tr' :
  scrapeDurations (tr ++ tr') = (scrapeDurations tr ++ scrapeDurations tr')%list.
Proof. apply omap_app. Qed.

(** The events of [Collect], around those of the scrape. *)
Lemma Collect_trace e t :
  trace (Collect e t)
  = (TotalScrapesInc
     :: (if String.eqb (redisAddr e) "" then []
         else
           trace (scrapeRedisHost e t)
           ++ match result (scrapeRedisHost e t) with
              | Next err | Returned err =>
                  [Send match err with
                        | Some err => ConstGauge "exporter_last_scrape_error" (f64 1) [err]
                        | None => ConstGauge "exporter_last_scrape_error" (f64 0) [""]
                        end;
                   Send (ConstGauge "up"
                           (match err with Some _ => f64 0 | None => f64 1 end) []);
                   ScrapeDurationObserve (took t);
                   Send (ConstGauge "exporter_last_scrape_duration_seconds" (took t) [])]
              | Panicked _ => []
              end)
     ++ match (if String.eqb (redisAddr e) "" then Next None
               else result (scrapeRedisHost e t)) with
        | Panicked _ => []
        | _ => [Send (OwnCollector "exporter_scrapes_total");
                Send (OwnCollector "exporter_scrape_duration_seconds");
                Send (OwnCollector "target_scrape_request_errors_total")]
        end)%list.
Proof.
  unfold Collect. destruct (String.eqb (redisAddr e) ""); [reflexivity|].
  cbn [negb].
  destruct (scrapeRedisHost e t) as [tr [[err|]|[err|]|msg]];
    cbn; rewrite <- ?app_assoc, ?app_nil_r; reflexivity.
Qed.

(** X17. [Collect] counts one scrape whatever happens.  It contacts the
    target only when the exporter has an address, and it observes one
    duration when it has an address and the scrape does not panic. *)
Theorem X17_Collect_counts_and_times e t :
  totalScrapesIncs (trace (Collect e t)) = 1%nat /\
  calls (trace (Collect e t))
  = (if String.eqb (redisAddr e) "" then [] else calls (trace (scrapeRedisHost e t))) /\
  scrapeDurations (trace (Collect e t))
  = (if String.eqb (redisAddr e) "" then []
     else match result (scrapeRedisHost e t) with
          | Panicked _ => []
          | _ => [took t]
          end).
Proof.
  rewrite Collect_trace.
  destruct (scrapeEvent_quiet _ (scrapeRedisHost_scrapeEvent e t)) as [Hn Hd].
  change (TotalScrapesInc :: ?l) with ([TotalScrapesInc] ++ l)%list.
  rewrite !totalScrapesIncs_app, !calls_app, !scrapeDurations_app.
  destruct (String.eqb (redisAddr e) ""); [now split|].
  rewrite !totalScrapesIncs_app, !calls_app, !scrapeDurations_app, Hn, Hd.
  destruct (result (scrapeRedisHost e t)) as [err|err|msg];
    cbn; rewrite ?app_nil_r; auto.
Qed.

(** X18. A panic of the scrape goes through [Collect], which then sends
    nothing after what the scrape has sent: no up, no error status and
    none of its own collectors.  Nothing else makes [Collect] panic. *)
Theorem X18_Collect_panics_with_the_scrape e t :
  result (Collect e t)
  = (if String.eqb (redisAddr e) "" then Next tt
     else match result (scrapeRedisHost e t) with
          | Panicked msg => Panicked msg
          | _ => Next tt
          end) /\
  (forall msg,
     result (Collect e t) = Panicked msg ->
     trace (Collect e t) = TotalScrapesInc :: trace (scrapeRedisHost e t)).
Proof.
  assert (Hres : result (Collect e t)
                 = (if String.eqb (redisAddr e) "" then Next tt
                    else match result (scrapeRedisHost e t) with
                         | Panicked msg => Panicked msg
                         | _ => Next tt
                         end)).
  { unfold Collect. destruct (String.eqb (redisAddr e) ""); [reflexivity|].
    cbn [negb]. now destruct (scrapeRedisHost e t) as [tr [[err|]|[err|]|msg]]. }
  split; [exact Hres|].
  intros msg Hp. rewrite Hres in Hp. rewrite Collect_trace.
  destruct (String.eqb (redisAddr e) ""); [discriminate|].
  destruct (result (scrapeRedisHost e t)); try discriminate.
  now rewrite !app_nil_r.
Qed.

End CollectMore.

(** ** [Describe] *)

Section DescribeMore.

Context {F : Float64} {lib : GoLib}.

Variable parseKeyArg : string -> option error.

Lemma filter_Permutation_length {A} (p : A -> bool) (l l' : list A) :
  l ≡ₚ l' -> length (List.filter p l) = length (List.filter p l').
Proof.
  induction 1 as [|x l l' _ IH|x y l|l l' l'' _ IH1 _ IH2]; cbn.
  - reflexivity.
  - destruct (p x); cbn; congruence.
  - destruct (p x), (p y); reflexivity.
  - congruence.
Qed.

Lemma declared_names name out :
  length (declared name out)
  = length (List.filter (fun n => String.eqb n name) (descName <$> out)).
Proof.
  unfold declared. induction out as [|d out IH]; [reflexivity|].
  cbn. destruct (String.eqb (descName d) name); cbn; congruence.
Qed.

Lemma metricDescriptions_names e :
  descName <$> (snd <$> map_to_list (metricDescriptions e))
  ≡ₚ fst <$> metricDescriptionEntries.
Proof.
  unfold metricDescriptions.
  rewrite map_to_list_to_map.
  - rewrite <- !list_fmap_compose.
    erewrite list_fmap_ext; [reflexivity|]. now intros i [k [txt lbls]] _.
  - rewrite <- list_fmap_compose.
    apply (bool_decide_eq_true_1 _). vm_compute. reflexivity.
Qed.

Lemma counter_values :
  snd <$> map_to_list (list_to_map counterEntries : gmap string string)
  ≡ₚ snd <$> counterEntries.
Proof.
  rewrite map_to_list_to_map; [reflexivity|].
  apply (bool_decide_eq_true_1 _). vm_compute. reflexivity.
Qed.

Lemma gauge_values :
  snd <$> map_to_list (list_to_map gaugeEntries : gmap string string)
  ≡ₚ snd <$> gaugeEntries.
Proof.
  rewrite map_to_list_to_map; [reflexivity|].
  apply (bool_decide_eq_true_1 _). vm_compute. reflexivity.
Qed.

Lemma gauge_values_system :
  snd <$> map_to_list (<["total_system_memory" := "total_system_memory_bytes"]>
                         (list_to_map gaugeEntries) : gmap string string)
  ≡ₚ snd <$> (("total_system_memory", "total_system_memory_bytes") :: gaugeEntries).
Proof.
  rewrite map_to_list_insert.
  - rewrite !fmap_cons. now rewrite gauge_values.
  - apply not_elem_of_list_to_map_1.
    apply (bool_decide_eq_true_1 _). vm_compute. reflexivity.
Qed.

(** The names of the descriptors that [Describe] sends are those of the
    literals, in some order. *)
Lemma Describe_names uri opts e out :
  NewRedisExporter parseKeyArg uri opts = inr e ->
  Describe e out ->
  descName <$> out ≡ₚ literalNames (InclSystemMetrics opts).
Proof.
  intros He (ds & gs & cs & Hds & Hgs & Hcs & ->).
  destruct (NewRedisExporter_inr _ _ _ _ He) as (_ & Hc & Hg).
  rewrite Hc in Hcs. rewrite Hg in Hgs. clear Hc Hg He.
  unfold literalNames.
  rewrite !fmap_app, <- !list_fmap_compose.
  rewrite (list_fmap_ext (descName ∘ plainDesc e) id gs) by reflexivity.
  rewrite (list_fmap_ext (descName ∘ plainDesc e) id cs) by reflexivity.
  rewrite !list_fmap_id.
  rewrite Hds, metricDescriptions_names, Hcs, counter_values, Hgs.
  destruct (InclSystemMetrics opts).
  - now rewrite gauge_values_system.
  - now rewrite gauge_values.
Qed.

Lemma filter_filter_implies {A} (p q : A -> bool) (l : list A) :
  (forall x, p x = true -> q x = true) ->
  List.filter p (List.filter q l) = List.filter p l.
Proof.
  intros Hpq. induction l as [|x l IH]; [reflexivity|].
  cbn. destruct (q x) eqn:Hq; cbn.
  - now rewrite IH.
  - destruct (p x) eqn:Hp; [|assumption].
    apply Hpq in Hp. congruence.
Qed.

Lemma NoDup_filter_length (name : string) (l : list string) :
  NoDup l -> (length (List.filter (fun n => String.eqb n name) l) <= 1)%nat.
Proof.
  induction 1 as [|x l Hx _ IH]; [cbn; lia|].
  cbn. destruct (String.eqb_spec x name) as [->|Hn]; [|assumption].
  cbn. enough (List.filter (fun n => String.eqb n name) l = []) as -> by (cbn; lia).
  clear IH. induction l as [|y l IH]; [reflexivity|].
  cbn. destruct (String.eqb_spec y name) as [->|Hy].
  - exfalso. apply Hx. now left.
  - apply IH. intros Hin. apply Hx. now right.
Qed.

(** In the literals one name occurs twice and every other name at most
    once. *)
Lemma literalNames_occurrences b name :
  length (List.filter (fun n => String.eqb n name) (literalNames b))
  = (if String.eqb name "expired_time_cap_reached_total" then 2%nat
     else length (List.filter (fun n => String.eqb n name)
                    (List.filter
                       (fun n => negb (String.eqb n "expired_time_cap_reached_total"))
                       (literalNames b)))) /\
  (length (List.filter (fun n => String.eqb n name)
             (List.filter
                (fun n => negb (String.eqb n "expired_time_cap_reached_total"))
                (literalNames b))) <= 1)%nat.
Proof.
  split.
  - destruct (String.eqb_spec name "expired_time_cap_reached_total") as [->|Hn].
    + destruct b; vm_compute; reflexivity.
    + rewrite filter_filter_implies; [reflexivity|].
      intros x Hx. apply String.eqb_eq in Hx as ->.
      apply String.eqb_neq in Hn. now rewrite Hn.
  - apply NoDup_filter_length.
    destruct b; apply (bool_decide_eq_true_1 _); vm_compute; reflexivity.
Qed.

(** X19. The descriptors of an exporter that [NewRedisExporter]
    returns: [Describe] sends 288 of them, and one more with
    InclSystemMetrics; it sends two descriptors named
    expired_time_cap_reached_total, and at most one of every other
    name. *)
Theorem X19_Describe_names_once_but_one uri opts e out :
  NewRedisExporter parseKeyArg uri opts = inr e ->
  Describe e out ->
  length out = (if InclSystemMetrics opts then 289 else 288)%nat /\
  forall name,
    (length (declared name out) <= 2)%nat /\
    (length (declared name out) = 2%nat <-> name = "expired_time_cap_reached_total").
Proof.
  intros He Hd. pose proof (Describe_names _ _ _ _ He Hd) as Hnames.
  split.
  - rewrite <- (length_fmap descName), (Permutation_length Hnames).
    destruct (InclSystemMetrics opts); vm_compute; reflexivity.
  - intros name.
    rewrite declared_names, (filter_Permutation_length _ _ _ Hnames).
    destruct (literalNames_occurrences (InclSystemMetrics opts) name) as [-> Hle].
    destruct (String.eqb_spec name "expired_time_cap_reached_total") as [->|Hn].
    + split; [lia|]. now split.
    + split; [lia|]. split; [lia|]. intros Heq. contradiction.
Qed.

Lemma declared_literal uri opts e out name :
  NewRedisExporter parseKeyArg uri opts = inr e ->
  Describe e out ->
  length (declared name out)
  = length (List.filter (fun n => String.eqb n name)
              (literalNames (InclSystemMetrics opts))).
Proof.
  intros He Hd. rewrite declared_names.
  apply filter_Permutation_length. exact (Describe_names _ _ _ _ He Hd).
Qed.

(** X20. What [Describe] leaves out, for an exporter that
    [NewRedisExporter] returns.  Of the metrics that
    [extractConfigMetrics] sends, the gauges config_io_threads,
    config_maxclients and config_maxmemory have no descriptor and the
    others have one; the three timing gauges of a scrape have none; the
    error status, up and the exporter's own collectors have one. *)
Theorem X20_what_Describe_leaves_out uri opts e out :
  NewRedisExporter parseKeyArg uri opts = inr e ->
  Describe e out ->
  (forall config m,
     In m (sent (trace (extractConfigMetrics e config))) ->
     (declared (metricName m) out = [] <->
      In (metricName m) ["config_io_threads"; "config_maxclients"; "config_maxmemory"]) /\
     (length (declared (metricName m) out) <= 1)%nat) /\
  (forall name,
     In name ["exporter_last_scrape_connect_time_seconds";
              "exporter_last_scrape_ping_time_seconds";
              "exporter_last_scrape_duration_seconds"] ->
     declared name out = []) /\
  (forall name,
     In name ["exporter_last_scrape_error"; "up"; "exporter_scrapes_total";
              "exporter_scrape_duration_seconds";
              "target_scrape_request_errors_total"] ->
     length (declared name out) = 1%nat).
Proof.
  intros He Hd.
  pose proof (fun name => declared_literal _ _ _ _ name He Hd) as Hlen.
  assert (Hnil : forall name, length (declared name out) = 0%nat -> declared name out = []).
  { intros name. now destruct (declared name out). }
  split; [|split].
  - intros config m Hm. apply In_sent in Hm.
    pose proof (extractConfigMetrics_events e config) as Hev.
    rewrite Forall_forall in Hev. apply list_elem_of_In in Hm.
    destruct (Hev _ Hm) as (n & v & ls & [= ->] & _ & Hn).
    cbn [metricName].
    assert (Hcases :
              In n ["config_io_threads"; "config_maxclients"; "config_maxmemory"] /\
              length (declared n out) = 0%nat \/
              ~ In n ["config_io_threads"; "config_maxclients"; "config_maxmemory"] /\
              length (declared n out) = 1%nat).
    { rewrite Hlen.
      destruct Hn as [Hn|[_ Hn]];
        repeat (destruct Hn as [<-|Hn];
                [destruct (InclSystemMetrics opts);
                 solve [left; split; [cbn; auto|vm_compute; reflexivity]
                       |right; split; [cbn; intuition discriminate|vm_compute; reflexivity]]|]);
        destruct Hn. }
    destruct Hcases as [[Hin H0]|[Hin H1]].
    + split; [|lia]. split; [auto|]. intros _. now apply Hnil.
    + split; [|lia]. split; [|contradiction]. intros H0. rewrite H0 in H1. discriminate.
  - intros name Hn. apply Hnil. rewrite Hlen.
    repeat (destruct Hn as [<-|Hn];
            [destruct (InclSystemMetrics opts); vm_compute; reflexivity|]).
    destruct Hn.
  - intros name Hn. rewrite Hlen.
    repeat (destruct Hn as [<-|Hn];
            [destruct (InclSystemMetrics opts); vm_compute; reflexivity|]).
    destruct Hn.
Qed.

Lemma NewRedisExporter_Namespace uri opts e :
  NewRedisExporter parseKeyArg uri opts = inr e ->
  Namespace (options e) = Namespace opts.
Proof.
  intros He. rewrite (NewRedisExporter_options _ _ _ _ He). cbv zeta.
  destruct (String.eqb (ConfigCommandName opts) "");
    match goal with |- context [if ?b then _ else _] => destruct b end;
    reflexivity.
Qed.

(** X21. Every descriptor that [Describe] sends is in the namespace of
    the options that were given to [NewRedisExporter], and the
    descriptors of the gauge and counter tables have no label names. *)
Theorem X21_Describe_namespace uri opts e out d :
  NewRedisExporter parseKeyArg uri opts = inr e ->
  Describe e out ->
  In d out ->
  descNamespace d = Namespace opts /\
  (metricDescriptions e !! descName d = None -> descLabels d = []).
Proof.
  intros He (ds & gs & cs & Hds & Hgs & Hcs & ->) Hd.
  rewrite <- (NewRedisExporter_Namespace _ _ _ He).
  apply in_app_or in Hd as [Hd|Hd].
  - apply list_elem_of_In in Hd. rewrite Hds in Hd.
    apply list_elem_of_fmap in Hd as ([k d'] & -> & Hkd).
    apply elem_of_map_to_list in Hkd. cbn [snd].
    assert (Hk : descName d' = k /\ descNamespace d' = Namespace (options e)).
    { unfold metricDescriptions in Hkd. apply elem_of_list_to_map_2 in Hkd.
      apply list_elem_of_fmap in Hkd as ([k' [txt lbls]] & [= -> ->] & _). now split. }
    destruct Hk as [Hname Hns]. split; [exact Hns|].
    rewrite Hname, Hkd. discriminate.
  - apply in_app_or in Hd as [Hd|Hd].
    { apply list_elem_of_In, list_elem_of_fmap in Hd as (v & -> & _). now split. }
    apply in_app_or in Hd as [Hd|Hd].
    { apply list_elem_of_In, list_elem_of_fmap in Hd as (v & -> & _). now split. }
    destruct Hd as [<-|[<-|[<-|[]]]]; now split.
Qed.

End DescribeMore.

(** ** The code run on examples *)

Import Examples.

#[local] Existing Instance Decimal.float.
#[local] Existing Instance Decimal.lib.

Ltac in_list := vm_compute; repeat (first [left; reflexivity | right]).

(** C2, counterexample: the connection and INFO succeed and the Lua
    script fails; [scrapeRedisHost] returns the script's error and
    [Collect] sends up = 0. *)
Lemma C2_lua_script_failure_is_fatal :
  let e := exporterWith luaOptions in
  let t := exampleTarget None plain32 "master" None (Some "ERR Error compiling script") in
  In (call_extractInfoMetrics "# Server" 32) (calls (trace (scrapeRedisHost e t))) /\
  result (scrapeRedisHost e t) = Returned (Some "ERR Error compiling script") /\
  result (scrapeRedisHost e t) <> Next None /\
  In (ConstGauge "up" (f64 0) []) (sent (trace (Collect e t))) /\
  In (ConstGauge "exporter_last_scrape_error" (f64 1) ["ERR Error compiling script"])
     (sent (trace (Collect e t))).
Proof.
  intros e t.
  split; [in_list|].
  split; [vm_compute; reflexivity|].
  split; [vm_compute; discriminate|].
  split; in_list.
Qed.

Lemma C2_failures_after_info_witness :
  result (scrapeRedisHost (exporterWith luaOptions)
            (exampleTarget None plain32 "master" (Some "check-keys failed") None))
  = Next None.
Proof.
  refine (proj1 (proj1 (C2_failures_after_info (exporterWith luaOptions)
                          (exampleTarget None plain32 "master" (Some "check-keys failed") None)
                          "# Server" 32 _) _)).
  - in_list.
  - intros fs _. reflexivity.
Defined.

(** C3, counterexample: the config step is enabled and the CONFIG GET
    command fails; [scrapeRedisHost] returns nil. *)
Lemma C3_config_command_failure_is_not_fatal :
  let e := exporterWith exampleOptions in
  let t := exampleTarget None noConfig "master" None None in
  ConfigCommandName (options e) <> "-" /\
  redis.Values (doRedisCmd t [ConfigCommandName (options e); "GET"; "*"])
    = inl "ERR unknown command 'CONFIG'" /\
  result (scrapeRedisHost e t) = Next None.
Proof.
  intros e t.
  split; [discriminate|].
  split; vm_compute; reflexivity.
Qed.

Lemma C3_config_failures_witness :
  In (call_doRedisCmd ["INFO"; "ALL"])
     (calls (trace (scrapeRedisHost (exporterWith exampleOptions)
                      (exampleTarget None noConfig "master" None None)))).
Proof.
  refine (proj1 (C3_config_failures (exporterWith exampleOptions)
                   (exampleTarget None noConfig "master" None None) _ _)
            "ERR unknown command 'CONFIG'" _).
  - reflexivity.
  - discriminate.
  - reflexivity.
Defined.

(** C4, counterexample: connecting fails, and [Collect] sends a metric
    that is neither up nor exporter_last_scrape_error. *)
Lemma C4_more_than_two_series :
  let e := exporterWith exampleOptions in
  let t := exampleTarget (Some refused) plain32 "master" None None in
  ~ (forall m, In m (sent (trace (Collect e t))) ->
               m = ConstGauge "up" (f64 0) [] \/
               m = ConstGauge "exporter_last_scrape_error" (f64 1) [refused]).
Proof.
  intros e t Hall.
  destruct (Hall (ConstGauge "exporter_last_scrape_connect_time_seconds" (f64 0) []))
    as [Heq|Heq]; [in_list|discriminate..].
Qed.

Lemma C4_connection_failure_witness :
  trace (Collect (exporterWith exampleOptions)
           (exampleTarget (Some refused) plain32 "master" None None))
  = [TotalScrapesInc;
     Invoke call_connectToRedis;
     Send (ConstGauge "exporter_last_scrape_connect_time_seconds" (f64 0) []);
     Send (ConstGauge "exporter_last_scrape_error" (f64 1) [refused]);
     Send (ConstGauge "up" (f64 0) []);
     ScrapeDurationObserve (f64 0);
     Send (ConstGauge "exporter_last_scrape_duration_seconds" (f64 0) []);
     Send (OwnCollector "exporter_scrapes_total");
     Send (OwnCollector "exporter_scrape_duration_seconds");
     Send (OwnCollector "target_scrape_request_errors_total")].
Proof.
  rewrite (C4_connection_failure (exporterWith exampleOptions)
             (exampleTarget (Some refused) plain32 "master" None None) refused).
  - reflexivity.
  - reflexivity.
  - discriminate.
Defined.

(** C5, counterexample: the status report has cluster_enabled:1, the
    config says 32 databases and CLUSTER INFO fails; the count stays
    32. *)
Lemma C5_cluster_flag_does_not_force_1 :
  let e := exporterWith exampleOptions in
  let t := exampleTarget None clusterDenied "master" None None in
  strings.Contains "cluster_enabled:1" "cluster_enabled:1" = true /\
  In (call_extractInfoMetrics "cluster_enabled:1" 32)
     (calls (trace (scrapeRedisHost e t))) /\
  ~ In (call_extractInfoMetrics "cluster_enabled:1" 1)
       (calls (trace (scrapeRedisHost e t))).
Proof.
  intros e t.
  split; [vm_compute; reflexivity|].
  split; [in_list|].
  vm_compute. intros Hin.
  repeat (destruct Hin as [Hin|Hin]; [discriminate|]). exact Hin.
Qed.

Lemma C5_database_count_witness :
  In (call_extractInfoMetrics "# Server" 32)
     (calls (trace (scrapeRedisHost (exporterWith exampleOptions)
                      (exampleTarget None MoreExamples.databasesFirstServer
                         "master" None None)))) /\
  32 = (if 32 =? 0 then 16 else 32).
Proof.
  assert (Hreach :
    In (call_extractInfoMetrics "# Server" 32)
       (calls (trace (scrapeRedisHost (exporterWith exampleOptions)
                        (exampleTarget None MoreExamples.databasesFirstServer
                           "master" None None)))))
    by in_list.
  split; [exact Hreach|].
  refine (proj1 (proj2 (C5_database_count _ _ _ _ Hreach) _)
            MoreExamples.databasesFirst 0%nat (RBulk "databases") (RBulk "32") "32" 32
            _ _ _ _ _ _ _ _).
  - reflexivity.
  - discriminate.
  - reflexivity.
  - reflexivity.
  - reflexivity.
  - reflexivity.
  - reflexivity.
  - vm_compute. reflexivity.
  - intros [|[|pos']] kr' Hlt Hk.
    + inversion Hlt.
    + injection Hk as <-. discriminate.
    + discriminate.
Defined.

(** C6, counterexample: there are two overcome-seconds metrics, not
    one, and the first is for the class normal. *)
Lemma C6_two_overcome_seconds :
  let out := sent (trace (extractConfigMetrics (exporterWith exampleOptions)
                            bufferLimitConfig)) in
  length (named "config_client_output_buffer_limit_overcome_seconds" out) <> 1%nat /\
  In (ConstGauge "config_client_output_buffer_limit_overcome_seconds" (f64 0)
        ["normal"; "soft"]) out.
Proof. intros out. split; [vm_compute; discriminate|in_list]. Qed.

Lemma C6_buffer_limit_two_classes_witness :
  let out := sent (trace (extractConfigMetrics (exporterWith exampleOptions)
                            bufferLimitConfig)) in
  named "config_client_output_buffer_limit_bytes" out
  = [ConstGauge "config_client_output_buffer_limit_bytes" (f64 0) ["normal"; "hard"];
     ConstGauge "config_client_output_buffer_limit_bytes" (f64 0) ["normal"; "soft"];
     ConstGauge "config_client_output_buffer_limit_bytes" (f64 10) ["slave"; "hard"];
     ConstGauge "config_client_output_buffer_limit_bytes" (f64 20) ["slave"; "soft"]] /\
  named "config_client_output_buffer_limit_overcome_seconds" out
  = [ConstGauge "config_client_output_buffer_limit_overcome_seconds" (f64 0)
       ["normal"; "soft"];
     ConstGauge "config_client_output_buffer_limit_overcome_seconds" (f64 5)
       ["slave"; "soft"]].
Proof.
  apply (C6_buffer_limit_two_classes (exporterWith exampleOptions));
    vm_compute; reflexivity.
Defined.

Lemma C7_buffer_limit_index_out_of_range_witness :
  result (extractConfigMetrics (exporterWith exampleOptions)
            [RBulk "client-output-buffer-limit"; RBulk "normal 0 0"])
  = Panicked "runtime error: index out of range".
Proof.
  apply (C7_buffer_limit_index_out_of_range (exporterWith exampleOptions) "normal 0 0").
  vm_compute. discriminate.
Defined.

(** The panic goes through [scrapeRedisHost] and [Collect]: neither up
    nor exporter_last_scrape_error is sent. *)
Example buffer_limit_panic_in_Collect :
  let e := exporterWith exampleOptions in
  let t := exampleTarget None
             (exampleServer
                (inr (RArray [RBulk "client-output-buffer-limit"; RBulk "normal 0 0"]))
                "# Server" (inl "ERR")) "master" None None in
  result (Collect e t) = Panicked "runtime error: index out of range" /\
  named "up" (sent (trace (Collect e t))) = [] /\
  named "exporter_last_scrape_error" (sent (trace (Collect e t))) = [].
Proof.
  intros e t.
  split; [|split]; vm_compute; reflexivity.
Qed.


(** C9, counterexample: with config metrics included and redacted, a
    reply that holds requirepass makes [extractConfigMetrics] send
    nothing, as the empty reply does: the presence of the key does not
    show. *)
Lemma C9_presence_not_reflected :
  let e := exporterWith redactOptions in
  InclConfigMetrics (options e) = true /\
  RedactConfigMetrics (options e) = true /\
  trace (extractConfigMetrics e [RBulk "requirepass"; RBulk "secret"]) = [] /\
  extractConfigMetrics e [RBulk "requirepass"; RBulk "secret"]
  = extractConfigMetrics e [].
Proof.
  intros e.
  split; [reflexivity|].
  split; [reflexivity|].
  split; vm_compute; reflexivity.
Qed.

Lemma C9_redacted_config_noninterference_witness :
  trace (extractConfigMetrics (exporterWith redactOptions)
           [RBulk "requirepass"; RBulk "secret"; RBulk "maxmemory"; RBulk "100"])
  = trace (extractConfigMetrics (exporterWith redactOptions)
             [RBulk "requirepass"; RBulk "hunter2"; RBulk "maxmemory"; RBulk "100"]).
Proof.
  refine (proj1 (C9_redacted_config_noninterference (exporterWith redactOptions)
                   [RBulk "requirepass"; RBulk "secret"; RBulk "maxmemory"; RBulk "100"]
                   [RBulk "requirepass"; RBulk "hunter2"; RBulk "maxmemory"; RBulk "100"]
                   _ _ _)).
  - reflexivity.
  - reflexivity.
  - split; [reflexivity|].
    intros [|[|pos]].
    + split; [reflexivity|]. right. exists (RBulk "requirepass"), "requirepass".
      repeat split. right. left. reflexivity.
    + split; [reflexivity|]. left. reflexivity.
    + split; [reflexivity|]. left. reflexivity.
Defined.


(** ** More of the code run on examples *)

Import MoreExamples.

Lemma NewRedisExporter_bareOptions :
  NewRedisExporter acceptKeys "redis://localhost:6379" bareOptions
  = inr (exporterWith exampleOptions).
Proof.
  unfold NewRedisExporter, exporterWith.
  generalize (list_to_map gaugeEntries : gmap string string).
  generalize (list_to_map counterEntries : gmap string string).
  intros counters gauges. reflexivity.
Qed.

Lemma Describe_describedInOrder e : Describe e (describedInOrder e).
Proof.
  exists (snd <$> map_to_list (metricDescriptions e)),
         (snd <$> map_to_list (metricMapGauges e)),
         (snd <$> map_to_list (metricMapCounters e)).
  repeat (split; [reflexivity|]). reflexivity.
Qed.

Lemma X2_option_defaults_witness :
  ConfigCommandName bareOptions = "" /\
  ConfigCommandName (options (exporterWith exampleOptions)) = "CONFIG".
Proof.
  split; [reflexivity|].
  exact (proj1 (proj2 (proj2
           (X2_option_defaults acceptKeys "redis://localhost:6379" bareOptions
              (exporterWith exampleOptions) NewRedisExporter_bareOptions)))).
Defined.

Lemma X3_tables_of_the_exporter_witness :
  dom (metricMapGauges (exporterWith exampleOptions))
    ∩ dom (metricMapCounters (exporterWith exampleOptions))
  = {[ "expired_time_cap_reached_count" ]}.
Proof.
  exact (proj1 (X3_tables_of_the_exporter acceptKeys "redis://localhost:6379" bareOptions
                  (exporterWith exampleOptions) NewRedisExporter_bareOptions)).
Defined.

Lemma X5_only_buffer_limit_panics_witness :
  exists pos kr vr strVal,
    [RBulk "client-output-buffer-limit"; RBulk "normal 0 0"] !! (pos * 2)%nat = Some kr /\
    redis.String (inr kr) = inr "client-output-buffer-limit" /\
    [RBulk "client-output-buffer-limit"; RBulk "normal 0 0"] !! (pos * 2 + 1)%nat = Some vr /\
    redis.String (inr vr) = inr strVal /\
    (length (strings.Split strVal " ") mod 4 <> 0)%nat.
Proof.
  refine (proj2 (X5_only_buffer_limit_panics (exporterWith exampleOptions)
                   [RBulk "client-output-buffer-limit"; RBulk "normal 0 0"]
                   "runtime error: index out of range" _)).
  vm_compute. reflexivity.
Defined.

Lemma X7_count_comes_from_databases_witness :
  32 = 0 \/
  exists pos kr vr strVal,
    limitsAndDatabases !! (pos * 2)%nat = Some kr /\
    redis.String (inr kr) = inr "databases" /\
    limitsAndDatabases !! (pos * 2 + 1)%nat = Some vr /\
    redis.String (inr vr) = inr strVal /\
    strconv.Atoi strVal = Some 32.
Proof.
  apply (X7_count_comes_from_databases (exporterWith exampleOptions) limitsAndDatabases 32).
  vm_compute. reflexivity.
Defined.

Lemma X8_config_metric_names_witness :
  In "config_maxclients"
     ["config_io_threads"; "config_maxclients"; "config_maxmemory";
      "config_client_output_buffer_limit_bytes";
      "config_client_output_buffer_limit_overcome_seconds"] \/
  InclConfigMetrics (options (exporterWith exampleOptions)) = true /\
  In "config_maxclients" ["config_key_value"; "config_value"].
Proof.
  apply (X8_config_metric_names (exporterWith exampleOptions) limitsAndDatabases
           (ConstGauge "config_maxclients" (f64 10000) [])).
  in_list.
Defined.

Lemma X9_pair_that_is_no_string_is_skipped_witness :
  extractConfigMetrics (exporterWith exampleOptions) numberForKey
  = extractConfigMetrics (exporterWith exampleOptions) [RBulk "databases"; RBulk "32"].
Proof.
  apply (X9_pair_that_is_no_string_is_skipped (exporterWith exampleOptions)
           (RInt 1) (RBulk "x") [RBulk "databases"; RBulk "32"]).
  - reflexivity.
  - left. eexists. reflexivity.
Defined.

Lemma X10_metrics_pair_by_pair_witness :
  trace (extractConfigMetrics (exporterWith exampleOptions) limitsAndDatabases)
  = [Send (ConstGauge "config_maxclients" (f64 10000) [])].
Proof.
  refine (eq_trans
            (X10_metrics_pair_by_pair (exporterWith exampleOptions)
               (RBulk "maxclients") (RBulk "10000") [RBulk "databases"; RBulk "32"] _) _).
  - reflexivity.
  - vm_compute. reflexivity.
Defined.

Lemma X11_commands_by_option_witness :
  In (call_doRedisCmd ["CONFIG"; "GET"; "*"])
     (calls (trace (scrapeRedisHost (exporterWith exampleOptions)
                      (exampleTarget None plain32 "master" None None)))).
Proof.
  refine (proj2 (proj2 (proj2
            (X11_commands_by_option (exporterWith exampleOptions)
               (exampleTarget None plain32 "master" None None) _))) _).
  - reflexivity.
  - discriminate.
Defined.

Lemma X12_status_report_fallback_witness :
  In (call_doRedisCmd ["INFO"; "ALL"])
     (calls (trace (scrapeRedisHost (exporterWith exampleOptions)
                      (exampleTarget None plain32 "master" None None)))).
Proof.
  refine (proj1 (X12_status_report_fallback (exporterWith exampleOptions)
                   (exampleTarget None plain32 "master" None None) 32 _ _)).
  - reflexivity.
  - vm_compute. reflexivity.
Defined.

Lemma X13_cluster_info_witness :
  In (call_doRedisCmd ["CLUSTER"; "INFO"])
     (calls (trace (scrapeRedisHost (exporterWith exampleOptions)
                      (exampleTarget None clusterDenied "master" None None)))).
Proof.
  refine (proj2 (proj1 (X13_cluster_info (exporterWith exampleOptions)
                          (exampleTarget None clusterDenied "master" None None)
                          "cluster_enabled:1" 32 _)) _).
  - in_list.
  - vm_compute. reflexivity.
Defined.

Lemma X14_optional_steps_witness :
  In (call_extractLatencyMetrics "# Server")
     (calls (trace (scrapeRedisHost (exporterWith exampleOptions)
                      (exampleTarget None plain32 "master" None None)))).
Proof.
  refine (proj2 (proj1 (X14_optional_steps (exporterWith exampleOptions)
                          (exampleTarget None plain32 "master" None None)
                          "# Server" 32 _) "# Server") _).
  - in_list.
  - split; reflexivity.
Defined.

Lemma X15_config_panic_ends_the_scrape_witness :
  result (scrapeRedisHost (exporterWith exampleOptions)
            (exampleTarget None shortLimitServer "master" None None))
  = Panicked "runtime error: index out of range".
Proof.
  refine (proj1 (X15_config_panic_ends_the_scrape (exporterWith exampleOptions)
                   (exampleTarget None shortLimitServer "master" None None)
                   shortLimit "runtime error: index out of range" _ _ _ _)).
  - reflexivity.
  - discriminate.
  - reflexivity.
  - vm_compute. reflexivity.
Defined.

Lemma X19_Describe_names_once_but_one_witness :
  length (describedInOrder (exporterWith exampleOptions)) = 288%nat.
Proof.
  exact (proj1 (X19_Describe_names_once_but_one acceptKeys "redis://localhost:6379"
                  bareOptions (exporterWith exampleOptions)
                  (describedInOrder (exporterWith exampleOptions))
                  NewRedisExporter_bareOptions
                  (Describe_describedInOrder (exporterWith exampleOptions)))).
Defined.

Lemma X20_what_Describe_leaves_out_witness :
  declared "exporter_last_scrape_duration_seconds"
    (describedInOrder (exporterWith exampleOptions)) = [].
Proof.
  refine (proj1 (proj2 (X20_what_Describe_leaves_out acceptKeys "redis://localhost:6379"
                          bareOptions (exporterWith exampleOptions)
                          (describedInOrder (exporterWith exampleOptions))
                          NewRedisExporter_bareOptions
                          (Describe_describedInOrder (exporterWith exampleOptions))))
            "exporter_last_scrape_duration_seconds" _).
  right. right. left. reflexivity.
Defined.

Lemma X21_Describe_namespace_witness :
  descNamespace (totalScrapesDesc (exporterWith exampleOptions)) = "redis".
Proof.
  refine (proj1 (X21_Describe_namespace acceptKeys "redis://localhost:6379"
                   bareOptions (exporterWith exampleOptions)
                   (describedInOrder (exporterWith exampleOptions))
                   (totalScrapesDesc (exporterWith exampleOptions))
                   NewRedisExporter_bareOptions
                   (Describe_describedInOrder (exporterWith exampleOptions)) _)).
  unfold describedInOrder.
  do 3 (apply in_or_app; right). left. reflexivity.
Defined.
